(** * Davis Vantage Pro driver (weather/stations/davis.py)

    A shallow embedding of the CRC engine, the record codecs, the command
    handshake and the archive download of [davis.py], followed by the
    properties of the driver that are proved about it. *)

From Stdlib Require Import Strings.String Strings.Ascii Strings.Byte.
From Stdlib Require Import Numbers.DecimalString Floats Uint63.
From Stdlib Require Import ZArith List Bool Lia.
Import ListNotations.
Open Scope string_scope.
Open Scope list_scope.
Open Scope Z_scope.
Set Warnings "-inexact-float".

(** ** Bytes

    A Python [bytes] object is a list of bytes; [array('B', data)] reads
    each of them as an unsigned integer below 256. *)

Definition bytes := list byte.

Definition byte_val (b : byte) : Z := Z.of_N (Byte.to_N b).

Definition byte_of_Z (z : Z) : byte :=
  match Byte.of_N (Z.to_N (z mod 256)) with
  | Some b => b
  | None => x00
  end.

(** ** VProCRC *)

Module VProCRC.

Definition CRC_TABLE : list Z :=
  [ 0x0; 0x1021; 0x2042; 0x3063; 0x4084; 0x50a5; 0x60c6; 0x70e7;
    0x8108; 0x9129; 0xa14a; 0xb16b; 0xc18c; 0xd1ad; 0xe1ce; 0xf1ef;
    0x1231; 0x210; 0x3273; 0x2252; 0x52b5; 0x4294; 0x72f7; 0x62d6;
    0x9339; 0x8318; 0xb37b; 0xa35a; 0xd3bd; 0xc39c; 0xf3ff; 0xe3de;
    0x2462; 0x3443; 0x420; 0x1401; 0x64e6; 0x74c7; 0x44a4; 0x5485;
    0xa56a; 0xb54b; 0x8528; 0x9509; 0xe5ee; 0xf5cf; 0xc5ac; 0xd58d;
    0x3653; 0x2672; 0x1611; 0x630; 0x76d7; 0x66f6; 0x5695; 0x46b4;
    0xb75b; 0xa77a; 0x9719; 0x8738; 0xf7df; 0xe7fe; 0xd79d; 0xc7bc;
    0x48c4; 0x58e5; 0x6886; 0x78a7; 0x840; 0x1861; 0x2802; 0x3823;
    0xc9cc; 0xd9ed; 0xe98e; 0xf9af; 0x8948; 0x9969; 0xa90a; 0xb92b;
    0x5af5; 0x4ad4; 0x7ab7; 0x6a96; 0x1a71; 0xa50; 0x3a33; 0x2a12;
    0xdbfd; 0xcbdc; 0xfbbf; 0xeb9e; 0x9b79; 0x8b58; 0xbb3b; 0xab1a;
    0x6ca6; 0x7c87; 0x4ce4; 0x5cc5; 0x2c22; 0x3c03; 0xc60; 0x1c41;
    0xedae; 0xfd8f; 0xcdec; 0xddcd; 0xad2a; 0xbd0b; 0x8d68; 0x9d49;
    0x7e97; 0x6eb6; 0x5ed5; 0x4ef4; 0x3e13; 0x2e32; 0x1e51; 0xe70;
    0xff9f; 0xefbe; 0xdfdd; 0xcffc; 0xbf1b; 0xaf3a; 0x9f59; 0x8f78;
    0x9188; 0x81a9; 0xb1ca; 0xa1eb; 0xd10c; 0xc12d; 0xf14e; 0xe16f;
    0x1080; 0xa1; 0x30c2; 0x20e3; 0x5004; 0x4025; 0x7046; 0x6067;
    0x83b9; 0x9398; 0xa3fb; 0xb3da; 0xc33d; 0xd31c; 0xe37f; 0xf35e;
    0x2b1; 0x1290; 0x22f3; 0x32d2; 0x4235; 0x5214; 0x6277; 0x7256;
    0xb5ea; 0xa5cb; 0x95a8; 0x8589; 0xf56e; 0xe54f; 0xd52c; 0xc50d;
    0x34e2; 0x24c3; 0x14a0; 0x481; 0x7466; 0x6447; 0x5424; 0x4405;
    0xa7db; 0xb7fa; 0x8799; 0x97b8; 0xe75f; 0xf77e; 0xc71d; 0xd73c;
    0x26d3; 0x36f2; 0x691; 0x16b0; 0x6657; 0x7676; 0x4615; 0x5634;
    0xd94c; 0xc96d; 0xf90e; 0xe92f; 0x99c8; 0x89e9; 0xb98a; 0xa9ab;
    0x5844; 0x4865; 0x7806; 0x6827; 0x18c0; 0x8e1; 0x3882; 0x28a3;
    0xcb7d; 0xdb5c; 0xeb3f; 0xfb1e; 0x8bf9; 0x9bd8; 0xabbb; 0xbb9a;
    0x4a75; 0x5a54; 0x6a37; 0x7a16; 0xaf1; 0x1ad0; 0x2ab3; 0x3a92;
    0xfd2e; 0xed0f; 0xdd6c; 0xcd4d; 0xbdaa; 0xad8b; 0x9de8; 0x8dc9;
    0x7c26; 0x6c07; 0x5c64; 0x4c45; 0x3ca2; 0x2c83; 0x1ce0; 0xcc1;
    0xef1f; 0xff3e; 0xcf5d; 0xdf7c; 0xaf9b; 0xbfba; 0x8fd9; 0x9ff8;
    0x6e17; 0x7e36; 0x4e55; 0x5e74; 0x2e93; 0x3eb2; 0xed1; 0x1ef0 ].

(** One turn of the loop body of [get]:
    [crc = CRC_TABLE[(crc >> 8) ^ byte] ^ ((crc & 0xFF) << 8)].
    An index outside the table raises IndexError in Python; [crc_index_in_table]
    below shows that the default of [nth] is never reached. *)
Definition crc_step (crc : Z) (b : byte) : Z :=
  Z.lxor (nth (Z.to_nat (Z.lxor (Z.shiftr crc 8) (byte_val b))) CRC_TABLE 0)
         (Z.shiftl (Z.land crc 0xFF) 8).

(** [get(data)]: the accumulator starts at 0 and takes the bytes in order. *)
Definition get (data : bytes) : Z := fold_left crc_step data 0.

(** The truth value of an integer: every integer but 0 is true. *)
Definition int_truth (z : Z) : bool := negb (z =? 0).

(** [verify(data)]: False on empty data, otherwise [not crc]. *)
Definition verify (data : bytes) : bool :=
  if Z.of_nat (length data) =? 0 then false
  else
    let crc := get data in
    negb (int_truth crc).

End VProCRC.

(** ** Python values, dictionaries and exceptions *)

(** The values a decoded record holds.  The only tuples stored in a record
    are tuples of integers ([struct.unpack('4B', ...)] and the like). *)
Inductive pyval :=
| VInt (z : Z)
| VFloat (f : float)
| VBytes (b : bytes)
| VStr (s : string)
| VTuple (l : list Z).

Inductive exn :=
| NoDeviceException
| NoNewRecordsException
| KeyError (key : string)
| StructError
| TypeError.

(** A pure computation that returns a value or raises. *)
Inductive py (A : Type) :=
| Val (a : A)
| Exc (e : exn).
Arguments Val {A} a.
Arguments Exc {A} e.

Definition py_bind {A B} (c : py A) (k : A -> py B) : py B :=
  match c with
  | Val a => k a
  | Exc e => Exc e
  end.

Notation "'let*' x ':=' c 'in' k" := (py_bind c (fun x => k))
  (at level 10, x name, c at level 100, k at level 200).

Definition bytes_eqb (a b : bytes) : bool :=
  if list_eq_dec Byte.byte_eq_dec a b then true else false.

Definition float_of_int (z : Z) : float := PrimFloat.of_uint63 (Uint63.of_Z z).

(** [a == b].  Values of different kinds are unequal (in particular a
    [bytes] object never equals a [str]); an integer and a float are
    compared as numbers. *)
Definition py_eq (a b : pyval) : bool :=
  match a, b with
  | VInt x, VInt y => x =? y
  | VFloat x, VFloat y => PrimFloat.eqb x y
  | VInt x, VFloat y => PrimFloat.eqb (float_of_int x) y
  | VFloat x, VInt y => PrimFloat.eqb x (float_of_int y)
  | VBytes x, VBytes y => bytes_eqb x y
  | VStr x, VStr y => String.eqb x y
  | VTuple x, VTuple y => if list_eq_dec Z.eq_dec x y then true else false
  | _, _ => false
  end.

Definition py_ne (a b : pyval) : bool := negb (py_eq a b).

Definition as_int (v : pyval) : py Z :=
  match v with
  | VInt z => Val z
  | _ => Exc TypeError
  end.

(** [v / d] with a float divisor. *)
Definition py_truediv (v : pyval) (d : float) : py pyval :=
  match v with
  | VInt z => Val (VFloat (PrimFloat.div (float_of_int z) d))
  | VFloat f => Val (VFloat (PrimFloat.div f d))
  | _ => Exc TypeError
  end.

(** A Python dict keeps its keys in insertion order; assigning to a key
    that is present replaces the value in place. *)
Definition dict := list (string * pyval).

Fixpoint dict_get (k : string) (d : dict) : option pyval :=
  match d with
  | [] => None
  | (k', v) :: d' => if String.eqb k k' then Some v else dict_get k d'
  end.

Fixpoint dict_set (k : string) (v : pyval) (d : dict) : dict :=
  match d with
  | [] => [(k, v)]
  | (k', v') :: d' =>
      if String.eqb k k' then (k', v) :: d' else (k', v') :: dict_set k v d'
  end.

(** [d.update(pairs)] and [dict(pairs)]. *)
Definition dict_update (d : dict) (pairs : list (string * pyval)) : dict :=
  fold_left (fun d kv => dict_set (fst kv) (snd kv) d) pairs d.

Definition dict_of (pairs : list (string * pyval)) : dict := dict_update [] pairs.

(** [items[k]], raising KeyError on a missing key. *)
Definition getitem (items : dict) (k : string) : py pyval :=
  match dict_get k items with
  | Some v => Val v
  | None => Exc (KeyError k)
  end.

(** ** Text *)

(** [str(z)] for an integer. *)
Definition str_int (z : Z) : string := NilEmpty.string_of_int (Z.to_int z).

(** ["%02d" % z]: at least two characters, padded with zeros on the left. *)
Definition fmt_02d (z : Z) : string :=
  let s := str_int z in
  if (String.length s <? 2)%nat then String "0" s else s.

(** [sep.join(parts)]. *)
Fixpoint join (sep : string) (parts : list string) : string :=
  match parts with
  | [] => EmptyString
  | [p] => p
  | p :: rest => (p ++ sep ++ join sep rest)%string
  end.

(** [s.encode()] for the ASCII text the driver sends. *)
Definition encode (s : string) : bytes := list_byte_of_string s.

(** ** The struct module *)

(** ['='] is the byte order of the host with standard sizes and no
    padding; the host's order is a parameter of the development. *)
Inductive byteorder := LittleEndian | BigEndian.

(** Format codes: ['B'] is [FB 1], ['4B'] is [FB 4], ['H'] is [FH] and
    ['4s'] is [FS 4]. *)
Inductive fcode :=
| FB (count : nat)
| FH
| FS (n : nat).

Definition code_size (c : fcode) : nat :=
  match c with
  | FB count => count
  | FH => 2
  | FS n => n
  end.

(** [struct.calcsize] *)
Definition calcsize (codes : list fcode) : nat :=
  fold_right (fun c n => (code_size c + n)%nat) 0%nat codes.

Definition byte_at (buf : bytes) (i : nat) : byte := nth i buf x00.

(** [buf[off : off + n]], for a range inside the buffer. *)
Definition slice (buf : bytes) (off n : nat) : bytes :=
  map (fun i => byte_at buf (off + i)) (seq 0 n).

Definition u16 (order : byteorder) (b0 b1 : byte) : Z :=
  match order with
  | LittleEndian => byte_val b0 + 256 * byte_val b1
  | BigEndian => 256 * byte_val b0 + byte_val b1
  end.

Definition code_values (order : byteorder) (c : fcode) (buf : bytes) (off : nat)
  : list pyval :=
  match c with
  | FB count => map (fun b => VInt (byte_val b)) (slice buf off count)
  | FH => [VInt (u16 order (byte_at buf off) (byte_at buf (off + 1)))]
  | FS n => [VBytes (slice buf off n)]
  end.

(** The values [struct.unpack_from] yields, one after the other. *)
Fixpoint unpack_values (order : byteorder) (codes : list fcode) (buf : bytes)
  (off : nat) : list pyval :=
  match codes with
  | [] => []
  | c :: cs =>
      code_values order c buf off ++
      unpack_values order cs buf (off + code_size c)
  end.

(** [struct.pack] of one ['H'] field: struct.error outside 0..65535. *)
Definition pack_H (order : byteorder) (z : Z) : py bytes :=
  if (0 <=? z) && (z <=? 65535) then
    match order with
    | LittleEndian => Val [byte_of_Z z; byte_of_Z (z / 256)]
    | BigEndian => Val [byte_of_Z (z / 256); byte_of_Z z]
    end
  else Exc StructError.

(** [struct.unpack('nB', v)]: [v] has to be [n] bytes. *)
Definition unpack_nB (n : nat) (v : pyval) : py (list Z) :=
  match v with
  | VBytes b =>
      if (List.length b =? n)%nat then Val (map byte_val b) else Exc StructError
  | _ => Exc TypeError
  end.

(** ** Struct (weather/stations/_struct.py) *)

(** Modelled from the spec: the class [Struct] of [weather/stations/_struct.py],
    which [davis.py] imports and which is not among the sources.  Decoding has
    two stages: the raw fixed layout is unpacked into a mapping from field
    name to value ([dict(zip(fields, values))]), then [_post_unpack] applies
    the transforms of the layout.  Decoding fails with struct.error when the
    input does not have the size the layout requires. *)
Record Struct := {
  FMT : list (string * fcode);
  order : byteorder;
  _post_unpack : dict -> py dict
}.

Definition fields (s : Struct) : list string := map fst (FMT s).
Definition codes (s : Struct) : list fcode := map snd (FMT s).
Definition size (s : Struct) : Z := Z.of_nat (calcsize (codes s)).

Definition raw_items (s : Struct) (buf : bytes) (off : nat) : dict :=
  dict_of (combine (fields s) (unpack_values (order s) (codes s) buf off)).

(** [s.unpack(buf)]: the buffer has exactly the size of the layout. *)
Definition unpack (s : Struct) (buf : bytes) : py dict :=
  if Z.of_nat (List.length buf) =? size s
  then _post_unpack s (raw_items s buf 0)
  else Exc StructError.

(** [s.unpack_from(buf, offset)]: at least [size] bytes from [offset] on.
    The driver only passes offsets that are not negative. *)
Definition unpack_from (s : Struct) (buf : bytes) (offset : Z) : py dict :=
  if (0 <=? offset) && (size s <=? Z.of_nat (List.length buf) - offset)
  then _post_unpack s (raw_items s buf (Z.to_nat offset))
  else Exc StructError.

(** ** LoopStruct: the pure helpers *)

(** [LoopStruct._unpack_time]: ["%02d:%02d" % divmod(val, 100)]. *)
Definition _unpack_time (val : Z) : string :=
  (fmt_02d (val / 100) ++ ":" ++ fmt_02d (val mod 100))%string.

(** [LoopStruct._unpack_storm_date]: ["%s-%s-%s" % (year, month, day)]. *)
Definition _unpack_storm_date (date : Z) : string :=
  let year := Z.land date 0x7f + 2000 in
  let day := Z.land (Z.shiftr date 7) 0x01f in
  let month := Z.land (Z.shiftr date 12) 0x0f in
  (str_int year ++ "-" ++ str_int month ++ "-" ++ str_int day)%string.

(** [_ArchiveStruct._unpack_date_time] *)
Definition _unpack_date_time (date time_ : Z) : Z * Z * Z * Z * Z :=
  let day := Z.land date 0x1f in
  let month := Z.land (Z.shiftr date 5) 0x0f in
  let year := Z.land (Z.shiftr date 9) 0x7f + 2000 in
  let hour := time_ / 100 in
  let min_ := time_ mod 100 in
  (year, month, day, hour, min_).

(** The part of a [datetime] the stamps are computed from. *)
Record datetime := {
  year : Z;
  month : Z;
  day : Z;
  hour : Z;
  minute : Z
}.

(** [VantagePro.calcDateStamp] *)
Definition calcDateStamp (date : datetime) : Z :=
  day date + month date * 32 + (year date - 2000) * 512.

(** [VantagePro.calcTimeStamp] *)
Definition calcTimeStamp (date : datetime) : Z :=
  100 * hour date + minute date.

(** ** Field transforms shared by the layouts *)

(** [items[k] = items[k] / d] *)
Definition scale_item (k : string) (d : float) (items : dict) : py dict :=
  let* v := getitem items k in
  let* q := py_truediv v d in
  Val (dict_set k q items).

(** [items[k] = struct.unpack('nB', items[k])] *)
Definition split_item (k : string) (n : nat) (items : dict) : py dict :=
  let* v := getitem items k in
  let* t := unpack_nB n v in
  Val (dict_set k (VTuple t) items).

(** [items[k] = tuple(t - 90 for t in struct.unpack('nB', items[k]))] *)
Definition split_item_90 (k : string) (n : nat) (items : dict) : py dict :=
  let* v := getitem items k in
  let* t := unpack_nB n v in
  Val (dict_set k (VTuple (map (fun t => t - 90) t)) items).

(** [items[k] = f(items[k])] for an integer field. *)
Definition map_int_item (k : string) (f : Z -> pyval) (items : dict) : py dict :=
  let* v := getitem items k in
  let* z := as_int v in
  Val (dict_set k (f z) items).

(** ** The transport and the session *)

(** What the device does at a read: it delivers bytes, or it stays silent.
    The behaviour of a device is the sequence of its answers to the reads of
    the driver. *)
Inductive Reply :=
| Data (bs : bytes)
| Silence.

(** What the driver does on the outside, in the order it happens. *)
Inductive io :=
| Write (v : pyval)
| Read (n : Z) (timeout : option float)
| Sleep (seconds : Z).

Record Port := {
  device : nat -> Reply;
  nread : nat;
  trace : list io
}.

(** The attributes of a [VantagePro] object the driver reads and writes. *)
Record VantagePro := {
  port : Port;
  _archive_time : Z * Z;
  _ARCHIVE_REV_B : option bool
}.

Definition set_port (p : Port) (self : VantagePro) : VantagePro :=
  {| port := p; _archive_time := _archive_time self;
     _ARCHIVE_REV_B := _ARCHIVE_REV_B self |}.

Definition set_archive_time (t : Z * Z) (self : VantagePro) : VantagePro :=
  {| port := port self; _archive_time := t;
     _ARCHIVE_REV_B := _ARCHIVE_REV_B self |}.

Definition set_ARCHIVE_REV_B (b : option bool) (self : VantagePro) : VantagePro :=
  {| port := port self; _archive_time := _archive_time self;
     _ARCHIVE_REV_B := b |}.

Definition log_io (e : io) (p : Port) : Port :=
  {| device := device p; nread := nread p; trace := trace p ++ [e] |}.

Definition advance (p : Port) : Port :=
  {| device := device p; nread := S (nread p); trace := trace p |}.

(** How a coroutine of the driver ends: it returns, it raises, it awaits a
    read the device never answers, or the fuel of its wake-up loop is used
    up (the loop has not ended within that many turns). *)
Inductive run (A : Type) :=
| Returns (a : A)
| Raises (e : exn)
| Blocks
| Exhausted.
Arguments Returns {A} a.
Arguments Raises {A} e.
Arguments Blocks {A}.
Arguments Exhausted {A}.

Definition M (A : Type) : Type := VantagePro -> run A * VantagePro.

Definition ret {A} (a : A) : M A := fun self => (Returns a, self).

Definition bind {A B} (c : M A) (k : A -> M B) : M B :=
  fun self =>
    match c self with
    | (Returns a, self') => k a self'
    | (Raises e, self') => (Raises e, self')
    | (Blocks, self') => (Blocks, self')
    | (Exhausted, self') => (Exhausted, self')
    end.

Notation "x <- c ;; k" := (bind c (fun x => k))
  (at level 61, c at next level, right associativity).
Notation "c ;; k" := (bind c (fun _ => k))
  (at level 61, right associativity).

Definition raise {A} (e : exn) : M A := fun self => (Raises e, self).

Definition exhausted {A} : M A := fun self => (Exhausted, self).

Definition lift {A} (c : py A) : M A :=
  match c with
  | Val a => ret a
  | Exc e => raise e
  end.

(** The session after a write, after a read and after a pause. *)
Definition wrote (v : pyval) (self : VantagePro) : VantagePro :=
  set_port (log_io (Write v) (port self)) self.

Definition did_read (n : Z) (timeout : option float) (self : VantagePro)
  : VantagePro :=
  set_port (advance (log_io (Read n timeout) (port self))) self.

Definition slept (seconds : Z) (self : VantagePro) : VantagePro :=
  set_port (log_io (Sleep seconds) (port self)) self.

(** The reply the device gives to the [k]-th read from now on. *)
Definition next_reply (self : VantagePro) (k : nat) : Reply :=
  device (port self) (nread (port self) + k).

(** [await self.port.write(v)] *)
Definition port_write (v : pyval) : M unit :=
  fun self => (Returns tt, wrote v self).

(** [await self.port.read(n)]: without a timeout the coroutine waits for as
    long as the device is silent. *)
Definition port_read (n : Z) : M bytes :=
  fun self =>
    match next_reply self 0 with
    | Data bs => (Returns bs, did_read n None self)
    | Silence => (Blocks, did_read n None self)
    end.

(** [await asyncio.wait_for(self.port.read(n), timeout=t)] inside its
    [try]: [None] stands for the TimeoutError the [except] clause catches. *)
Definition wait_for_read (n : Z) (t : float) : M (option bytes) :=
  fun self =>
    match next_reply self 0 with
    | Data bs => (Returns (Some bs), did_read n (Some t) self)
    | Silence => (Returns None, did_read n (Some t) self)
    end.

(** [time.sleep(seconds)] *)
Definition sleep (seconds : Z) : M unit :=
  fun self => (Returns tt, slept seconds self).

Definition get_archive_time : M (Z * Z) :=
  fun self => (Returns (_archive_time self), self).

Definition put_archive_time (t : Z * Z) : M unit :=
  fun self => (Returns tt, set_archive_time t self).

Definition get_ARCHIVE_REV_B : M (option bool) :=
  fun self => (Returns (_ARCHIVE_REV_B self), self).

Definition put_ARCHIVE_REV_B (b : bool) : M unit :=
  fun self => (Returns tt, set_ARCHIVE_REV_B (Some b) self).

Section Driver.

(** The byte order of the host, which ['='] and a format without prefix
    select. *)
Variable native : byteorder.

(** ** LoopStruct *)

Definition LoopStruct_FMT : list (string * fcode) :=
  [ ("LOO", FS 3); ("BarTrend", FB 1); ("PacketType", FB 1);
    ("NextRec", FH); ("Pressure", FH); ("TempIn", FH);
    ("HumIn", FB 1); ("TempOut", FH); ("WindSpeed", FB 1);
    ("WindSpeed10Min", FB 1); ("WindDir", FH); ("ExtraTemps", FS 7);
    ("SoilTemps", FS 4); ("LeafTemps", FS 4); ("HumOut", FB 1);
    ("HumExtra", FS 7); ("RainRate", FH); ("UV", FB 1);
    ("SolarRad", FH); ("RainStorm", FH); ("StormStartDate", FH);
    ("RainDay", FH); ("RainMonth", FH); ("RainYear", FH);
    ("ETDay", FH); ("ETMonth", FH); ("ETYear", FH);
    ("SoilMoist", FS 4); ("LeafWetness", FS 4); ("AlarmIn", FB 1);
    ("AlarmRain", FB 1); ("AlarmOut", FS 2); ("AlarmExTempHum", FS 8);
    ("AlarmSoilLeaf", FS 4); ("BatteryStatus", FB 1); ("BatteryVolts", FH);
    ("ForecastIcon", FB 1); ("ForecastRuleNo", FB 1); ("SunRise", FH);
    ("SunSet", FH); ("EOL", FS 2); ("CRC", FH) ].

Definition LoopStruct_post_unpack (items : dict) : py dict :=
  let* items := scale_item "Pressure" 1000 items in
  let* items := scale_item "TempIn" 10 items in
  let* items := scale_item "TempOut" 10 items in
  let* items := scale_item "RainRate" 100 items in
  let* items := scale_item "RainStorm" 100 items in
  let* items :=
    map_int_item "StormStartDate" (fun d => VStr (_unpack_storm_date d)) items in
  let* items := scale_item "RainDay" 100 items in
  let* items := scale_item "RainMonth" 100 items in
  let* items := scale_item "RainYear" 100 items in
  let* items := scale_item "ETDay" 1000 items in
  let* items := scale_item "ETMonth" 100 items in
  let* items := scale_item "ETYear" 100 items in
  let* items := split_item "SoilMoist" 4 items in
  let* items := split_item "LeafWetness" 4 items in
  (* items['BatteryVolts'] * 300 / 512.0 / 100.0 *)
  let* v := getitem items "BatteryVolts" in
  let* z := as_int v in
  let* q := py_truediv (VInt (z * 300)) 512 in
  let* q := py_truediv q 100 in
  let items := dict_set "BatteryVolts" q items in
  let* items := map_int_item "SunRise" (fun t => VStr (_unpack_time t)) items in
  let* items := map_int_item "SunSet" (fun t => VStr (_unpack_time t)) items in
  Val items.

Definition LoopStruct : Struct :=
  {| FMT := LoopStruct_FMT; order := native;
     _post_unpack := LoopStruct_post_unpack |}.

(** ** The archive record layouts *)

(** [_ArchiveStruct._post_unpack], shared by both revisions. *)
Definition _ArchiveStruct_post_unpack (items : dict) : py dict :=
  let* d := getitem items "DateStamp" in
  let* t := getitem items "TimeStamp" in
  let* date := as_int d in
  let* time_ := as_int t in
  let '(year, month, day, hour, min_) := _unpack_date_time date time_ in
  let items :=
    dict_update items
      (combine ["Year"; "Month"; "Day"; "Hour"; "Min"]
               [VInt year; VInt month; VInt day; VInt hour; VInt min_]) in
  let* items := scale_item "TempOut" 10 items in
  let* items := scale_item "TempOutHi" 10 items in
  let* items := scale_item "TempOutLow" 10 items in
  let* items := scale_item "Barometer" 1000 items in
  let* items := scale_item "TempIn" 10 items in
  let* items := scale_item "UV" 10 items in
  let* items := scale_item "UVHi" 10 items in
  let* items := scale_item "ETHour" 1000 items in
  let* items := split_item_90 "SoilTemps" 4 items in
  let* items := split_item "ExtraHum" 2 items in
  let* items := split_item "SoilMoist" 4 items in
  Val items.

Definition ArchiveA_FMT : list (string * fcode) :=
  [ ("DateStamp", FH); ("TimeStamp", FH); ("TempOut", FH);
    ("TempOutHi", FH); ("TempOutLow", FH); ("RainRate", FH);
    ("RainRateHi", FH); ("Pressure", FH); ("SolarRad", FH);
    ("WindSamps", FH); ("TempIn", FH); ("HumIn", FB 1);
    ("HumOut", FB 1); ("WindAvg", FB 1); ("WindHi", FB 1);
    ("WindHiDir", FB 1); ("WindAvgDir", FB 1); ("UV", FB 1);
    ("ETHour", FB 1); ("unused", FB 1); ("SoilMoist", FS 4);
    ("SoilTemps", FS 4); ("LeafWetness", FS 4); ("ExtraTemps", FS 2);
    ("ExtraHum", FS 2); ("ReedClosed", FH); ("ReedOpened", FH);
    ("unused", FB 1) ].

Definition ArchiveA_post_unpack (items : dict) : py dict :=
  let* items := _ArchiveStruct_post_unpack items in
  let* items := split_item "LeafWetness" 4 items in
  let* items := split_item_90 "ExtraTemps" 2 items in
  Val items.

Definition ArchiveAStruct : Struct :=
  {| FMT := ArchiveA_FMT; order := native;
     _post_unpack := ArchiveA_post_unpack |}.

Definition ArchiveB_FMT : list (string * fcode) :=
  [ ("DateStamp", FH); ("TimeStamp", FH); ("TempOut", FH);
    ("TempOutHi", FH); ("TempOutLow", FH); ("RainRate", FH);
    ("RainRateHi", FH); ("Barometer", FH); ("SolarRad", FH);
    ("WindSamps", FH); ("TempIn", FH); ("HumIn", FB 1);
    ("HumOut", FB 1); ("WindAvg", FB 1); ("WindHi", FB 1);
    ("WindHiDir", FB 1); ("WindAvgDir", FB 1); ("UV", FB 1);
    ("ETHour", FB 1); ("SolarRadHi", FH); ("UVHi", FB 1);
    ("ForecastRuleNo", FB 1); ("LeafTemps", FS 2); ("LeafWetness", FS 2);
    ("SoilTemps", FS 4); ("RecType", FB 1); ("ExtraHum", FS 2);
    ("ExtraTemps", FS 3); ("SoilMoist", FS 4) ].

Definition ArchiveB_post_unpack (items : dict) : py dict :=
  let* items := _ArchiveStruct_post_unpack items in
  let* items := split_item_90 "LeafTemps" 2 items in
  let* items := split_item "LeafWetness" 2 items in
  let* items := split_item_90 "ExtraTemps" 3 items in
  Val items.

Definition ArchiveBStruct : Struct :=
  {| FMT := ArchiveB_FMT; order := native;
     _post_unpack := ArchiveB_post_unpack |}.

(** ** The download header and the page container *)

Definition DmpStruct : Struct :=
  {| FMT := [("Pages", FH); ("Offset", FH); ("CRC", FH)]; order := native;
     _post_unpack := fun items => Val items |}.

Definition DmpPageStruct : Struct :=
  {| FMT := [("Index", FB 1); ("Records", FS 260); ("unused", FB 4); ("CRC", FH)];
     order := native;
     _post_unpack := fun items => Val items |}.

(** ** VantagePro: the device reply tokens *)

Definition WAKE_ACK : pyval := VBytes (encode (String "010" (String "013" ""))).
Definition ACK : pyval := VBytes (encode (String "006" "")).
Definition ESC : pyval := VStr (String "027" "").
Definition OK : pyval :=
  VStr (String "010" (String "013" ("OK" ++ String "010" (String "013" "")))).

(** [len(v)] of a [bytes] or a [str]. *)
Definition py_len (v : pyval) : Z :=
  match v with
  | VBytes b => Z.of_nat (List.length b)
  | VStr s => Z.of_nat (String.length s)
  | VTuple l => Z.of_nat (List.length l)
  | _ => 0
  end.

(** [(a1, a2) < (b1, b2)] on pairs of integers. *)
Definition tuple_lt (a b : Z * Z) : bool :=
  (fst a <? fst b) || ((fst a =? fst b) && (snd a <? snd b)).

(** ** VantagePro._use_rev_b_archive *)

Definition _use_rev_b_archive (records : bytes) (offset : Z) : M (option bool) :=
  cached <- get_ARCHIVE_REV_B ;;
  match cached with
  | Some b => ret (Some b)
  | None =>
      data <- lift (unpack_from ArchiveBStruct records offset) ;;
      rec_type <- lift (getitem data "RecType") ;;
      (if py_eq rec_type (VInt 0)
       then put_ARCHIVE_REV_B true
       else put_ARCHIVE_REV_B false) ;;
      get_ARCHIVE_REV_B
  end.

(** The truth value of what [_use_rev_b_archive] returns. *)
Definition truthy (b : option bool) : bool :=
  match b with
  | Some true => true
  | _ => false
  end.

(** ** VantagePro._wakeup *)

(** The [while not awake and i < 3] loop; only a timeout increments [i]. *)
Fixpoint wakeup_loop (fuel : nat) (awake : bool) (i : Z) : M bool :=
  if negb awake && (i <? 3) then
    match fuel with
    | O => exhausted
    | S fuel' =>
        port_write (VBytes (encode (String "010" ""))) ;;
        ack <- wait_for_read (py_len WAKE_ACK) 1.2 ;;
        match ack with
        | Some ack =>
            if py_eq (VBytes ack) WAKE_ACK
            then wakeup_loop fuel' true i
            else wakeup_loop fuel' awake i
        | None => wakeup_loop fuel' awake (i + 1)
        end
    end
  else ret awake.

Definition _wakeup (fuel : nat) : M unit :=
  awake <- wakeup_loop fuel false 0 ;;
  if awake then ret tt else raise NoDeviceException.

(** ** VantagePro._cmd *)

(** The [for i in range(3)] loop of [_cmd], with [n] turns left. *)
Fixpoint cmd_attempts (n : nat) (cmd : string) (ok : bool) : M unit :=
  match n with
  | O => ret tt
  | S n' =>
      port_write (VBytes (encode (cmd ++ String " " (String "010" "")))) ;;
      if ok then
        ack <- wait_for_read (py_len OK) 5 ;;
        match ack with
        | None => raise NoDeviceException
        | Some ack =>
            if py_eq (VBytes ack) OK then ret tt else cmd_attempts n' cmd ok
        end
      else
        ack <- wait_for_read (py_len ACK) 1.2 ;;
        match ack with
        | None => raise NoDeviceException
        | Some ack =>
            if py_eq (VBytes ack) ACK then ret tt else cmd_attempts n' cmd ok
        end
  end.

(** ["%s %s" % (cmd, ' '.join(str(a) for a in args))] when there are
    arguments. *)
Definition cmd_text (cmd : string) (args : list Z) : string :=
  match args with
  | [] => cmd
  | _ => cmd ++ " " ++ join " " (map str_int args)
  end.

Definition _cmd (fuel : nat) (cmd : string) (args : list Z) (ok : bool) : M unit :=
  _wakeup fuel ;;
  cmd_attempts 3 (cmd_text cmd args) ok.

(** ** VantagePro._loop_cmd and _get_loop_fields *)

Definition _loop_cmd (fuel : nat) : M bytes :=
  _cmd fuel "LOOP" [1] false ;;
  port_read (size LoopStruct).

Fixpoint loop_attempts (fuel : nat) (n : nat) (raw : bytes) (crc_ok : bool)
  : M (bytes * bool) :=
  match n with
  | O => ret (raw, crc_ok)
  | S n' =>
      raw <- _loop_cmd fuel ;;
      let crc_ok := VProCRC.verify raw in
      if crc_ok then ret (raw, crc_ok)
      else sleep 1 ;; loop_attempts fuel n' raw crc_ok
  end.

Definition _get_loop_fields (fuel : nat) : M dict :=
  r <- loop_attempts fuel 3 [] false ;;
  if negb (snd r) then raise NoDeviceException
  else lift (unpack LoopStruct (fst r)).

(** ** VantagePro._dmpaft_cmd *)

Definition as_bytes (v : pyval) : py bytes :=
  match v with
  | VBytes b => Val b
  | _ => Exc TypeError
  end.

(** [struct.pack('2H', *time_fields)] *)
Definition pack_2H (time_fields : Z * Z) : py bytes :=
  let* d := pack_H native (fst time_fields) in
  let* t := pack_H native (snd time_fields) in
  Val (d ++ t).

(** The [if self._use_rev_b_archive(...)] statement of the loop below: the
    slot at [offset] decoded under the layout [_use_rev_b_archive] answers. *)
Definition unpack_slot (page_records : bytes) (offset : Z) : M dict :=
  rev_b <- _use_rev_b_archive page_records offset ;;
  if truthy rev_b
  then lift (unpack_from ArchiveBStruct page_records offset)
  else lift (unpack_from ArchiveAStruct page_records offset).

(** Steps 6 and 7, the [while offset < ArchiveAStruct.size * 5] loop over
    the record slots of one page.  [fuel] bounds the number of turns; the
    caller passes the distance of [offset] to the end of the blob, which the
    loop never uses up ([walk_records_fuel] below). *)
Fixpoint walk_records (fuel : nat) (page_records : bytes) (offset : Z)
  (records : list dict) : M (list dict) :=
  if offset <? size ArchiveAStruct * 5 then
    match fuel with
    | O => exhausted
    | S fuel' =>
        a <- unpack_slot page_records offset ;;
        (* 7. verify that record has valid data, and store *)
        d <- lift (getitem a "DateStamp") ;;
        records <-
          (if py_ne d (VInt 0xffff) then
             t <- lift (getitem a "TimeStamp") ;;
             if py_ne t (VInt 0xffff) then ret (records ++ [a]) else ret records
           else ret records) ;;
        walk_records fuel' page_records (offset + size ArchiveAStruct) records
    end
  else ret records.

(** Steps 5 to 7, the [for i in range(dmp['Pages'])] loop with [n] pages
    left; [dmp_offset] is [dmp['Offset']]. *)
Fixpoint read_pages (n : nat) (i : Z) (dmp_offset : Z) (records : list dict)
  : M (option (list dict)) :=
  match n with
  | O => ret (Some records)
  | S n' =>
      (* 5. read page data *)
      raw <- port_read (size DmpPageStruct) ;;
      if negb (VProCRC.verify raw) then
        port_write ESC ;;
        ret None
      else
        port_write ACK ;;
        (* 6. loop through archive records *)
        page <- lift (unpack DmpPageStruct raw) ;;
        let offset := if i =? 0 then dmp_offset * size ArchiveAStruct else 0 in
        page_records <- lift (let* r := getitem page "Records" in as_bytes r) ;;
        records <-
          walk_records (Z.to_nat (size ArchiveAStruct * 5 - offset))
                       page_records offset records ;;
        read_pages n' (i + 1) dmp_offset records
  end.

Definition _dmpaft_cmd (fuel : nat) (time_fields : Z * Z)
  : M (option (list dict)) :=
  (* convert time stamp fields to buffer *)
  tbuf <- lift (pack_2H time_fields) ;;
  (* 1. send 'DMPAFT' cmd *)
  _cmd fuel "DMPAFT" [] false ;;
  (* 2. send time stamp + crc *)
  crc <- lift (pack_H BigEndian (VProCRC.get tbuf)) ;;
  port_write (VBytes (tbuf ++ crc)) ;;
  ack <- port_read (py_len ACK) ;;
  if py_ne (VBytes ack) ACK then ret None
  else
    (* 3. read pre-amble data *)
    raw <- port_read (size DmpStruct) ;;
    if negb (VProCRC.verify raw) then
      port_write ESC ;;
      ret None
    else
      port_write ACK ;;
      (* 4. loop through all page records *)
      dmp <- lift (unpack DmpStruct raw) ;;
      pages <- lift (let* v := getitem dmp "Pages" in as_int v) ;;
      dmp_offset <- lift (let* v := getitem dmp "Offset" in as_int v) ;;
      read_pages (Z.to_nat pages) 0 dmp_offset [].

(** ** VantagePro._get_new_archive_fields *)

(** The [for i in range(3)] loop around [_dmpaft_cmd], with [n] turns left. *)
Fixpoint dmpaft_attempts (fuel : nat) (n : nat) (records : option (list dict))
  : M (option (list dict)) :=
  match n with
  | O => ret records
  | S n' =>
      time_fields <- get_archive_time ;;
      records <- _dmpaft_cmd fuel time_fields ;;
      match records with
      | Some _ => ret records
      | None => sleep 1 ;; dmpaft_attempts fuel n' records
      end
  end.

(** The [for r in records] loop that finds the newest record. *)
Fixpoint newest_record (records : list dict) (new_rec : option dict)
  : M (option dict) :=
  match records with
  | [] => ret new_rec
  | r :: records' =>
      d <- lift (getitem r "DateStamp") ;;
      t <- lift (getitem r "TimeStamp") ;;
      d <- lift (as_int d) ;;
      t <- lift (as_int t) ;;
      let new_time := (d, t) in
      archive_time <- get_archive_time ;;
      if tuple_lt archive_time new_time then
        put_archive_time new_time ;;
        newest_record records' (Some r)
      else newest_record records' new_rec
  end.

Definition _get_new_archive_fields (fuel : nat) : M (option dict) :=
  records <- dmpaft_attempts fuel 3 (Some []) ;;
  match records with
  | None => raise NoNewRecordsException
  | Some records =>
      (* find the newest record *)
      newest_record records None
  end.

(** ** What a coroutine keeps and what it returns *)

(** [keeps P c]: a property of the session that holds before [c] holds
    after it, however [c] ends. *)
Definition keeps {A} (P : VantagePro -> Prop) (c : M A) : Prop :=
  forall self, P self -> P (snd (c self)).

(** [yields c Q]: every value [c] returns satisfies [Q]. *)
Definition yields {A} (c : M A) (Q : A -> Prop) : Prop :=
  forall self a self', c self = (Returns a, self') -> Q a.

(** [never_exhausted c]: [c] does not run out of fuel. *)
Definition never_exhausted {A} (c : M A) : Prop :=
  forall self, fst (c self) <> Exhausted.

(** ** The transport turns of the wake-up step and of [_cmd] *)

(** One turn of the wake-up loop on the transport. *)
Definition wakeup_turn : list io :=
  [ Write (VBytes [x0a]); Read 2 (Some 1.2%float) ].

(** The token [_cmd] compares the reply with, the timeout of the read, and
    what one turn of its loop does on the transport. *)
Definition ack_token (ok : bool) : pyval := if ok then OK else ACK.

Definition ack_timeout (ok : bool) : float := if ok then 5%float else 1.2%float.

Definition cmd_turn (text : string) (ok : bool) : list io :=
  [ Write (VBytes (encode (text ++ String " " (String "010" ""))));
    Read (py_len (ack_token ok)) (Some (ack_timeout ok)) ].

(** The session after one turn of the loop of [_cmd], and after [k] turns. *)
Definition after_cmd_turn (text : string) (ok : bool) (self : VantagePro)
  : VantagePro :=
  did_read (py_len (ack_token ok)) (Some (ack_timeout ok))
    (wrote (VBytes (encode (text ++ String " " (String "010" "")))) self).

Fixpoint after_cmd_turns (k : nat) (text : string) (ok : bool)
  (self : VantagePro) : VantagePro :=
  match k with
  | O => self
  | S k' => after_cmd_turns k' text ok (after_cmd_turn text ok self)
  end.

(** ** The raw fields of a frame and of a record slot *)

(** The 16-bit word at byte [n] of a buffer. *)
Definition raw_word (buf : bytes) (n : nat) : Z :=
  u16 native (byte_at buf n) (byte_at buf (n + 1)).

(** The DateStamp word, the TimeStamp word and the RecType byte of the slot
    that starts at byte [n] of a blob, before any decoding. *)
Definition raw_date (buf : bytes) (n : nat) : Z :=
  u16 native (byte_at buf n) (byte_at buf (n + 1)).

Definition raw_time (buf : bytes) (n : nat) : Z :=
  u16 native (byte_at buf (n + 2)) (byte_at buf (n + 3)).

Definition raw_rec_type (buf : bytes) (n : nat) : Z :=
  byte_val (byte_at buf (n + 42)).

(** The byte offsets of the slots walked in a page whose first relevant
    record is slot [k]: slots [k] to 4, none when [k] is 5 or more. *)
Definition slot_offsets (k : nat) : list Z :=
  map (fun j => Z.of_nat j * 52) (seq k (5 - k)).

(** The test of step 7 on the raw words of a slot. *)
Definition slot_collected (blob : bytes) (offset : Z) : bool :=
  negb (raw_date blob (Z.to_nat offset) =? 0xffff)
  && negb (raw_time blob (Z.to_nat offset) =? 0xffff).

(** The layout the walk from slot [k] uses is revision B: the cached flag
    says so, or there is no flag yet and the RecType byte of the first slot
    walked is 0. *)
Definition rev_b_in_force (self : VantagePro) (blob : bytes) (k : nat) : bool :=
  match _ARCHIVE_REV_B self with
  | Some b => b
  | None => raw_rec_type blob (k * 52) =? 0
  end.

(** The session after the walk from slot [k] under revision B. *)
Definition after_walk (k : nat) (self : VantagePro) : VantagePro :=
  match slot_offsets k with
  | [] => self
  | _ :: _ => set_ARCHIVE_REV_B (Some true) self
  end.

(** ** The stamps of a record *)

(** The (DateStamp, TimeStamp) pair of a record. *)
Definition stamp (r : dict) : option (Z * Z) :=
  match dict_get "DateStamp" r, dict_get "TimeStamp" r with
  | Some (VInt d), Some (VInt t) => Some (d, t)
  | _, _ => None
  end.

Definition has_stamp (r : dict) : Prop := exists p, stamp r = Some p.

Definition all_have_stamps (r : option (list dict)) : Prop :=
  match r with
  | Some records => Forall has_stamp records
  | None => True
  end.

(** [a <= b] on pairs of integers. *)
Definition tuple_le (a b : Z * Z) : bool := negb (tuple_lt b a).

(** ** Sessions and devices used as examples *)

(** A device that gives the listed answers and is silent afterwards. *)
Definition script (answers : list Reply) : nat -> Reply :=
  fun k => nth k answers Silence.

(** A session on a device, with the given watermark and no archive
    revision detected yet. *)
Definition session (dev : nat -> Reply) (archive_time : Z * Z) : VantagePro :=
  {| port := {| device := dev; nread := 0%nat; trace := [] |};
     _archive_time := archive_time;
     _ARCHIVE_REV_B := None |}.

(** A device that answers every read with two bytes that are not the wake
    acknowledgement. *)
Definition noisy_device : nat -> Reply := fun _ => Data [x00; x00].

(** A payload followed by its CRC, high byte first. *)
Definition crc_trailer (payload : bytes) : bytes :=
  let crc := VProCRC.get payload in
  payload ++ [byte_of_Z (crc / 256); byte_of_Z crc].

(** ** Frames of the download and of LOOP, for a little-endian host *)

Definition word_le (z : Z) : bytes := [byte_of_Z z; byte_of_Z (z / 256)].

(** A 52-byte record slot with the given stamps and RecType byte, all
    other fields zero, and a slot that was never written. *)
Definition slot_le (date time_ : Z) (rec_type : byte) : bytes :=
  word_le date ++ word_le time_ ++ repeat x00 38 ++ [rec_type] ++ repeat x00 9.

Definition unused_slot : bytes := repeat xff 52.

(** The 6-byte download header and the 267-byte page frame, with their
    CRC. *)
Definition header_frame_le (pages offset : Z) : bytes :=
  crc_trailer (word_le pages ++ word_le offset).

Definition page_frame (index : byte) (blob : bytes) : bytes :=
  crc_trailer ([index] ++ blob ++ repeat x00 4).

(** The replies up to the header: the wake acknowledgement, the
    acknowledgement of DMPAFT and the acknowledgement of the time stamp. *)
Definition handshake : list Reply :=
  [Data [x0a; x0d]; Data [x06]; Data [x06]].

(** A page whose first slot has the DateStamp 0xFFFF and the TimeStamp 1230
    (12:30); the other four slots were never written. *)
Definition blob_date_sentinel : bytes :=
  slot_le 0xffff 1230 x00
  ++ unused_slot ++ unused_slot ++ unused_slot ++ unused_slot.

Definition device_date_sentinel : nat -> Reply :=
  script (handshake ++ [Data (header_frame_le 1 0);
                        Data (page_frame x00 blob_date_sentinel)]).

(** A page with two records (2023-06-15 12:30 and 12:35) and three slots
    that were never written. *)
Definition blob_two_records : bytes :=
  slot_le 11983 1230 x00 ++ slot_le 11983 1235 x00
  ++ unused_slot ++ unused_slot ++ unused_slot.

Definition device_two_records : nat -> Reply :=
  script (handshake ++ [Data (header_frame_le 1 0);
                        Data (page_frame x00 blob_two_records)]).

(** A slot with a record of 2023-06-15 12:40 whose RecType byte is 0xFF. *)
Definition blob_rec_type_ff : bytes :=
  slot_le 11983 1240 xff ++ unused_slot ++ unused_slot ++ unused_slot
  ++ unused_slot.

(** A download header whose CRC does not verify, and a device that sends it
    in each of three download attempts. *)
Definition bad_header : bytes := [x01; x00; x00; x00; x00; x00].

Definition device_bad_header : nat -> Reply :=
  script (concat (repeat (handshake ++ [Data bad_header]) 3)).

(** A download of two pages: the first page verifies and holds two records,
    the second page fails its CRC check. *)
Definition bad_page : bytes := x01 :: repeat x00 266.

Definition device_bad_second_page : nat -> Reply :=
  script (handshake ++ [Data (header_frame_le 2 0);
                        Data (page_frame x00 blob_two_records);
                        Data bad_page]).

(** A LOOP frame with the pressure word 30000, the temperature words 725,
    the rain-rate word 150, the storm start date 25239, the battery word
    512, sunrise 601 and sunset 1830; all other fields are zero. *)
Definition loop_frame_le : bytes :=
  crc_trailer
    ([x4c; x4f; x4f] ++ [x00; x00] ++ word_le 0
     ++ word_le 30000 ++ word_le 725 ++ [x00] ++ word_le 725
     ++ repeat x00 27 ++ word_le 150 ++ repeat x00 5 ++ word_le 25239
     ++ repeat x00 37 ++ word_le 512 ++ [x00; x00]
     ++ word_le 601 ++ word_le 1830 ++ [x0a; x0d]).

(** ** Notions for the further properties *)

(** Two entries of the CRC table are the same entry or differ in their low
    byte. *)
Definition low_byte_differs (i j : nat) : bool :=
  Nat.eqb i j
  || negb (nth i VProCRC.CRC_TABLE 0 mod 256 =? nth j VProCRC.CRC_TABLE 0 mod 256).

(** Chronological order on the part of a [datetime] the stamps use. *)
Definition datetime_lt (a b : datetime) : Prop :=
  year a < year b
  \/ (year a = year b
      /\ (month a < month b
          \/ (month a = month b
              /\ (day a < day b
                  \/ (day a = day b
                      /\ (hour a < hour b
                          \/ (hour a = hour b /\ minute a < minute b))))))).

(** The datetimes the console can stamp. *)
Definition stampable (d : datetime) : Prop :=
  2000 <= year d <= 2127 /\ 1 <= month d <= 12 /\ 1 <= day d <= 31
  /\ 0 <= hour d <= 23 /\ 0 <= minute d <= 59.

(** The stamps of a datetime, as the watermark holds them. *)
Definition stamps (d : datetime) : Z * Z := (calcDateStamp d, calcTimeStamp d).

(** The decimal digit [d] as a character, and a number below 100 written
    with two digits. *)
Definition digit_char (d : Z) : ascii := ascii_of_nat (48 + Z.to_nat d).

Definition two_digits (z : Z) : string :=
  String (digit_char (z / 10)) (String (digit_char (z mod 10)) "").

(** The unsigned value of the byte at position [n] of a buffer, and the
    values of [count] bytes from position [n] on. *)
Definition raw_byte (buf : bytes) (n : nat) : Z := byte_val (byte_at buf n).

Definition raw_bytes (buf : bytes) (n count : nat) : list Z :=
  map byte_val (slice buf n count).

(** ** _TimeStruct *)

Definition TimeStruct_FMT : list (string * fcode) :=
  [ ("Sec", FB 1); ("Min", FB 1); ("Hour", FB 1); ("Day", FB 1);
    ("Month", FB 1); ("Year", FB 1); ("CRC", FH) ].

(** [items['Year'] = items['Year'] + 1900] *)
Definition TimeStruct_post_unpack (items : dict) : py dict :=
  map_int_item "Year" (fun y => VInt (y + 1900)) items.

Definition timeStruct : Struct :=
  {| FMT := TimeStruct_FMT; order := native;
     _post_unpack := TimeStruct_post_unpack |}.

(** A record whose stamps are integers and neither is the sentinel 0xFFFF. *)
Definition no_sentinel (r : dict) : Prop :=
  exists d t, stamp r = Some (d, t) /\ d <> 0xffff /\ t <> 0xffff.

(** A watermark word that [struct.pack] accepts for an ['H'] field. *)
Definition packable (z : Z) : Prop := 0 <= z <= 65535.

(** The session after the time stamp was sent and its acknowledgement read,
    and after the header frame was read as well. *)
Definition after_time_stamp (tbuf : bytes) (s1 : VantagePro) : VantagePro :=
  did_read 1 None (wrote (VBytes (crc_trailer tbuf)) s1).

Definition after_header (tbuf : bytes) (s1 : VantagePro) : VantagePro :=
  did_read 6 None (after_time_stamp tbuf s1).

(** The session after one turn of the wake-up loop, and after [k] turns. *)
Definition after_wakeup_turn (self : VantagePro) : VantagePro :=
  did_read 2 (Some 1.2%float) (wrote (VBytes [x0a]) self).

Fixpoint after_wakeup_turns (k : nat) (self : VantagePro) : VantagePro :=
  match k with
  | O => self
  | S k' => after_wakeup_turns k' (after_wakeup_turn self)
  end.

(** A reply that is the wake acknowledgement, and a read that times out. *)
Definition is_wake_ack (r : Reply) : bool :=
  match r with
  | Data bs => py_eq (VBytes bs) WAKE_ACK
  | Silence => false
  end.

Definition is_silence (r : Reply) : bool :=
  match r with
  | Data _ => false
  | Silence => true
  end.

(** The number of reads that time out among the next [n] reads. *)
Definition timeouts_before (self : VantagePro) (n : nat) : nat :=
  List.length (filter is_silence (map (next_reply self) (seq 0 n))).

(** The text [_loop_cmd] sends and what it does on the port after the
    wake-up: the command with its acknowledgement, then the frame read. *)
Definition loop_line : bytes :=
  encode ("LOOP 1" ++ String " " (String "010" "")).

Definition loop_turn : list io :=
  [ Write (VBytes loop_line); Read 1 (Some 1.2%float); Read 99 None ].

(** ** Further example devices *)

(** A device that never answers. *)
Definition device_asleep : nat -> Reply := fun _ => Silence.

(** The wake-up and the command are acknowledged, then a LOOP frame comes;
    the same with a two-byte answer whose CRC is 0; and three rounds with a
    99-byte frame that fails the CRC check. *)
Definition device_loop_frame : nat -> Reply :=
  script [Data [x0a; x0d]; Data [x06]; Data loop_frame_le].

Definition device_loop_short : nat -> Reply :=
  script [Data [x0a; x0d]; Data [x06]; Data [x00; x00]].

Definition bad_loop_frame : bytes := x01 :: repeat x00 98.

Definition device_loop_bad_frames : nat -> Reply :=
  script (concat (repeat [Data [x0a; x0d]; Data [x06]; Data bad_loop_frame] 3)).

(** After the wake-up the device answers each command with the six bytes of
    the literal OK reply. *)
Definition ok_bytes : bytes := [x0a; x0d; x4f; x4b; x0a; x0d].

Definition device_literal_ok : nat -> Reply :=
  script [Data [x0a; x0d]; Data ok_bytes; Data ok_bytes; Data ok_bytes].

(** After the wake-up the device answers the command with 0x15 and then
    with the acknowledgement. *)
Definition device_ack_second : nat -> Reply :=
  script [Data [x0a; x0d]; Data [x15]; Data [x06]].

(** Noise, a timeout, noise, a timeout, and then the wake acknowledgement. *)
Definition device_wakes_late : nat -> Reply :=
  script [Data [x00; x00]; Silence; Data [x00; x00]; Silence; Data [x0a; x0d]].

(** The command is acknowledged, the time stamp is answered with 0x21. *)
Definition device_bad_time_stamp_ack : nat -> Reply :=
  script [Data [x0a; x0d]; Data [x06]; Data [x21]].

(** A download of zero pages, and the same one-page download twice. *)
Definition device_empty_download : nat -> Reply :=
  script (handshake ++ [Data (header_frame_le 0 0)]).

Definition device_same_download_twice : nat -> Reply :=
  script (concat (repeat (handshake ++ [Data (header_frame_le 1 0);
                                        Data (page_frame x00 blob_two_records)])
                         2)).

(** A one-page download whose only record has the RecType byte 0xFF. *)
Definition device_rec_type_ff : nat -> Reply :=
  script (handshake ++ [Data (header_frame_le 1 0);
                        Data (page_frame x00 blob_rec_type_ff)]).

(** ** Notions and devices for the retry loops *)

(** The session after [k] turns of the retry loop of [_get_loop_fields] in
    each of which [_loop_cmd] returned a frame that failed the CRC check and
    the loop paused one second; [None] when one of the [k] turns went
    otherwise. *)
Fixpoint after_bad_frames (fuel : nat) (k : nat) (self : VantagePro)
  : option VantagePro :=
  match k with
  | O => Some self
  | S k' =>
      match _loop_cmd fuel self with
      | (Returns raw, s1) =>
          if VProCRC.verify raw then None
          else after_bad_frames fuel k' (slept 1 s1)
      | _ => None
      end
  end.

(** The first LOOP frame fails the CRC check, the second one verifies. *)
Definition device_loop_second_frame : nat -> Reply :=
  script [Data [x0a; x0d]; Data [x06]; Data bad_loop_frame;
          Data [x0a; x0d]; Data [x06]; Data loop_frame_le].

(** Three download attempts of two pages each: the first page verifies and
    holds two records, the second page fails its CRC check. *)
Definition device_bad_second_page_thrice : nat -> Reply :=
  script (concat (repeat (handshake ++ [Data (header_frame_le 2 0);
                                        Data (page_frame x00 blob_two_records);
                                        Data bad_page])
                         3)).

(** * Properties *)

(** ** The CRC engine *)

Lemma lxor_below_pow2 (a b n : Z) :
  0 <= n -> 0 <= a < 2 ^ n -> 0 <= b < 2 ^ n -> 0 <= Z.lxor a b < 2 ^ n.
Proof.
  intros Hn Ha Hb.
  assert (E : Z.lxor a b = Z.lxor a b mod 2 ^ n).
  { apply Z.bits_inj'. intros k Hk.
    destruct (Z_lt_le_dec k n) as [Hlt | Hge].
    - now rewrite Z.mod_pow2_bits_low by lia.
    - rewrite Z.mod_pow2_bits_high by lia.
      rewrite Z.lxor_spec.
      rewrite <- (Z.mod_small a (2 ^ n)), <- (Z.mod_small b (2 ^ n)) by lia.
      now rewrite !Z.mod_pow2_bits_high by lia. }
  rewrite E. apply Z.mod_pos_bound. lia.
Qed.

Lemma byte_val_range (b : byte) : 0 <= byte_val b < 256.
Proof.
  unfold byte_val. pose proof (Byte.to_N_bounded b) as H. lia.
Qed.

Lemma CRC_TABLE_range :
  Forall (fun x => 0 <= x < 65536) VProCRC.CRC_TABLE.
Proof.
  unfold VProCRC.CRC_TABLE. repeat constructor; lia.
Qed.

(** The table is never indexed outside its 256 entries. *)
Lemma crc_index_in_table (crc : Z) (b : byte) :
  0 <= crc < 65536 ->
  (Z.to_nat (Z.lxor (Z.shiftr crc 8) (byte_val b))
   < List.length VProCRC.CRC_TABLE)%nat.
Proof.
  intros Hc.
  assert (H : 0 <= Z.lxor (Z.shiftr crc 8) (byte_val b) < 2 ^ 8).
  { apply lxor_below_pow2; [lia | | apply byte_val_range].
    rewrite Z.shiftr_div_pow2 by lia.
    change (2 ^ 8) with 256.
    split; [apply Z.div_pos; lia | apply Z.div_lt_upper_bound; lia]. }
  change (List.length VProCRC.CRC_TABLE) with 256%nat.
  change (2 ^ 8) with 256 in H. lia.
Qed.

Lemma crc_step_range (crc : Z) (b : byte) :
  0 <= crc < 65536 -> 0 <= VProCRC.crc_step crc b < 65536.
Proof.
  intros Hc. unfold VProCRC.crc_step.
  change 65536 with (2 ^ 16). apply lxor_below_pow2; [lia | |].
  - pose proof CRC_TABLE_range as HT.
    rewrite Forall_forall in HT. apply HT.
    apply nth_In. now apply crc_index_in_table.
  - rewrite Z.shiftl_mul_pow2 by lia.
    change 0xFF with (Z.ones 8). rewrite Z.land_ones by lia.
    pose proof (Z.mod_pos_bound crc (2 ^ 8)). change (2 ^ 8) with 256 in *.
    change (2 ^ 16) with 65536. lia.
Qed.

(** [get] returns a 16-bit value. *)
Lemma get_range (data : bytes) : 0 <= VProCRC.get data < 65536.
Proof.
  unfold VProCRC.get.
  assert (H : forall l crc, 0 <= crc < 65536 ->
                0 <= fold_left VProCRC.crc_step l crc < 65536).
  { induction l as [| b l IH]; intros crc Hc; simpl; [exact Hc |].
    apply IH. now apply crc_step_range. }
  apply H. lia.
Qed.

(** C9: for every byte sequence [b], [verify b] is true if and only if [b]
    is not empty and [get b] (the CRC of [b]) is 0; [verify] of the empty
    sequence is false. *)
Theorem verify_iff_nonempty_and_zero_crc (b : bytes) :
  (VProCRC.verify b = true <-> b <> [] /\ VProCRC.get b = 0)
  /\ VProCRC.verify [] = false.
Proof.
  split; [| reflexivity].
  unfold VProCRC.verify.
  destruct b as [| x b].
  - simpl. split; [discriminate | intros [H _]; now elim H].
  - replace (Z.of_nat (List.length (x :: b)) =? 0) with false
      by (symmetry; apply Z.eqb_neq; simpl List.length; lia).
    unfold VProCRC.int_truth. rewrite negb_involutive, Z.eqb_eq.
    split; [intros H; split; [discriminate | exact H] | intros [_ H]; exact H].
Qed.

(** ** Date and time stamps *)

(** C10: for every datetime [d] with 2000 <= year <= 2127, 1 <= month <= 12,
    1 <= day <= 31, 0 <= hour <= 23 and 0 <= minute <= 59, decoding the
    stamps [calcDateStamp d] and [calcTimeStamp d] with [_unpack_date_time]
    gives back (year, month, day, hour, minute). *)
Theorem unpack_date_time_of_stamps (d : datetime) :
  2000 <= year d <= 2127 ->
  1 <= month d <= 12 ->
  1 <= day d <= 31 ->
  0 <= hour d <= 23 ->
  0 <= minute d <= 59 ->
  _unpack_date_time (calcDateStamp d) (calcTimeStamp d)
  = (year d, month d, day d, hour d, minute d).
Proof.
  intros Hy Hm Hd Hh Hmin.
  unfold _unpack_date_time, calcDateStamp, calcTimeStamp.
  change 0x1f with (Z.ones 5). change 0x0f with (Z.ones 4).
  change 0x7f with (Z.ones 7).
  rewrite !Z.land_ones, !Z.shiftr_div_pow2 by lia.
  change (2 ^ 5) with 32. change (2 ^ 4) with 16.
  change (2 ^ 7) with 128. change (2 ^ 9) with 512.
  set (y := year d - 2000).
  assert (Hy' : 0 <= y <= 127) by (unfold y; lia).
  assert (E1 : (day d + month d * 32 + y * 512) mod 32 = day d).
  { replace (day d + month d * 32 + y * 512)
      with (day d + (month d + y * 16) * 32) by lia.
    rewrite Z.mod_add by lia. apply Z.mod_small. lia. }
  assert (E2 : (day d + month d * 32 + y * 512) / 32 = month d + y * 16).
  { replace (day d + month d * 32 + y * 512)
      with (day d + (month d + y * 16) * 32) by lia.
    rewrite Z.div_add by lia. rewrite Z.div_small by lia. lia. }
  assert (E3 : (month d + y * 16) mod 16 = month d).
  { rewrite Z.mod_add by lia. apply Z.mod_small. lia. }
  assert (E4 : (day d + month d * 32 + y * 512) / 512 = y).
  { replace (day d + month d * 32 + y * 512)
      with ((day d + month d * 32) + y * 512) by lia.
    rewrite Z.div_add by lia. rewrite Z.div_small by lia. lia. }
  assert (E5 : y mod 128 = y) by (apply Z.mod_small; lia).
  assert (E6 : (100 * hour d + minute d) / 100 = hour d).
  { replace (100 * hour d + minute d) with (minute d + hour d * 100) by lia.
    rewrite Z.div_add by lia. rewrite Z.div_small by lia. lia. }
  assert (E7 : (100 * hour d + minute d) mod 100 = minute d).
  { replace (100 * hour d + minute d) with (minute d + hour d * 100) by lia.
    rewrite Z.mod_add by lia. apply Z.mod_small. lia. }
  rewrite E1, E2, E3, E4, E5, E6, E7.
  unfold y. repeat f_equal. lia.
Qed.

(** ** The LOOP record *)

Example unpack_time_601 : _unpack_time 601 = "06:01".
Proof. reflexivity. Qed.

(** C7: the code renders the storm start date with ["%s-%s-%s"], so month and
    day are not padded to two digits: the packed date with year 23 in the low
    7 bits, day 5 in the next 5 and month 6 in the top 4 (25239) becomes
    "2023-6-5", which is not the "YYYY-MM-DD" text "2023-06-05". *)
Theorem unpack_storm_date_not_padded :
  _unpack_storm_date (23 + 5 * 128 + 6 * 4096) = "2023-6-5"
  /\ _unpack_storm_date (23 + 5 * 128 + 6 * 4096) <> "2023-06-05".
Proof.
  split; [reflexivity | discriminate].
Qed.

(** ** The wake-up step *)

Lemma next_reply_wrote (v : pyval) (self : VantagePro) (k : nat) :
  next_reply (wrote v self) k = next_reply self k.
Proof. reflexivity. Qed.

Lemma next_reply_did_read (n : Z) (t : option float) (self : VantagePro) (k : nat) :
  next_reply (did_read n t self) k = next_reply self (S k).
Proof.
  unfold next_reply. simpl. f_equal. lia.
Qed.

Lemma wait_for_read_data (n : Z) (t : float) (self : VantagePro) (bs : bytes) :
  next_reply self 0 = Data bs ->
  wait_for_read n t self = (Returns (Some bs), did_read n (Some t) self).
Proof.
  intros H. unfold wait_for_read. now rewrite H.
Qed.

Lemma wait_for_read_silence (n : Z) (t : float) (self : VantagePro) :
  next_reply self 0 = Silence ->
  wait_for_read n t self = (Returns None, did_read n (Some t) self).
Proof.
  intros H. unfold wait_for_read. now rewrite H.
Qed.

(** The equation of the loop. *)
Lemma wakeup_loop_eq (fuel : nat) (awake : bool) (i : Z) :
  wakeup_loop fuel awake i
  = if negb awake && (i <? 3) then
      match fuel with
      | O => exhausted
      | S fuel' =>
          port_write (VBytes (encode (String "010" ""))) ;;
          ack <- wait_for_read (py_len WAKE_ACK) 1.2 ;;
          match ack with
          | Some ack =>
              if py_eq (VBytes ack) WAKE_ACK
              then wakeup_loop fuel' true i
              else wakeup_loop fuel' awake i
          | None => wakeup_loop fuel' awake (i + 1)
          end
      end
    else ret awake.
Proof. destruct fuel; reflexivity. Qed.

Lemma wakeup_loop_awake (fuel : nat) (i : Z) (self : VantagePro) :
  wakeup_loop fuel true i self = (Returns true, self).
Proof. rewrite wakeup_loop_eq. reflexivity. Qed.

Lemma wakeup_loop_gives_up (fuel : nat) (i : Z) (self : VantagePro) :
  3 <= i -> wakeup_loop fuel false i self = (Returns false, self).
Proof.
  intros Hi. rewrite wakeup_loop_eq.
  replace (i <? 3) with false by (symmetry; apply Z.ltb_ge; exact Hi).
  reflexivity.
Qed.

(** One turn of the loop when the reply is not the wake acknowledgement:
    [awake] and [i] are what they were. *)
Lemma wakeup_loop_mismatch (fuel : nat) (i : Z) (self : VantagePro) (bs : bytes) :
  i < 3 ->
  next_reply self 0 = Data bs ->
  py_eq (VBytes bs) WAKE_ACK = false ->
  wakeup_loop (S fuel) false i self
  = wakeup_loop fuel false i
      (did_read 2 (Some 1.2%float) (wrote (VBytes [x0a]) self)).
Proof.
  intros Hi Hr Hne. rewrite wakeup_loop_eq.
  replace (i <? 3) with true by (symmetry; apply Z.ltb_lt; exact Hi).
  cbv beta iota delta [negb andb bind port_write].
  rewrite (wait_for_read_data _ _ _ bs) by exact Hr.
  cbv beta iota. rewrite Hne. reflexivity.
Qed.

(** One turn of the loop when the read times out: [i] is incremented. *)
Lemma wakeup_loop_timeout (fuel : nat) (i : Z) (self : VantagePro) :
  i < 3 ->
  next_reply self 0 = Silence ->
  wakeup_loop (S fuel) false i self
  = wakeup_loop fuel false (i + 1)
      (did_read 2 (Some 1.2%float) (wrote (VBytes [x0a]) self)).
Proof.
  intros Hi Hr. rewrite wakeup_loop_eq.
  replace (i <? 3) with true by (symmetry; apply Z.ltb_lt; exact Hi).
  cbv beta iota delta [negb andb bind port_write].
  rewrite wait_for_read_silence by exact Hr.
  reflexivity.
Qed.

(** One turn of the loop when the reply is the wake acknowledgement. *)
Lemma wakeup_loop_ack (fuel : nat) (i : Z) (self : VantagePro) (bs : bytes) :
  i < 3 ->
  next_reply self 0 = Data bs ->
  py_eq (VBytes bs) WAKE_ACK = true ->
  wakeup_loop (S fuel) false i self
  = (Returns true, did_read 2 (Some 1.2%float) (wrote (VBytes [x0a]) self)).
Proof.
  intros Hi Hr Heq. rewrite wakeup_loop_eq.
  replace (i <? 3) with true by (symmetry; apply Z.ltb_lt; exact Hi).
  cbv beta iota delta [negb andb bind port_write].
  rewrite (wait_for_read_data _ _ _ bs) by exact Hr.
  cbv beta iota. rewrite Heq. apply wakeup_loop_awake.
Qed.

Lemma concat_repeat_snoc {A} (l : list A) (k : nat) :
  concat (repeat l k) ++ l = concat (repeat l (S k)).
Proof.
  induction k as [| k IH]; simpl.
  - now rewrite app_nil_r.
  - rewrite <- app_assoc. f_equal. exact IH.
Qed.

Lemma wakeup_loop_noisy (fuel : nat) :
  forall (i : Z) (self : VantagePro),
  i < 3 ->
  (forall k, exists bs,
      next_reply self k = Data bs /\ py_eq (VBytes bs) WAKE_ACK = false) ->
  fst (wakeup_loop fuel false i self) = Exhausted
  /\ trace (port (snd (wakeup_loop fuel false i self)))
     = trace (port self) ++ concat (repeat wakeup_turn fuel).
Proof.
  induction fuel as [| fuel IH]; intros i self Hi Hdev.
  - rewrite wakeup_loop_eq.
    replace (i <? 3) with true by (symmetry; apply Z.ltb_lt; exact Hi).
    simpl. now rewrite app_nil_r.
  - destruct (Hdev 0%nat) as [bs [Hr Hne]].
    rewrite (wakeup_loop_mismatch fuel i self bs Hi Hr Hne).
    destruct (IH i (did_read 2 (Some 1.2%float) (wrote (VBytes [x0a]) self)) Hi)
      as [Hres Htr].
    + intros k. rewrite next_reply_did_read, next_reply_wrote. apply Hdev.
    + split; [exact Hres |].
      rewrite Htr. simpl. now rewrite <- !app_assoc.
Qed.

(** C3: the code deviates from the claim.  When the device answers every
    read with bytes that are not the wake acknowledgement, no read times
    out, the attempt counter of [_wakeup] stays at 0 and the loop does not
    end: for every amount of fuel the loop is still running after that many
    write-and-read attempts, and no device-unreachable failure is raised. *)
Theorem wakeup_never_ends_on_mismatch (fuel : nat) (self : VantagePro) :
  (forall k, exists bs,
      next_reply self k = Data bs /\ py_eq (VBytes bs) WAKE_ACK = false) ->
  fst (_wakeup fuel self) = Exhausted
  /\ trace (port (snd (_wakeup fuel self)))
     = trace (port self) ++ concat (repeat wakeup_turn fuel).
Proof.
  intros Hdev.
  destruct (wakeup_loop_noisy fuel 0 self ltac:(lia) Hdev) as [Hres Htr].
  unfold _wakeup, bind.
  destruct (wakeup_loop fuel false 0 self) as [r s'].
  simpl in Hres, Htr. subst r. simpl. exact (conj eq_refl Htr).
Qed.

(** The part of the wake-up step that holds: three reads that time out end
    the step with the device-unreachable failure after three attempts. *)
Lemma wakeup_three_timeouts (fuel : nat) (self : VantagePro) :
  (3 <= fuel)%nat ->
  (forall k, (k < 3)%nat -> next_reply self k = Silence) ->
  fst (_wakeup fuel self) = Raises NoDeviceException
  /\ trace (port (snd (_wakeup fuel self)))
     = trace (port self) ++ concat (repeat wakeup_turn 3).
Proof.
  intros Hf Hdev.
  destruct fuel as [| [| [| fuel]]]; try lia.
  unfold _wakeup, bind.
  rewrite wakeup_loop_timeout by (try lia; apply Hdev; lia).
  rewrite wakeup_loop_timeout
    by (try lia; rewrite next_reply_did_read, next_reply_wrote; apply Hdev; lia).
  rewrite wakeup_loop_timeout
    by (try lia; rewrite next_reply_did_read, next_reply_wrote,
          next_reply_did_read, next_reply_wrote; apply Hdev; lia).
  rewrite wakeup_loop_gives_up by lia.
  simpl. split; [reflexivity |]. now rewrite <- !app_assoc.
Qed.

(** The part of the wake-up step that holds: the step succeeds as soon as a
    read returns the wake acknowledgement. *)
Lemma wakeup_first_ack (fuel : nat) (self : VantagePro) :
  (1 <= fuel)%nat ->
  next_reply self 0 = Data [x0a; x0d] ->
  _wakeup fuel self
  = (Returns tt, did_read 2 (Some 1.2%float) (wrote (VBytes [x0a]) self)).
Proof.
  intros Hf Hr. destruct fuel as [| fuel]; [lia |].
  unfold _wakeup, bind.
  rewrite (wakeup_loop_ack fuel 0 self [x0a; x0d]) by (lia || easy).
  reflexivity.
Qed.

(** More than three attempts: five replies that do not match, then the
    acknowledgement; the step succeeds at the sixth attempt. *)
Example wakeup_six_attempts :
  let dev := script (repeat (Data [x00; x00]) 5 ++ [Data [x0a; x0d]]) in
  fst (_wakeup 10 (session dev (0, 0))) = Returns tt
  /\ trace (port (snd (_wakeup 10 (session dev (0, 0)))))
     = concat (repeat wakeup_turn 6).
Proof.
  split; vm_compute; reflexivity.
Qed.

(** ** The command handshake *)

Lemma cmd_attempts_eq (n : nat) (text : string) (ok : bool) :
  cmd_attempts n text ok
  = match n with
    | O => ret tt
    | S n' =>
        port_write (VBytes (encode (text ++ String " " (String "010" "")))) ;;
        ack <- wait_for_read (py_len (ack_token ok)) (ack_timeout ok) ;;
        match ack with
        | None => raise NoDeviceException
        | Some ack =>
            if py_eq (VBytes ack) (ack_token ok) then ret tt
            else cmd_attempts n' text ok
        end
    end.
Proof. destruct n, ok; reflexivity. Qed.

(** A reply that is not the acknowledgement: the next turn of the loop. *)
Lemma cmd_attempts_mismatch (n : nat) (text : string) (ok : bool)
  (self : VantagePro) (bs : bytes) :
  next_reply self 0 = Data bs ->
  py_eq (VBytes bs) (ack_token ok) = false ->
  cmd_attempts (S n) text ok self
  = cmd_attempts n text ok (after_cmd_turn text ok self).
Proof.
  intros Hr Hne. rewrite cmd_attempts_eq.
  cbv beta iota delta [bind port_write].
  rewrite (wait_for_read_data _ _ _ bs) by exact Hr.
  cbv beta iota. rewrite Hne. reflexivity.
Qed.

(** A read that times out: the failure, at once. *)
Lemma cmd_attempts_timeout (n : nat) (text : string) (ok : bool)
  (self : VantagePro) :
  next_reply self 0 = Silence ->
  cmd_attempts (S n) text ok self
  = (Raises NoDeviceException, after_cmd_turn text ok self).
Proof.
  intros Hr. rewrite cmd_attempts_eq.
  cbv beta iota delta [bind port_write].
  rewrite wait_for_read_silence by exact Hr.
  reflexivity.
Qed.

(** A reply that is the acknowledgement: the command is confirmed. *)
Lemma cmd_attempts_ack (n : nat) (text : string) (ok : bool)
  (self : VantagePro) (bs : bytes) :
  next_reply self 0 = Data bs ->
  py_eq (VBytes bs) (ack_token ok) = true ->
  cmd_attempts (S n) text ok self
  = (Returns tt, after_cmd_turn text ok self).
Proof.
  intros Hr Heq. rewrite cmd_attempts_eq.
  cbv beta iota delta [bind port_write].
  rewrite (wait_for_read_data _ _ _ bs) by exact Hr.
  cbv beta iota. rewrite Heq. reflexivity.
Qed.

(** On the literal-OK path the reply, a [bytes] object, is compared with the
    [str] [OK]: no reply is equal to it. *)
Lemma reply_never_equals_OK (bs : bytes) : py_eq (VBytes bs) OK = false.
Proof. reflexivity. Qed.

Lemma next_reply_after_cmd_turns (k : nat) (text : string) (ok : bool) :
  forall (self : VantagePro) (j : nat),
  next_reply (after_cmd_turns k text ok self) j = next_reply self (k + j).
Proof.
  induction k as [| k IH]; intros self j; simpl; [reflexivity |].
  rewrite IH. unfold after_cmd_turn.
  now rewrite next_reply_did_read, next_reply_wrote.
Qed.

Lemma trace_after_cmd_turns (k : nat) (text : string) (ok : bool) :
  forall self : VantagePro,
  trace (port (after_cmd_turns k text ok self))
  = trace (port self) ++ concat (repeat (cmd_turn text ok) k).
Proof.
  induction k as [| k IH]; intros self; simpl.
  - now rewrite app_nil_r.
  - rewrite IH. simpl. now rewrite <- !app_assoc.
Qed.

Lemma cmd_attempts_mismatches (k : nat) (text : string) (ok : bool) :
  forall (n : nat) (self : VantagePro),
  (forall j, (j < k)%nat -> exists bs,
      next_reply self j = Data bs /\ py_eq (VBytes bs) (ack_token ok) = false) ->
  cmd_attempts (k + n) text ok self
  = cmd_attempts n text ok (after_cmd_turns k text ok self).
Proof.
  induction k as [| k IH]; intros n self Hdev; [reflexivity |].
  destruct (Hdev 0%nat ltac:(lia)) as [bs [Hr Hne]].
  change (S k + n)%nat with (S (k + n)).
  rewrite (cmd_attempts_mismatch _ _ _ _ bs Hr Hne).
  simpl after_cmd_turns. apply IH.
  intros j Hj. unfold after_cmd_turn.
  rewrite next_reply_did_read, next_reply_wrote. apply Hdev. lia.
Qed.

(** C4: in [_cmd], once the device is awake, a timeout on the
    acknowledgement read (1.2 seconds on the short-ack path, 5 seconds on
    the literal-OK path) raises the device-unreachable failure at once, with
    no further send: if the first [k] replies (k < 3) do not match and the
    next read times out, the call raises after [k + 1] turns.  A reply that
    does not match makes the loop send the command again, up to 3 times in
    all, and after 3 replies that do not match the call returns normally,
    with the value it also returns when the command is confirmed. *)
Theorem cmd_timeout_raises_mismatch_returns
  (fuel : nat) (cmd : string) (args : list Z) (ok : bool)
  (self s1 : VantagePro) :
  _wakeup fuel self = (Returns tt, s1) ->
  let turn := cmd_turn (cmd_text cmd args) ok in
  (forall k, (k < 3)%nat ->
     (forall j, (j < k)%nat -> exists bs,
         next_reply s1 j = Data bs
         /\ py_eq (VBytes bs) (ack_token ok) = false) ->
     next_reply s1 k = Silence ->
     fst (_cmd fuel cmd args ok self) = Raises NoDeviceException
     /\ trace (port (snd (_cmd fuel cmd args ok self)))
        = trace (port s1) ++ concat (repeat turn (S k)))
  /\ ((forall j, (j < 3)%nat -> exists bs,
         next_reply s1 j = Data bs
         /\ py_eq (VBytes bs) (ack_token ok) = false) ->
      fst (_cmd fuel cmd args ok self) = Returns tt
      /\ trace (port (snd (_cmd fuel cmd args ok self)))
         = trace (port s1) ++ concat (repeat turn 3)).
Proof.
  intros Hwake turn.
  assert (E : _cmd fuel cmd args ok self
              = cmd_attempts 3 (cmd_text cmd args) ok s1).
  { unfold _cmd, bind. now rewrite Hwake. }
  rewrite E. clear E. split.
  - intros k Hk Hmis Hsil.
    replace 3%nat with (k + S (2 - k))%nat by lia.
    rewrite cmd_attempts_mismatches by exact Hmis.
    rewrite cmd_attempts_timeout
      by (rewrite next_reply_after_cmd_turns, Nat.add_0_r; exact Hsil).
    split; [reflexivity |].
    cbn [snd]. unfold after_cmd_turn. cbn [did_read wrote set_port port trace advance log_io].
    rewrite trace_after_cmd_turns.
    rewrite <- concat_repeat_snoc. unfold turn, cmd_turn.
    now rewrite <- !app_assoc.
  - intros Hmis.
    change 3%nat with (3 + 0)%nat.
    rewrite cmd_attempts_mismatches by exact Hmis.
    rewrite cmd_attempts_eq. split; [reflexivity |].
    cbn [snd ret]. apply trace_after_cmd_turns.
Qed.

(** ** The archive record layouts *)

Lemma size_ArchiveAStruct : size ArchiveAStruct = 52.
Proof. reflexivity. Qed.

Lemma size_ArchiveBStruct : size ArchiveBStruct = 52.
Proof. reflexivity. Qed.

Lemma unpack_from_in_range (s : Struct) (buf : bytes) (offset : Z) :
  0 <= offset ->
  offset + size s <= Z.of_nat (List.length buf) ->
  unpack_from s buf offset = _post_unpack s (raw_items s buf (Z.to_nat offset)).
Proof.
  intros H0 H1. unfold unpack_from.
  replace (0 <=? offset) with true by (symmetry; apply Z.leb_le; lia).
  replace (size s <=? Z.of_nat (List.length buf) - offset) with true
    by (symmetry; apply Z.leb_le; lia).
  reflexivity.
Qed.

Ltac same_byte :=
  match goal with
  | |- byte_at _ ?a = byte_at _ ?b => f_equal; lia
  end.

Ltac decode_layout :=
  unfold raw_items, fields, codes, dict_of;
  cbn -[byte_at u16 byte_val float_of_int PrimFloat.div
        Z.land Z.shiftr Z.div Z.modulo Z.sub Z.add].

(** Under revision B a slot always decodes, and DateStamp, TimeStamp and
    RecType of the record are the raw words of the slot. *)
Lemma ArchiveB_post_unpack_raw (buf : bytes) (n : nat) :
  exists a,
    _post_unpack ArchiveBStruct (raw_items ArchiveBStruct buf n) = Val a
    /\ getitem a "DateStamp" = Val (VInt (raw_date buf n))
    /\ getitem a "TimeStamp" = Val (VInt (raw_time buf n))
    /\ getitem a "RecType" = Val (VInt (raw_rec_type buf n)).
Proof.
  unfold ArchiveBStruct. decode_layout.
  eexists. split; [reflexivity |].
  cbn -[byte_at u16 byte_val float_of_int PrimFloat.div
        Z.land Z.shiftr Z.div Z.modulo Z.sub Z.add].
  unfold raw_date, raw_time, raw_rec_type.
  repeat split; try reflexivity;
    repeat first [ same_byte | progress f_equal ].
Qed.

Lemma ArchiveB_unpack_from (buf : bytes) (offset : Z) :
  0 <= offset ->
  offset + 52 <= Z.of_nat (List.length buf) ->
  exists a,
    unpack_from ArchiveBStruct buf offset = Val a
    /\ getitem a "DateStamp" = Val (VInt (raw_date buf (Z.to_nat offset)))
    /\ getitem a "TimeStamp" = Val (VInt (raw_time buf (Z.to_nat offset)))
    /\ getitem a "RecType" = Val (VInt (raw_rec_type buf (Z.to_nat offset))).
Proof.
  intros H0 H1.
  rewrite unpack_from_in_range by (rewrite ?size_ArchiveBStruct; lia).
  apply ArchiveB_post_unpack_raw.
Qed.

(** Under revision A the shared transform asks for the key Barometer, which
    the revision-A layout does not have (its pressure field is Pressure):
    no slot decodes. *)
Lemma ArchiveA_unpack_from (buf : bytes) (offset : Z) :
  0 <= offset ->
  offset + 52 <= Z.of_nat (List.length buf) ->
  unpack_from ArchiveAStruct buf offset = Exc (KeyError "Barometer").
Proof.
  intros H0 H1.
  rewrite unpack_from_in_range by (rewrite ?size_ArchiveAStruct; lia).
  unfold ArchiveAStruct. decode_layout. reflexivity.
Qed.

(** ** Revision detection *)

(** A cached flag is returned as it is, and the session is not touched. *)
Lemma use_rev_b_cached (b : bool) (records : bytes) (offset : Z)
  (self : VantagePro) :
  _ARCHIVE_REV_B self = Some b ->
  _use_rev_b_archive records offset self = (Returns (Some b), self).
Proof.
  intros H. unfold _use_rev_b_archive, bind, get_ARCHIVE_REV_B.
  now rewrite H.
Qed.

(** Without a flag the slot is decoded under revision B and the flag is set
    from its RecType byte. *)
Lemma use_rev_b_probe (records : bytes) (offset : Z) (self : VantagePro) :
  _ARCHIVE_REV_B self = None ->
  0 <= offset ->
  offset + 52 <= Z.of_nat (List.length records) ->
  let b := raw_rec_type records (Z.to_nat offset) =? 0 in
  _use_rev_b_archive records offset self
  = (Returns (Some b), set_ARCHIVE_REV_B (Some b) self).
Proof.
  intros H H0 H1 b.
  destruct (ArchiveB_unpack_from records offset H0 H1) as [a [Ha [_ [_ Hr]]]].
  unfold _use_rev_b_archive, bind, get_ARCHIVE_REV_B.
  rewrite H, Ha. cbn [lift ret]. rewrite Hr. cbn [lift ret py_eq].
  fold b. destruct b; reflexivity.
Qed.

(** ** The walk over the record slots of a page *)

Lemma walk_records_eq (fuel : nat) (page_records : bytes) (offset : Z)
  (records : list dict) :
  walk_records fuel page_records offset records
  = if offset <? size ArchiveAStruct * 5 then
      match fuel with
      | O => exhausted
      | S fuel' =>
          a <- unpack_slot page_records offset ;;
          d <- lift (getitem a "DateStamp") ;;
          records <-
            (if py_ne d (VInt 0xffff) then
               t <- lift (getitem a "TimeStamp") ;;
               if py_ne t (VInt 0xffff) then ret (records ++ [a])
               else ret records
             else ret records) ;;
          walk_records fuel' page_records (offset + size ArchiveAStruct) records
      end
    else ret records.
Proof. destruct fuel; reflexivity. Qed.

(** One slot for which [_use_rev_b_archive] answers revision B: the slot
    decodes, and the record is appended exactly when neither raw stamp is
    0xFFFF. *)
Lemma walk_records_slot (fuel : nat) (blob : bytes) (offset : Z)
  (records : list dict) (self self' : VantagePro) :
  _use_rev_b_archive blob offset self = (Returns (Some true), self') ->
  0 <= offset < 260 ->
  offset + 52 <= Z.of_nat (List.length blob) ->
  exists a,
    unpack_from ArchiveBStruct blob offset = Val a
    /\ walk_records (S fuel) blob offset records self
       = walk_records fuel blob (offset + 52)
           (if slot_collected blob offset then records ++ [a] else records)
           self'.
Proof.
  intros Hrev Hoff Hlen.
  destruct (ArchiveB_unpack_from blob offset ltac:(lia) Hlen)
    as [a [Ha [Hd [Ht _]]]].
  exists a. split; [exact Ha |].
  rewrite walk_records_eq. rewrite size_ArchiveAStruct.
  replace (offset <? 52 * 5) with true by (symmetry; apply Z.ltb_lt; lia).
  unfold bind at 1. unfold unpack_slot, bind at 1. rewrite Hrev.
  cbn [truthy]. rewrite Ha. cbn [lift ret].
  unfold bind at 1. rewrite Hd. cbn [lift ret].
  unfold slot_collected, py_ne. cbn [py_eq].
  change 65535 with 0xffff.
  destruct (raw_date blob (Z.to_nat offset) =? 0xffff); cbn [negb andb].
  - reflexivity.
  - unfold bind at 1 2. rewrite Ht. cbn [lift ret py_eq].
    change 65535 with 0xffff.
    destruct (raw_time blob (Z.to_nat offset) =? 0xffff); reflexivity.
Qed.

(** The walk from slot [j] under a cached revision-B flag. *)
Lemma walk_records_rev_b (blob : bytes) (self : VantagePro) :
  _ARCHIVE_REV_B self = Some true ->
  List.length blob = 260%nat ->
  forall (m j fuel : nat) (records : list dict),
  (j + m = 5)%nat ->
  (m <= fuel)%nat ->
  exists recs,
    Forall2 (fun offset a => unpack_from ArchiveBStruct blob offset = Val a)
            (filter (slot_collected blob)
                    (map (fun i => Z.of_nat i * 52) (seq j m)))
            recs
    /\ walk_records fuel blob (Z.of_nat j * 52) records self
       = (Returns (records ++ recs), self).
Proof.
  intros Hflag Hlen.
  induction m as [| m IH]; intros j fuel records Hj Hfuel.
  - exists []. split; [constructor |].
    rewrite walk_records_eq, size_ArchiveAStruct.
    replace (Z.of_nat j * 52 <? 52 * 5) with false
      by (symmetry; apply Z.ltb_ge; lia).
    now rewrite app_nil_r.
  - destruct fuel as [| fuel]; [lia |].
    destruct (walk_records_slot fuel blob (Z.of_nat j * 52) records self self
                (use_rev_b_cached true _ _ _ Hflag))
      as [a [Ha Hstep]]; [lia | lia |].
    rewrite Hstep.
    replace (Z.of_nat j * 52 + 52) with (Z.of_nat (S j) * 52) by lia.
    destruct (IH (S j) fuel
                 (if slot_collected blob (Z.of_nat j * 52)
                  then records ++ [a] else records)
                 ltac:(lia) ltac:(lia)) as [recs [Hrecs Hwalk]].
    rewrite Hwalk. cbn [seq map filter].
    destruct (slot_collected blob (Z.of_nat j * 52)).
    + exists (a :: recs). split; [now constructor |].
      now rewrite <- app_assoc.
    + exists recs. split; [exact Hrecs | reflexivity].
Qed.

Lemma set_ARCHIVE_REV_B_same (self : VantagePro) (b : option bool) :
  _ARCHIVE_REV_B self = b -> set_ARCHIVE_REV_B b self = self.
Proof. intros <-. now destruct self. Qed.

(** No slot is walked when the first relevant slot is 5 or more. *)
Lemma walk_records_no_slot (fuel : nat) (blob : bytes) (k : nat)
  (records : list dict) (self : VantagePro) :
  (5 <= k)%nat ->
  walk_records fuel blob (Z.of_nat k * 52) records self = (Returns records, self).
Proof.
  intros Hk. rewrite walk_records_eq, size_ArchiveAStruct.
  replace (Z.of_nat k * 52 <? 52 * 5) with false
    by (symmetry; apply Z.ltb_ge; lia).
  reflexivity.
Qed.

(** C1, as the code has it: in the walk of a 260-byte page blob from slot
    [k] under the revision-B layout, every slot from [k] to 4 is decoded,
    and the decoded record is discarded if and only if its raw DateStamp or
    its raw TimeStamp is 0xFFFF; the records of the other slots are appended
    to the result list in blob order.  The fuel the caller passes suffices,
    and the only change to the session is that the revision flag is set. *)
Theorem walk_records_collects (blob : bytes) (k : nat) (records : list dict)
  (self : VantagePro) :
  List.length blob = 260%nat ->
  rev_b_in_force self blob k = true ->
  exists recs,
    Forall2 (fun offset a => unpack_from ArchiveBStruct blob offset = Val a)
            (filter (slot_collected blob) (slot_offsets k))
            recs
    /\ walk_records
         (Z.to_nat (size ArchiveAStruct * 5 - Z.of_nat k * size ArchiveAStruct))
         blob (Z.of_nat k * size ArchiveAStruct) records self
       = (Returns (records ++ recs), after_walk k self).
Proof.
  intros Hlen Hrev. rewrite size_ArchiveAStruct.
  unfold slot_offsets, after_walk, slot_offsets.
  destruct (Nat.le_gt_cases 5 k) as [Hk | Hk].
  - replace (5 - k)%nat with 0%nat by lia. cbn [seq map filter].
    exists []. split; [constructor |].
    rewrite walk_records_no_slot by exact Hk. now rewrite app_nil_r.
  - destruct (5 - k)%nat as [| m] eqn:Hm; [lia |].
    unfold rev_b_in_force in Hrev.
    destruct (_ARCHIVE_REV_B self) as [b |] eqn:Hflag.
    + subst b.
      destruct (walk_records_rev_b blob self Hflag Hlen (S m) k
                  (Z.to_nat (52 * 5 - Z.of_nat k * 52)) records
                  ltac:(lia) ltac:(lia)) as [recs [Hrecs Hwalk]].
      exists recs. split; [exact Hrecs |].
      rewrite Hwalk. cbn [seq map].
      now rewrite set_ARCHIVE_REV_B_same.
    + destruct (Z.to_nat (52 * 5 - Z.of_nat k * 52)) as [| fuel] eqn:Hfuel;
        [lia |].
      assert (Hprobe :
                _use_rev_b_archive blob (Z.of_nat k * 52) self
                = (Returns (Some true), set_ARCHIVE_REV_B (Some true) self)).
      { rewrite use_rev_b_probe by (try exact Hflag; lia).
        replace (Z.to_nat (Z.of_nat k * 52)) with (k * 52)%nat by lia.
        now rewrite Hrev. }
      destruct (walk_records_slot fuel blob (Z.of_nat k * 52) records self _ Hprobe)
        as [a [Ha Hstep]]; [lia | lia |].
      rewrite Hstep.
      replace (Z.of_nat k * 52 + 52) with (Z.of_nat (S k) * 52) by lia.
      destruct (walk_records_rev_b blob (set_ARCHIVE_REV_B (Some true) self)
                  eq_refl Hlen m (S k) fuel
                  (if slot_collected blob (Z.of_nat k * 52)
                   then records ++ [a] else records)
                  ltac:(lia) ltac:(lia)) as [recs [Hrecs Hwalk]].
      rewrite Hwalk. cbn [seq map filter].
      destruct (slot_collected blob (Z.of_nat k * 52)).
      * exists (a :: recs). split; [now constructor |].
        now rewrite <- app_assoc.
      * exists recs. split; [exact Hrecs | reflexivity].
Qed.

(** ** What the coroutines keep *)

Lemma keeps_ret {A} (P : VantagePro -> Prop) (a : A) : keeps P (ret a).
Proof. intros self H. exact H. Qed.

Lemma keeps_raise {A} (P : VantagePro -> Prop) (e : exn) :
  keeps P (@raise A e).
Proof. intros self H. exact H. Qed.

Lemma keeps_exhausted {A} (P : VantagePro -> Prop) : keeps P (@exhausted A).
Proof. intros self H. exact H. Qed.

Lemma keeps_lift {A} (P : VantagePro -> Prop) (c : py A) : keeps P (lift c).
Proof. destruct c; intros self H; exact H. Qed.

Lemma keeps_bind {A B} (P : VantagePro -> Prop) (c : M A) (k : A -> M B) :
  keeps P c -> (forall a, keeps P (k a)) -> keeps P (bind c k).
Proof.
  intros Hc Hk self H. unfold bind.
  specialize (Hc self H).
  destruct (c self) as [[a | e | |] s1]; simpl in *; try exact Hc.
  now apply Hk.
Qed.

Lemma keeps_get_archive_time (P : VantagePro -> Prop) : keeps P get_archive_time.
Proof. intros self H. exact H. Qed.

Lemma keeps_get_ARCHIVE_REV_B (P : VantagePro -> Prop) :
  keeps P get_ARCHIVE_REV_B.
Proof. intros self H. exact H. Qed.

Ltac keeps_step :=
  first
    [ apply keeps_ret | apply keeps_raise | apply keeps_exhausted
    | apply keeps_lift | apply keeps_get_archive_time
    | apply keeps_get_ARCHIVE_REV_B
    | apply keeps_bind; [| intros ?]
    | match goal with
      | |- keeps _ (match ?x with _ => _ end) => destruct x
      end ].

Section Keeps.

(** A property of the session that does not look at the port. *)
Variable P : VantagePro -> Prop.
Hypothesis P_port : forall p self, P self -> P (set_port p self).

Lemma keeps_port_write (v : pyval) : keeps P (port_write v).
Proof. intros self H. now apply P_port. Qed.

Lemma keeps_port_read (n : Z) : keeps P (port_read n).
Proof.
  intros self H. unfold port_read.
  destruct (next_reply self 0); now apply P_port.
Qed.

Lemma keeps_wait_for_read (n : Z) (t : float) : keeps P (wait_for_read n t).
Proof.
  intros self H. unfold wait_for_read.
  destruct (next_reply self 0); now apply P_port.
Qed.

Lemma keeps_sleep (seconds : Z) : keeps P (sleep seconds).
Proof. intros self H. now apply P_port. Qed.

Ltac keeps_io :=
  first [ apply keeps_port_write | apply keeps_port_read
        | apply keeps_wait_for_read | apply keeps_sleep | keeps_step ].

Lemma keeps_wakeup_loop (fuel : nat) :
  forall (awake : bool) (i : Z), keeps P (wakeup_loop fuel awake i).
Proof.
  induction fuel as [| fuel IH]; intros awake i; rewrite wakeup_loop_eq;
    repeat first [ apply IH | keeps_io ].
Qed.

Lemma keeps_wakeup (fuel : nat) : keeps P (_wakeup fuel).
Proof.
  unfold _wakeup. repeat first [ apply keeps_wakeup_loop | keeps_io ].
Qed.

Lemma keeps_cmd_attempts (n : nat) (text : string) (ok : bool) :
  keeps P (cmd_attempts n text ok).
Proof.
  induction n as [| n IH]; rewrite cmd_attempts_eq;
    repeat first [ apply IH | keeps_io ].
Qed.

Lemma keeps_cmd (fuel : nat) (cmd : string) (args : list Z) (ok : bool) :
  keeps P (_cmd fuel cmd args ok).
Proof.
  unfold _cmd.
  repeat first [ apply keeps_wakeup | apply keeps_cmd_attempts | keeps_io ].
Qed.

(** The property is also kept by the revision probe. *)
Hypothesis P_probe :
  forall records offset, keeps P (_use_rev_b_archive records offset).

Lemma keeps_unpack_slot (page_records : bytes) (offset : Z) :
  keeps P (unpack_slot page_records offset).
Proof.
  unfold unpack_slot. repeat first [ apply P_probe | keeps_io ].
Qed.

Lemma keeps_walk_records (fuel : nat) (page_records : bytes) :
  forall (offset : Z) (records : list dict),
  keeps P (walk_records fuel page_records offset records).
Proof.
  induction fuel as [| fuel IH]; intros offset records;
    rewrite walk_records_eq;
    repeat first [ apply IH | apply keeps_unpack_slot | keeps_io ].
Qed.

Lemma keeps_read_pages (n : nat) :
  forall (i dmp_offset : Z) (records : list dict),
  keeps P (read_pages n i dmp_offset records).
Proof.
  induction n as [| n IH]; intros i dmp_offset records; cbn [read_pages];
    repeat first [ apply IH | apply keeps_walk_records | keeps_io ].
Qed.

Lemma keeps_dmpaft_cmd (fuel : nat) (time_fields : Z * Z) :
  keeps P (_dmpaft_cmd fuel time_fields).
Proof.
  unfold _dmpaft_cmd.
  repeat first [ apply keeps_cmd | apply keeps_read_pages | keeps_io ].
Qed.

Lemma keeps_dmpaft_attempts (fuel n : nat) :
  forall records, keeps P (dmpaft_attempts fuel n records).
Proof.
  induction n as [| n IH]; intros records; cbn [dmpaft_attempts];
    repeat first [ apply IH | apply keeps_dmpaft_cmd | keeps_io ].
Qed.

End Keeps.

(** The download never moves the watermark. *)
Lemma use_rev_b_keeps_watermark (t : Z * Z) (records : bytes) (offset : Z) :
  keeps (fun self => _archive_time self = t) (_use_rev_b_archive records offset).
Proof.
  unfold _use_rev_b_archive.
  repeat first [ keeps_step | (intros self H; exact H) ].
Qed.

Lemma dmpaft_keeps_watermark (fuel : nat) (time_fields t : Z * Z) :
  keeps (fun self => _archive_time self = t) (_dmpaft_cmd fuel time_fields).
Proof.
  apply keeps_dmpaft_cmd.
  - intros p self H. exact H.
  - intros records offset. apply use_rev_b_keeps_watermark.
Qed.

(** A revision flag that is set stays as it is. *)
Lemma use_rev_b_keeps_flag (b : bool) (records : bytes) (offset : Z) :
  keeps (fun self => _ARCHIVE_REV_B self = Some b)
        (_use_rev_b_archive records offset).
Proof.
  intros self H. now rewrite (use_rev_b_cached b).
Qed.

Lemma dmpaft_keeps_flag (fuel : nat) (time_fields : Z * Z) (b : bool) :
  keeps (fun self => _ARCHIVE_REV_B self = Some b)
        (_dmpaft_cmd fuel time_fields).
Proof.
  apply keeps_dmpaft_cmd.
  - intros p self H. exact H.
  - intros records offset. apply use_rev_b_keeps_flag.
Qed.

Lemma newest_record_keeps_flag (b : bool) (records : list dict) :
  forall new_rec,
  keeps (fun self => _ARCHIVE_REV_B self = Some b)
        (newest_record records new_rec).
Proof.
  induction records as [| r records IH]; intros new_rec; cbn [newest_record];
    repeat first [ apply IH | keeps_step | (intros self H; exact H) ].
Qed.

Lemma get_new_archive_fields_keeps_flag (fuel : nat) (b : bool) :
  keeps (fun self => _ARCHIVE_REV_B self = Some b)
        (_get_new_archive_fields fuel).
Proof.
  unfold _get_new_archive_fields.
  apply keeps_bind.
  - apply keeps_dmpaft_attempts.
    + intros p self H. exact H.
    + intros records offset. apply use_rev_b_keeps_flag.
  - intros [records |]; [apply newest_record_keeps_flag | apply keeps_raise].
Qed.

(** ** What the coroutines return *)

Lemma yields_ret {A} (a : A) (Q : A -> Prop) : Q a -> yields (ret a) Q.
Proof. intros H self a' self' E. injection E as <- _. exact H. Qed.

Lemma yields_raise {A} (e : exn) (Q : A -> Prop) : yields (raise e) Q.
Proof. intros self a self' E. discriminate E. Qed.

Lemma yields_exhausted {A} (Q : A -> Prop) : yields exhausted Q.
Proof. intros self a self' E. discriminate E. Qed.

Lemma yields_lift {A} (c : py A) (Q : A -> Prop) :
  (forall a, c = Val a -> Q a) -> yields (lift c) Q.
Proof.
  intros H self a self' E. destruct c as [a0 | e]; [| discriminate E].
  injection E as <- _. now apply H.
Qed.

Lemma yields_bind {A B} (c : M A) (k : A -> M B) (R : A -> Prop)
  (Q : B -> Prop) :
  yields c R -> (forall a, R a -> yields (k a) Q) -> yields (bind c k) Q.
Proof.
  intros Hc Hk self b self' E. unfold bind in E.
  destruct (c self) as [[a | e | |] s1] eqn:Ec; try discriminate E.
  exact (Hk a (Hc _ _ _ Ec) _ _ _ E).
Qed.

Lemma yields_any {A} (c : M A) : yields c (fun _ => True).
Proof. intros self a self' E. exact I. Qed.

Lemma yields_bind_any {A B} (c : M A) (k : A -> M B) (Q : B -> Prop) :
  (forall a, yields (k a) Q) -> yields (bind c k) Q.
Proof.
  intros Hk. apply (yields_bind c k (fun _ => True)); [apply yields_any |].
  intros a _. apply Hk.
Qed.

(** ** The records a download returns carry their stamps *)

Lemma getitem_Val (items : dict) (k : string) (v : pyval) :
  getitem items k = Val v <-> dict_get k items = Some v.
Proof.
  unfold getitem. destruct (dict_get k items); split; intros H;
    try discriminate H; now injection H as ->.
Qed.

Lemma unpack_from_B_has_stamp (buf : bytes) (offset : Z) (a : dict) :
  unpack_from ArchiveBStruct buf offset = Val a -> has_stamp a.
Proof.
  unfold unpack_from.
  destruct ((0 <=? offset) && (size ArchiveBStruct <=? Z.of_nat (List.length buf) - offset));
    [| discriminate].
  destruct (ArchiveB_post_unpack_raw buf (Z.to_nat offset))
    as [a' [Ha' [Hd [Ht _]]]].
  rewrite Ha'. intros E. injection E as <-.
  apply getitem_Val in Hd, Ht.
  unfold has_stamp, stamp. rewrite Hd, Ht. eauto.
Qed.

Lemma ArchiveA_post_unpack_raw (buf : bytes) (n : nat) :
  _post_unpack ArchiveAStruct (raw_items ArchiveAStruct buf n)
  = Exc (KeyError "Barometer").
Proof. unfold ArchiveAStruct. decode_layout. reflexivity. Qed.

Lemma unpack_from_A_raises (buf : bytes) (offset : Z) (a : dict) :
  unpack_from ArchiveAStruct buf offset <> Val a.
Proof.
  unfold unpack_from.
  destruct ((0 <=? offset) && (size ArchiveAStruct <=? Z.of_nat (List.length buf) - offset));
    [| discriminate].
  rewrite ArchiveA_post_unpack_raw. discriminate.
Qed.

Lemma unpack_slot_has_stamp (page_records : bytes) (offset : Z) :
  yields (unpack_slot page_records offset) has_stamp.
Proof.
  unfold unpack_slot. apply yields_bind_any. intros rev_b.
  destruct (truthy rev_b); apply yields_lift; intros a Ha.
  - exact (unpack_from_B_has_stamp _ _ _ Ha).
  - now apply unpack_from_A_raises in Ha.
Qed.

Lemma walk_records_has_stamp (fuel : nat) (page_records : bytes) :
  forall (offset : Z) (records : list dict),
  Forall has_stamp records ->
  yields (walk_records fuel page_records offset records) (Forall has_stamp).
Proof.
  induction fuel as [| fuel IH]; intros offset records Hrecs;
    rewrite walk_records_eq;
    (destruct (offset <? size ArchiveAStruct * 5);
     [| now apply yields_ret]).
  - apply yields_exhausted.
  - apply (yields_bind _ _ has_stamp); [apply unpack_slot_has_stamp |].
    intros a Ha. apply yields_bind_any. intros d.
    apply (yields_bind _ _ (Forall has_stamp)); [| intros recs; apply IH].
    destruct (py_ne d (VInt 65535)); [| now apply yields_ret].
    apply yields_bind_any. intros t.
    destruct (py_ne t (VInt 65535)); apply yields_ret; [| exact Hrecs].
    apply Forall_app. split; [exact Hrecs | now constructor].
Qed.

Lemma read_pages_has_stamp (n : nat) :
  forall (i dmp_offset : Z) (records : list dict),
  Forall has_stamp records ->
  yields (read_pages n i dmp_offset records) all_have_stamps.
Proof.
  induction n as [| n IH]; intros i dmp_offset records Hrecs; cbn [read_pages].
  - now apply yields_ret.
  - apply yields_bind_any. intros raw.
    destruct (negb (VProCRC.verify raw)).
    + apply yields_bind_any. intros _. now apply yields_ret.
    + apply yields_bind_any. intros _.
      apply yields_bind_any. intros page.
      apply yields_bind_any. intros page_records.
      apply (yields_bind _ _ (Forall has_stamp)).
      * now apply walk_records_has_stamp.
      * intros recs Hr. now apply IH.
Qed.

Lemma dmpaft_has_stamp (fuel : nat) (time_fields : Z * Z) :
  yields (_dmpaft_cmd fuel time_fields) all_have_stamps.
Proof.
  unfold _dmpaft_cmd.
  apply yields_bind_any. intros tbuf.
  apply yields_bind_any. intros _.
  apply yields_bind_any. intros crc.
  apply yields_bind_any. intros _.
  apply yields_bind_any. intros ack.
  destruct (py_ne (VBytes ack) ACK); [now apply yields_ret |].
  apply yields_bind_any. intros raw.
  destruct (negb (VProCRC.verify raw)).
  - apply yields_bind_any. intros _. now apply yields_ret.
  - repeat (apply yields_bind_any; intros ?).
    apply read_pages_has_stamp. constructor.
Qed.

Lemma dmpaft_attempts_has_stamp (fuel n : nat) :
  forall records,
  all_have_stamps records ->
  yields (dmpaft_attempts fuel n records) all_have_stamps.
Proof.
  induction n as [| n IH]; intros records Hrecs; cbn [dmpaft_attempts].
  - now apply yields_ret.
  - apply yields_bind_any. intros time_fields.
    apply (yields_bind _ _ all_have_stamps); [apply dmpaft_has_stamp |].
    intros [recs |] Hr.
    + now apply yields_ret.
    + apply yields_bind_any. intros _. now apply IH.
Qed.

(** ** The newest record and the watermark *)

Ltac tuple_arith :=
  unfold tuple_le, tuple_lt in *; cbn [fst snd] in *;
  repeat match goal with
         | H : context [?a <? ?b] |- _ => destruct (Z.ltb_spec a b)
         | H : context [?a =? ?b] |- _ => destruct (Z.eqb_spec a b)
         | |- context [?a <? ?b] => destruct (Z.ltb_spec a b)
         | |- context [?a =? ?b] => destruct (Z.eqb_spec a b)
         end;
  cbn [negb andb orb] in *; try discriminate; try reflexivity; try lia.

Lemma tuple_le_refl (a : Z * Z) : tuple_le a a = true.
Proof. destruct a. tuple_arith. Qed.

Lemma tuple_lt_le_trans (a b c : Z * Z) :
  tuple_lt a b = true -> tuple_le b c = true -> tuple_lt a c = true.
Proof. destruct a, b, c. intros H1 H2. tuple_arith. Qed.

Lemma tuple_le_trans (a b c : Z * Z) :
  tuple_le a b = true -> tuple_le b c = true -> tuple_le a c = true.
Proof. destruct a, b, c. intros H1 H2. tuple_arith. Qed.

Lemma tuple_lt_le (a b : Z * Z) : tuple_lt a b = true -> tuple_le a b = true.
Proof. destruct a, b. intros H. tuple_arith. Qed.

Lemma tuple_not_lt_le (a b : Z * Z) : tuple_lt a b = false -> tuple_le b a = true.
Proof. unfold tuple_le. now intros ->. Qed.

Lemma stamp_Some (r : dict) (d t : Z) :
  stamp r = Some (d, t) ->
  dict_get "DateStamp" r = Some (VInt d) /\ dict_get "TimeStamp" r = Some (VInt t).
Proof.
  unfold stamp.
  destruct (dict_get "DateStamp" r) as [[] |]; try discriminate.
  destruct (dict_get "TimeStamp" r) as [[] |]; try discriminate.
  intros E. injection E as -> ->. now split.
Qed.

Lemma set_archive_time_same (self : VantagePro) :
  set_archive_time (_archive_time self) self = self.
Proof. now destruct self. Qed.

(** One turn of the loop over the records. *)
Lemma newest_record_cons (r : dict) (records : list dict)
  (new_rec : option dict) (self : VantagePro) (d t : Z) :
  stamp r = Some (d, t) ->
  newest_record (r :: records) new_rec self
  = if tuple_lt (_archive_time self) (d, t)
    then newest_record records (Some r) (set_archive_time (d, t) self)
    else newest_record records new_rec self.
Proof.
  intros Hs. apply stamp_Some in Hs. destruct Hs as [Hd Ht].
  cbn [newest_record]. unfold bind, lift, getitem, get_archive_time.
  rewrite Hd, Ht. cbn [as_int ret].
  destruct (tuple_lt (_archive_time self) (d, t)); reflexivity.
Qed.

(** The loop ends with the watermark at the greatest stamp above the old
    watermark, and with the first record that carries it. *)
Lemma newest_record_spec (records : list dict) :
  Forall has_stamp records ->
  forall (new_rec : option dict) (self : VantagePro),
  exists c' new_rec',
    newest_record records new_rec self = (Returns new_rec', set_archive_time c' self)
    /\ tuple_le (_archive_time self) c' = true
    /\ (forall r p, In r records -> stamp r = Some p -> tuple_le p c' = true)
    /\ ((new_rec' = new_rec /\ c' = _archive_time self)
        \/ (exists r, new_rec' = Some r /\ In r records /\ stamp r = Some c'
                      /\ tuple_lt (_archive_time self) c' = true)).
Proof.
  induction 1 as [| r records [[d t] Hs] Hrecs IH]; intros new_rec self.
  - exists (_archive_time self), new_rec. cbn [newest_record].
    rewrite set_archive_time_same.
    repeat split; [apply tuple_le_refl | intros r p [] | now left].
  - rewrite (newest_record_cons r records new_rec self d t Hs).
    destruct (tuple_lt (_archive_time self) (d, t)) eqn:Hlt.
    + destruct (IH (Some r) (set_archive_time (d, t) self))
        as [c' [nr [Hrun [Hle [Hall Hsel]]]]].
      cbn [_archive_time set_archive_time] in Hle, Hsel.
      exists c', nr. split; [exact Hrun |].
      split; [apply tuple_lt_le; now apply (tuple_lt_le_trans _ (d, t)) |].
      split.
      * intros r' p [<- | Hin] Hp; [| now apply (Hall r')].
        rewrite Hs in Hp. injection Hp as <-. exact Hle.
      * right. destruct Hsel as [[-> ->] | [r' [-> [Hin [Hs' Hlt']]]]].
        -- exists r. repeat split; [now left | exact Hs | exact Hlt].
        -- exists r'. repeat split; [now right | exact Hs' |].
           apply (tuple_lt_le_trans _ (d, t)); [exact Hlt |].
           now apply tuple_lt_le.
    + destruct (IH new_rec self) as [c' [nr [Hrun [Hle [Hall Hsel]]]]].
      exists c', nr. split; [exact Hrun |]. split; [exact Hle |]. split.
      * intros r' p [<- | Hin] Hp; [| now apply (Hall r')].
        rewrite Hs in Hp. injection Hp as <-.
        apply (tuple_le_trans _ (_archive_time self)); [| exact Hle].
        now apply tuple_not_lt_le.
      * destruct Hsel as [Hsame | [r' [-> [Hin [Hs' Hlt']]]]]; [now left |].
        right. exists r'. repeat split; [now right | exact Hs' | exact Hlt'].
Qed.

(** C2: whenever [_get_new_archive_fields] obtains a record list, it
    returns, and afterwards the watermark is not below its value before the
    call and not below the (DateStamp, TimeStamp) pair of any returned
    record; if a record is returned, it is one of the list, it bears the
    new watermark, and that pair strictly exceeds the old watermark, so the
    watermark is the maximum pair of the list; if none is returned, the
    watermark is unchanged, so no record of the list exceeded it. *)
Theorem get_new_archive_fields_advances_watermark
  (fuel : nat) (self s1 : VantagePro) (records : list dict) :
  dmpaft_attempts fuel 3 (Some []) self = (Returns (Some records), s1) ->
  exists c' new_rec,
    _get_new_archive_fields fuel self = (Returns new_rec, set_archive_time c' s1)
    /\ Forall has_stamp records
    /\ tuple_le (_archive_time self) c' = true
    /\ (forall r p, In r records -> stamp r = Some p -> tuple_le p c' = true)
    /\ match new_rec with
       | Some r =>
           In r records /\ stamp r = Some c'
           /\ tuple_lt (_archive_time self) c' = true
       | None => c' = _archive_time self
       end.
Proof.
  intros Hdl.
  assert (Hstamps : Forall has_stamp records).
  { exact (dmpaft_attempts_has_stamp fuel 3 (Some []) (Forall_nil _) _ _ _ Hdl). }
  assert (Htime : _archive_time s1 = _archive_time self).
  { pose proof (keeps_dmpaft_attempts
                  (fun s => _archive_time s = _archive_time self)
                  (fun p s H => H)
                  (use_rev_b_keeps_watermark (_archive_time self))
                  fuel 3 (Some []) self eq_refl) as H.
    now rewrite Hdl in H. }
  destruct (newest_record_spec records Hstamps None s1)
    as [c' [nr [Hrun [Hle [Hall Hsel]]]]].
  rewrite Htime in Hle, Hsel.
  exists c', nr.
  split; [unfold _get_new_archive_fields, bind; now rewrite Hdl |].
  split; [exact Hstamps |]. split; [exact Hle |]. split; [exact Hall |].
  destruct Hsel as [[-> ->] | [r [-> H]]]; [reflexivity | exact H].
Qed.

(** ** Three failed download attempts *)

(** C5: if each of the 3 outer download attempts returns no result (each
    attempt starts after the one-second pause that follows the attempt
    before it), [_get_new_archive_fields] raises the no-new-records failure
    and the watermark is what it was before the call; a revision flag that
    was set before the call is what it was as well.  (A flag that was not
    set may be set by an attempt that fails after its first page: the
    session as a whole need not be unchanged.) *)
Theorem no_new_records_keeps_watermark
  (fuel : nat) (self s1 s2 s3 : VantagePro) :
  _dmpaft_cmd fuel (_archive_time self) self = (Returns None, s1) ->
  _dmpaft_cmd fuel (_archive_time (slept 1 s1)) (slept 1 s1) = (Returns None, s2) ->
  _dmpaft_cmd fuel (_archive_time (slept 1 s2)) (slept 1 s2) = (Returns None, s3) ->
  _get_new_archive_fields fuel self
  = (Raises NoNewRecordsException, slept 1 s3)
  /\ _archive_time (slept 1 s3) = _archive_time self
  /\ (forall b, _ARCHIVE_REV_B self = Some b ->
                _ARCHIVE_REV_B (slept 1 s3) = Some b).
Proof.
  intros H1 H2 H3. split; [| split].
  - unfold _get_new_archive_fields. cbn [dmpaft_attempts].
    unfold bind, get_archive_time, sleep.
    rewrite H1. cbn beta iota. rewrite H2. cbn beta iota. rewrite H3.
    reflexivity.
  - pose proof (dmpaft_keeps_watermark fuel (_archive_time self)
                  (_archive_time self) self eq_refl) as K1.
    rewrite H1 in K1. cbn [snd] in K1.
    pose proof (dmpaft_keeps_watermark fuel (_archive_time (slept 1 s1))
                  (_archive_time self) (slept 1 s1) K1) as K2.
    rewrite H2 in K2. cbn [snd] in K2.
    pose proof (dmpaft_keeps_watermark fuel (_archive_time (slept 1 s2))
                  (_archive_time self) (slept 1 s2) K2) as K3.
    rewrite H3 in K3. exact K3.
  - intros b Hb.
    pose proof (dmpaft_keeps_flag fuel (_archive_time self) b self Hb) as K1.
    rewrite H1 in K1. cbn [snd] in K1.
    pose proof (dmpaft_keeps_flag fuel (_archive_time (slept 1 s1)) b
                  (slept 1 s1) K1) as K2.
    rewrite H2 in K2. cbn [snd] in K2.
    pose proof (dmpaft_keeps_flag fuel (_archive_time (slept 1 s2)) b
                  (slept 1 s2) K2) as K3.
    rewrite H3 in K3. exact K3.
Qed.

(** ** The revision flag *)

(** The revision flag is set from the RecType byte of the first slot
    probed, to revision B when the byte is 0 and to revision A otherwise;
    once it is set, [_use_rev_b_archive] returns it without looking at the
    slot and leaves the session as it is, every slot is handed to the
    layout of the flag whatever its own RecType byte is, and neither a
    download nor [_get_new_archive_fields] changes the flag. *)
Lemma revision_flag_is_sticky :
  (forall records offset self,
      _ARCHIVE_REV_B self = None ->
      0 <= offset ->
      offset + 52 <= Z.of_nat (List.length records) ->
      _use_rev_b_archive records offset self
      = (Returns (Some (raw_rec_type records (Z.to_nat offset) =? 0)),
         set_ARCHIVE_REV_B
           (Some (raw_rec_type records (Z.to_nat offset) =? 0)) self))
  /\ (forall b records offset self,
        _ARCHIVE_REV_B self = Some b ->
        _use_rev_b_archive records offset self = (Returns (Some b), self)
        /\ unpack_slot records offset self
           = lift (unpack_from (if b then ArchiveBStruct else ArchiveAStruct)
                               records offset) self)
  /\ (forall b fuel time_fields self,
        _ARCHIVE_REV_B self = Some b ->
        _ARCHIVE_REV_B (snd (_dmpaft_cmd fuel time_fields self)) = Some b
        /\ _ARCHIVE_REV_B (snd (_get_new_archive_fields fuel self)) = Some b).
Proof.
  split; [| split].
  - intros records offset self H H0 H1. now apply use_rev_b_probe.
  - intros b records offset self H.
    split; [now apply use_rev_b_cached |].
    unfold unpack_slot, bind. rewrite (use_rev_b_cached b) by exact H.
    now destruct b.
  - intros b fuel time_fields self H. split.
    + now apply dmpaft_keeps_flag.
    + now apply get_new_archive_fields_keeps_flag.
Qed.

(** C8: the flag is sticky, but a session whose flag is revision A decodes
    no record at all.  For every slot inside the blob, whatever its own
    RecType byte is: under a cached revision-A flag [_use_rev_b_archive]
    answers revision A and leaves the session as it is, and the statement
    that decodes the slot raises KeyError('Barometer'); and when no flag is
    set and the RecType byte of the slot is not 0, the probe sets the flag
    to revision A and the same statement raises KeyError('Barometer'). *)
Theorem revision_a_flag_decodes_no_record (records : bytes) (offset : Z)
  (self : VantagePro) :
  0 <= offset ->
  offset + 52 <= Z.of_nat (List.length records) ->
  (_ARCHIVE_REV_B self = Some false ->
   _use_rev_b_archive records offset self = (Returns (Some false), self)
   /\ unpack_slot records offset self = (Raises (KeyError "Barometer"), self))
  /\ (_ARCHIVE_REV_B self = None ->
      raw_rec_type records (Z.to_nat offset) <> 0 ->
      _use_rev_b_archive records offset self
      = (Returns (Some false), set_ARCHIVE_REV_B (Some false) self)
      /\ unpack_slot records offset self
         = (Raises (KeyError "Barometer"),
            set_ARCHIVE_REV_B (Some false) self)).
Proof.
  intros H0 H1. split.
  - intros Hflag. split; [now apply use_rev_b_cached |].
    unfold unpack_slot, bind.
    rewrite (use_rev_b_cached false) by exact Hflag.
    cbn [truthy]. now rewrite ArchiveA_unpack_from.
  - intros Hnone Hrec.
    pose proof (use_rev_b_probe records offset self Hnone H0 H1) as E.
    cbv zeta in E. apply Z.eqb_neq in Hrec. rewrite Hrec in E.
    split; [exact E |].
    unfold unpack_slot, bind. rewrite E.
    cbn [truthy]. now rewrite ArchiveA_unpack_from.
Qed.

(** ** CRC failures during a download *)

Lemma port_read_data (n : Z) (self : VantagePro) (bs : bytes) :
  next_reply self 0 = Data bs ->
  port_read n self = (Returns bs, did_read n None self).
Proof.
  intros H. unfold port_read. now rewrite H.
Qed.

(** The CRC always packs as a big-endian ['H'] field. *)
Lemma pack_H_crc (tbuf : bytes) :
  pack_H BigEndian (VProCRC.get tbuf)
  = Val [byte_of_Z (VProCRC.get tbuf / 256); byte_of_Z (VProCRC.get tbuf)].
Proof.
  pose proof (get_range tbuf) as H. unfold pack_H.
  replace (0 <=? VProCRC.get tbuf) with true by (symmetry; apply Z.leb_le; lia).
  replace (VProCRC.get tbuf <=? 65535) with true
    by (symmetry; apply Z.leb_le; lia).
  reflexivity.
Qed.

(** The download up to the header frame, when the command and the time
    stamp are acknowledged: what is left is step 3 onwards. *)
Lemma dmpaft_after_handshake (fuel : nat) (time_fields : Z * Z)
  (self s1 : VantagePro) (tbuf raw : bytes) :
  pack_2H time_fields = Val tbuf ->
  _cmd fuel "DMPAFT" [] false self = (Returns tt, s1) ->
  next_reply s1 0 = Data [x06] ->
  next_reply s1 1 = Data raw ->
  let s2 := did_read 6 None
              (did_read 1 None (wrote (VBytes (crc_trailer tbuf)) s1)) in
  _dmpaft_cmd fuel time_fields self
  = if negb (VProCRC.verify raw) then (Returns None, wrote ESC s2)
    else
      (dmp <- lift (unpack DmpStruct raw) ;;
       pages <- lift (let* v := getitem dmp "Pages" in as_int v) ;;
       dmp_offset <- lift (let* v := getitem dmp "Offset" in as_int v) ;;
       read_pages (Z.to_nat pages) 0 dmp_offset []) (wrote ACK s2).
Proof.
  intros Hpack Hcmd Hack Hraw s2.
  unfold _dmpaft_cmd.
  unfold bind at 1. rewrite Hpack. cbn [lift ret].
  unfold bind at 1. rewrite Hcmd.
  unfold bind at 1. rewrite pack_H_crc. cbn [lift ret].
  unfold bind at 1. unfold port_write at 1.
  fold (crc_trailer tbuf).
  unfold bind at 1.
  rewrite (port_read_data _ _ [x06])
    by (rewrite next_reply_wrote; exact Hack).
  change (py_ne (VBytes [x06]) ACK) with false. cbv iota.
  unfold bind at 1.
  rewrite (port_read_data _ _ raw)
    by (rewrite next_reply_did_read, next_reply_wrote; exact Hraw).
  change (py_len ACK) with 1. change (size DmpStruct) with 6. fold s2.
  destruct (negb (VProCRC.verify raw)); reflexivity.
Qed.

Lemma bind_assoc {A B C} (c : M A) (k : A -> M B) (h : B -> M C)
  (self : VantagePro) :
  bind (bind c k) h self = bind c (fun a => bind (k a) h) self.
Proof.
  unfold bind. now destruct (c self) as [[a | e | |] s1].
Qed.

Lemma bind_ext {A B} (c : M A) (k k' : A -> M B) (self : VantagePro) :
  (forall a s, k a s = k' a s) -> bind c k self = bind c k' self.
Proof.
  intros H. unfold bind. now destruct (c self) as [[a | e | |] s1].
Qed.

(** The page loop over [j + m] pages is the loop over the first [j] pages
    followed, when they gave a result, by the loop over the other [m]. *)
Lemma read_pages_app (j m : nat) :
  forall (i dmp_offset : Z) (records : list dict) (self : VantagePro),
  read_pages (j + m) i dmp_offset records self
  = (r <- read_pages j i dmp_offset records ;;
     match r with
     | Some recs => read_pages m (i + Z.of_nat j) dmp_offset recs
     | None => ret None
     end) self.
Proof.
  induction j as [| j IH]; intros i dmp_offset records self.
  - cbn [read_pages Nat.add]. unfold bind, ret. now rewrite Z.add_0_r.
  - change (S j + m)%nat with (S (j + m)). cbn [read_pages].
    rewrite bind_assoc. apply bind_ext. intros raw s1.
    destruct (negb (VProCRC.verify raw)).
    + rewrite bind_assoc. apply bind_ext. intros _ s2. reflexivity.
    + rewrite bind_assoc. apply bind_ext. intros _ s2.
      rewrite bind_assoc. apply bind_ext. intros page s3.
      rewrite bind_assoc. apply bind_ext. intros page_records s4.
      rewrite bind_assoc. apply bind_ext. intros recs s5.
      rewrite IH.
      replace (i + 1 + Z.of_nat j) with (i + Z.of_nat (S j)) by lia.
      reflexivity.
Qed.

(** A page frame that fails the CRC check ends the loop with no result,
    whatever was collected before. *)
Lemma read_pages_bad_crc (n : nat) (i dmp_offset : Z) (records : list dict)
  (self : VantagePro) (raw : bytes) :
  next_reply self 0 = Data raw ->
  VProCRC.verify raw = false ->
  read_pages (S n) i dmp_offset records self
  = (Returns None, wrote ESC (did_read 267 None self)).
Proof.
  intros Hraw Hcrc. cbn [read_pages]. unfold bind at 1.
  rewrite (port_read_data _ _ raw) by exact Hraw.
  rewrite Hcrc. reflexivity.
Qed.

(** C6: on a CRC failure the download returns no result, but what it hands
    to the port is not the escape byte.  In a download whose command and
    time stamp are acknowledged, a header frame that fails the CRC check
    makes the download return no result, and so does a page frame that fails
    the CRC check after [j] pages were read and their records collected (the
    records of the pages read before are not returned); in both cases the
    last thing on the port is the write of [ESC], which is the [str] of the
    one character 0x1B: it is not a [bytes] object and does not compare
    equal to the byte 0x1B, where [WAKE_ACK] and [ACK] are [bytes]. *)
Theorem crc_failure_writes_str_not_escape_byte
  (fuel : nat) (time_fields : Z * Z) (self s1 : VantagePro)
  (tbuf raw : bytes) :
  pack_2H time_fields = Val tbuf ->
  _cmd fuel "DMPAFT" [] false self = (Returns tt, s1) ->
  next_reply s1 0 = Data [x06] ->
  next_reply s1 1 = Data raw ->
  let s2 := did_read 6 None
              (did_read 1 None (wrote (VBytes (crc_trailer tbuf)) s1)) in
  let esc := VStr (String "027" "") in
  (VProCRC.verify raw = false ->
   _dmpaft_cmd fuel time_fields self = (Returns None, wrote esc s2)
   /\ trace (port (wrote esc s2)) = trace (port s2) ++ [Write esc])
  /\ (forall dmp pages dmp_offset j recs s3 page_raw,
        VProCRC.verify raw = true ->
        unpack DmpStruct raw = Val dmp ->
        getitem dmp "Pages" = Val (VInt pages) ->
        getitem dmp "Offset" = Val (VInt dmp_offset) ->
        (j < Z.to_nat pages)%nat ->
        read_pages j 0 dmp_offset [] (wrote ACK s2) = (Returns (Some recs), s3) ->
        next_reply s3 0 = Data page_raw ->
        VProCRC.verify page_raw = false ->
        _dmpaft_cmd fuel time_fields self
        = (Returns None, wrote esc (did_read 267 None s3))
        /\ trace (port (wrote esc (did_read 267 None s3)))
           = trace (port s3) ++ [Read 267 None; Write esc])
  /\ ESC = esc
  /\ py_eq ESC (VBytes [x1b]) = false
  /\ (forall bs, ESC <> VBytes bs)
  /\ WAKE_ACK = VBytes [x0a; x0d]
  /\ ACK = VBytes [x06].
Proof.
  intros Hpack Hcmd Hack Hraw s2 esc.
  pose proof (dmpaft_after_handshake fuel time_fields self s1 tbuf raw
                Hpack Hcmd Hack Hraw) as E.
  cbv zeta in E. fold s2 in E.
  split; [| split; [| repeat split; discriminate]].
  - intros Hcrc. split; [| reflexivity]. rewrite E, Hcrc. reflexivity.
  - intros dmp pages dmp_offset j recs s3 page_raw
           Hcrc Hdmp Hpages Hoff Hj Hread Hpage Hbad.
    split; [| cbn; now rewrite <- app_assoc].
    rewrite E, Hcrc. cbn [negb].
    unfold bind at 1. rewrite Hdmp. cbn [lift ret].
    unfold bind at 1. rewrite Hpages. cbn [py_bind as_int lift ret].
    unfold bind at 1. rewrite Hoff. cbn [py_bind as_int lift ret].
    replace (Z.to_nat pages) with (j + S (Z.to_nat pages - S j))%nat by lia.
    rewrite read_pages_app. unfold bind at 1. rewrite Hread.
    now apply (read_pages_bad_crc _ _ _ _ _ page_raw).
Qed.

(** ** The fuel of the walk over the slots *)

Lemma never_exhausted_ret {A} (a : A) : never_exhausted (ret a).
Proof. intros self. discriminate. Qed.

Lemma never_exhausted_lift {A} (c : py A) : never_exhausted (lift c).
Proof. destruct c; intros self; discriminate. Qed.

Lemma never_exhausted_bind {A B} (c : M A) (k : A -> M B) :
  never_exhausted c -> (forall a, never_exhausted (k a)) ->
  never_exhausted (bind c k).
Proof.
  intros Hc Hk self. unfold bind. specialize (Hc self).
  destruct (c self) as [[a | e | |] s1]; cbn [fst] in *;
    try discriminate; [apply Hk | now elim Hc].
Qed.

Lemma never_exhausted_unpack_slot (page_records : bytes) (offset : Z) :
  never_exhausted (unpack_slot page_records offset).
Proof.
  unfold unpack_slot, _use_rev_b_archive.
  repeat first
    [ apply never_exhausted_ret | apply never_exhausted_lift
    | apply never_exhausted_bind; [| intros ?]
    | match goal with
      | |- never_exhausted (match ?x with _ => _ end) => destruct x
      end
    | (intros self; discriminate) ].
Qed.

(** The distance of [offset] to the end of the blob is fuel enough: the
    walk never runs out of it, under either layout. *)
Lemma walk_records_fuel (fuel : nat) (page_records : bytes) :
  forall (offset : Z) (records : list dict),
  (Z.to_nat (size ArchiveAStruct * 5 - offset) <= fuel)%nat ->
  never_exhausted (walk_records fuel page_records offset records).
Proof.
  induction fuel as [| fuel IH]; intros offset records Hfuel;
    rewrite walk_records_eq; rewrite size_ArchiveAStruct in *;
    destruct (Z.ltb_spec offset (52 * 5)) as [Hlt | Hge];
    try apply never_exhausted_ret.
  - lia.
  - apply never_exhausted_bind; [apply never_exhausted_unpack_slot |].
    intros a. apply never_exhausted_bind; [apply never_exhausted_lift |].
    intros d. apply never_exhausted_bind.
    + destruct (py_ne d (VInt 65535)); [| apply never_exhausted_ret].
      apply never_exhausted_bind; [apply never_exhausted_lift |].
      intros t. destruct (py_ne t (VInt 65535)); apply never_exhausted_ret.
    + intros recs. apply IH. lia.
Qed.

(** ** The LOOP record, decoded *)

(** X9: every 99-byte LOOP frame decodes, and [LoopStruct._post_unpack]
    transforms the words of the frame as follows: Pressure (bytes 7-8) and
    ETDay are divided by 1000.0, TempIn and TempOut by 10.0, the rain fields
    and ETMonth and ETYear by 100.0, BatteryVolts is multiplied by 300 and
    divided by 512.0 and by 100.0, SunRise and SunSet become the text of
    [_unpack_time] and StormStartDate the text of [_unpack_storm_date]. *)
Lemma LoopStruct_unpack_fields (buf : bytes) :
  List.length buf = 99%nat ->
  exists items,
    unpack LoopStruct buf = Val items
    /\ getitem items "Pressure"
       = Val (VFloat (PrimFloat.div (float_of_int (raw_word buf 7)) 1000))
    /\ getitem items "TempIn"
       = Val (VFloat (PrimFloat.div (float_of_int (raw_word buf 9)) 10))
    /\ getitem items "TempOut"
       = Val (VFloat (PrimFloat.div (float_of_int (raw_word buf 12)) 10))
    /\ getitem items "RainRate"
       = Val (VFloat (PrimFloat.div (float_of_int (raw_word buf 41)) 100))
    /\ getitem items "RainStorm"
       = Val (VFloat (PrimFloat.div (float_of_int (raw_word buf 46)) 100))
    /\ getitem items "StormStartDate"
       = Val (VStr (_unpack_storm_date (raw_word buf 48)))
    /\ getitem items "RainDay"
       = Val (VFloat (PrimFloat.div (float_of_int (raw_word buf 50)) 100))
    /\ getitem items "RainMonth"
       = Val (VFloat (PrimFloat.div (float_of_int (raw_word buf 52)) 100))
    /\ getitem items "RainYear"
       = Val (VFloat (PrimFloat.div (float_of_int (raw_word buf 54)) 100))
    /\ getitem items "ETDay"
       = Val (VFloat (PrimFloat.div (float_of_int (raw_word buf 56)) 1000))
    /\ getitem items "ETMonth"
       = Val (VFloat (PrimFloat.div (float_of_int (raw_word buf 58)) 100))
    /\ getitem items "ETYear"
       = Val (VFloat (PrimFloat.div (float_of_int (raw_word buf 60)) 100))
    /\ getitem items "BatteryVolts"
       = Val (VFloat
                (PrimFloat.div
                   (PrimFloat.div (float_of_int (raw_word buf 87 * 300)) 512)
                   100))
    /\ getitem items "SunRise" = Val (VStr (_unpack_time (raw_word buf 91)))
    /\ getitem items "SunSet" = Val (VStr (_unpack_time (raw_word buf 93))).
Proof.
  intros Hlen. unfold unpack.
  replace (Z.of_nat (List.length buf) =? size LoopStruct) with true
    by (rewrite Hlen; reflexivity).
  unfold LoopStruct, raw_items, fields, codes, dict_of.
  cbn -[byte_at u16 byte_val float_of_int PrimFloat.div _unpack_storm_date
        _unpack_time Z.land Z.shiftr Z.div Z.modulo Z.sub Z.add Z.mul].
  eexists. split; [reflexivity |].
  cbn -[byte_at u16 byte_val float_of_int PrimFloat.div _unpack_storm_date
        _unpack_time Z.land Z.shiftr Z.div Z.modulo Z.sub Z.add Z.mul].
  unfold raw_word. cbn [Nat.add].
  repeat split; reflexivity.
Qed.

Lemma LoopStruct_unpack_total (buf : bytes) :
  List.length buf = 99%nat -> exists items, unpack LoopStruct buf = Val items.
Proof.
  intros Hlen. unfold unpack.
  replace (Z.of_nat (List.length buf) =? size LoopStruct) with true
    by (rewrite Hlen; reflexivity).
  unfold LoopStruct, raw_items, fields, codes, dict_of.
  cbn -[byte_at u16 byte_val float_of_int PrimFloat.div _unpack_storm_date
        _unpack_time Z.land Z.shiftr Z.div Z.modulo Z.sub Z.add Z.mul].
  eexists. reflexivity.
Qed.

(** Three wake-up reads that time out make [_get_loop_fields] raise the
    device-unreachable failure. *)
Lemma get_loop_fields_unreachable (fuel : nat) (self : VantagePro) :
  (3 <= fuel)%nat ->
  (forall k, (k < 3)%nat -> next_reply self k = Silence) ->
  fst (_get_loop_fields fuel self) = Raises NoDeviceException.
Proof.
  intros Hf Hdev.
  destruct (wakeup_three_timeouts fuel self Hf Hdev) as [Hres _].
  unfold _get_loop_fields. cbn [loop_attempts].
  unfold _loop_cmd, _cmd, bind.
  destruct (_wakeup fuel self) as [r s1]. cbn [fst] in Hres. now subst r.
Qed.

(** * Further properties *)

(** ** The CRC engine: range, trailer and error detection *)

(** X1: for every byte sequence [data], [get data] is a 16-bit value, the
    table index the next turn of the loop computes for any next byte is
    inside the 256-entry table (the loop never raises IndexError), and the
    CRC of [data] followed by a byte is one more turn of the loop on the CRC
    of [data]. *)
Theorem crc_get_16_bit_and_in_table (data : bytes) (b : byte) :
  0 <= VProCRC.get data < 65536
  /\ (Z.to_nat (Z.lxor (Z.shiftr (VProCRC.get data) 8) (byte_val b))
      < List.length VProCRC.CRC_TABLE)%nat
  /\ VProCRC.get (data ++ [b]) = VProCRC.crc_step (VProCRC.get data) b.
Proof.
  split; [apply get_range |].
  split; [apply crc_index_in_table, get_range |].
  unfold VProCRC.get. now rewrite fold_left_app.
Qed.

Lemma byte_val_of_Z (z : Z) : byte_val (byte_of_Z z) = z mod 256.
Proof.
  unfold byte_val, byte_of_Z.
  pose proof (Z.mod_pos_bound z 256 ltac:(lia)) as Hm.
  destruct (Byte.of_N (Z.to_N (z mod 256))) as [b |] eqn:E.
  - apply Byte.to_of_N in E. rewrite E. lia.
  - apply Byte.of_N_None_iff in E. lia.
Qed.

Lemma byte_val_inj (a b : byte) : byte_val a = byte_val b -> a = b.
Proof.
  unfold byte_val. intros H. apply N2Z.inj in H.
  pose proof (Byte.of_to_N a) as Ha. rewrite H, Byte.of_to_N in Ha.
  now injection Ha.
Qed.

Lemma fold_crc_range_0 (data : bytes) :
  0 <= fold_left VProCRC.crc_step data 0 < 65536.
Proof. apply (get_range data). Qed.

Lemma crc_table_0 : nth 0 VProCRC.CRC_TABLE 0 = 0.
Proof. reflexivity. Qed.

(** The two bytes of the trailer bring the CRC to 0. *)
Lemma crc_step_trailer (crc : Z) :
  0 <= crc < 65536 ->
  VProCRC.crc_step (VProCRC.crc_step crc (byte_of_Z (crc / 256))) (byte_of_Z crc)
  = 0.
Proof.
  intros Hc.
  assert (H1 : VProCRC.crc_step crc (byte_of_Z (crc / 256)) = (crc mod 256) * 256).
  { unfold VProCRC.crc_step. rewrite byte_val_of_Z.
    rewrite Z.shiftr_div_pow2 by lia. change (2 ^ 8) with 256.
    rewrite (Z.mod_small (crc / 256)) by
        (split; [apply Z.div_pos; lia | apply Z.div_lt_upper_bound; lia]).
    rewrite Z.lxor_nilpotent. change (Z.to_nat 0) with 0%nat.
    rewrite crc_table_0, Z.lxor_0_l.
    change 0xFF with (Z.ones 8). rewrite Z.land_ones by lia.
    rewrite Z.shiftl_mul_pow2 by lia. reflexivity. }
  rewrite H1. unfold VProCRC.crc_step. rewrite byte_val_of_Z.
  rewrite Z.shiftr_div_pow2 by lia. change (2 ^ 8) with 256.
  rewrite Z.div_mul by lia.
  rewrite Z.lxor_nilpotent. change (Z.to_nat 0) with 0%nat.
  rewrite crc_table_0, Z.lxor_0_l.
  change 0xFF with (Z.ones 8). rewrite Z.land_ones by lia.
  change (2 ^ 8) with 256. rewrite Z.mod_mul by lia. reflexivity.
Qed.

Lemma crc_trailer_verifies_tail (data : bytes) :
  VProCRC.verify
    (data ++ [byte_of_Z (VProCRC.get data / 256); byte_of_Z (VProCRC.get data)])
  = true.
Proof.
  unfold VProCRC.verify, VProCRC.int_truth, VProCRC.get.
  rewrite fold_left_app. cbn [fold_left].
  rewrite crc_step_trailer by apply fold_crc_range_0.
  rewrite length_app. cbn [List.length].
  replace (Z.of_nat (List.length data + 2) =? 0) with false
    by (symmetry; apply Z.eqb_neq; lia).
  reflexivity.
Qed.

(** X2: a byte sequence followed by its CRC, high byte first, has the CRC 0
    and passes [verify]; this is how the driver frames the time stamp it
    sends after DMPAFT and how the console frames what it answers. *)
Theorem crc_trailer_verifies (data : bytes) :
  VProCRC.get (crc_trailer data) = 0
  /\ VProCRC.verify (crc_trailer data) = true.
Proof.
  assert (E : VProCRC.get (crc_trailer data) = 0).
  { unfold crc_trailer, VProCRC.get. rewrite fold_left_app. cbn [fold_left].
    apply crc_step_trailer. apply get_range. }
  split; [exact E |].
  unfold VProCRC.verify, VProCRC.int_truth. rewrite E.
  unfold crc_trailer. rewrite length_app. cbn [List.length].
  replace (Z.of_nat (List.length data + 2) =? 0) with false
    by (symmetry; apply Z.eqb_neq; lia).
  reflexivity.
Qed.

(** The low bytes of the 256 entries of the table are pairwise distinct. *)
Lemma low_bytes_distinct :
  forallb (fun i => forallb (low_byte_differs i) (seq 0 256)) (seq 0 256) = true.
Proof. vm_compute. reflexivity. Qed.

Lemma forallb_seq_pairs (f : nat -> nat -> bool) (n : nat) :
  forallb (fun i => forallb (f i) (seq 0 n)) (seq 0 n) = true ->
  forall i j, (i < n)%nat -> (j < n)%nat -> f i j = true.
Proof.
  intros H i j Hi Hj.
  rewrite forallb_forall in H.
  specialize (H i ltac:(apply in_seq; lia)).
  rewrite forallb_forall in H.
  apply H. apply in_seq. lia.
Qed.

Lemma crc_table_low_inj (i j : nat) :
  (i < 256)%nat -> (j < 256)%nat ->
  nth i VProCRC.CRC_TABLE 0 mod 256 = nth j VProCRC.CRC_TABLE 0 mod 256 ->
  i = j.
Proof.
  intros Hi Hj E.
  pose proof (forallb_seq_pairs low_byte_differs 256 low_bytes_distinct
                i j Hi Hj) as H.
  unfold low_byte_differs in H.
  apply orb_true_iff in H. destruct H as [H | H].
  - now apply Nat.eqb_eq in H.
  - apply negb_true_iff, Z.eqb_neq in H. now elim H.
Qed.

Lemma lxor_cancel_r (a a' b : Z) : Z.lxor a b = Z.lxor a' b -> a = a'.
Proof.
  intros H. apply (f_equal (fun z => Z.lxor z b)) in H.
  now rewrite !Z.lxor_assoc, Z.lxor_nilpotent, !Z.lxor_0_r in H.
Qed.

Lemma lxor_cancel_l (a b b' : Z) : Z.lxor a b = Z.lxor a b' -> b = b'.
Proof.
  rewrite (Z.lxor_comm a b), (Z.lxor_comm a b'). apply lxor_cancel_r.
Qed.

Lemma lxor_shiftl_low (a x : Z) :
  Z.lxor a (Z.shiftl x 8) mod 2 ^ 8 = a mod 2 ^ 8.
Proof.
  apply Z.bits_inj'. intros n Hn.
  destruct (Z_lt_le_dec n 8) as [Hlt | Hge].
  - rewrite !Z.mod_pow2_bits_low, Z.lxor_spec, Z.shiftl_spec_low by lia.
    apply xorb_false_r.
  - now rewrite !Z.mod_pow2_bits_high by lia.
Qed.

Lemma crc_index_range (crc : Z) (b : byte) :
  0 <= crc < 65536 ->
  0 <= Z.lxor (Z.shiftr crc 8) (byte_val b) < 256.
Proof.
  intros Hc. change 256 with (2 ^ 8).
  apply lxor_below_pow2; [lia | | apply byte_val_range].
  rewrite Z.shiftr_div_pow2 by lia. change (2 ^ 8) with 256.
  split; [apply Z.div_pos; lia | apply Z.div_lt_upper_bound; lia].
Qed.

(** One turn of the loop tells two different bytes apart. *)
Lemma crc_step_inj_byte (crc : Z) (b1 b2 : byte) :
  0 <= crc < 65536 ->
  VProCRC.crc_step crc b1 = VProCRC.crc_step crc b2 -> b1 = b2.
Proof.
  intros Hc E. unfold VProCRC.crc_step in E.
  apply lxor_cancel_r in E.
  pose proof (crc_index_range crc b1 Hc) as R1.
  pose proof (crc_index_range crc b2 Hc) as R2.
  assert (Hi : Z.to_nat (Z.lxor (Z.shiftr crc 8) (byte_val b1))
               = Z.to_nat (Z.lxor (Z.shiftr crc 8) (byte_val b2))).
  { apply crc_table_low_inj; [lia | lia |]. now rewrite E. }
  apply Z2Nat.inj in Hi; [| lia | lia].
  apply lxor_cancel_l in Hi. now apply byte_val_inj.
Qed.

(** One turn of the loop tells two different 16-bit states apart. *)
Lemma crc_step_inj_state (c1 c2 : Z) (b : byte) :
  0 <= c1 < 65536 -> 0 <= c2 < 65536 ->
  VProCRC.crc_step c1 b = VProCRC.crc_step c2 b -> c1 = c2.
Proof.
  intros H1 H2 E. unfold VProCRC.crc_step in E.
  pose proof (crc_index_range c1 b H1) as R1.
  pose proof (crc_index_range c2 b H2) as R2.
  assert (Hi : Z.to_nat (Z.lxor (Z.shiftr c1 8) (byte_val b))
               = Z.to_nat (Z.lxor (Z.shiftr c2 8) (byte_val b))).
  { apply crc_table_low_inj; [lia | lia |].
    apply (f_equal (fun z => z mod 2 ^ 8)) in E.
    now rewrite !lxor_shiftl_low in E. }
  rewrite Hi in E. apply lxor_cancel_l in E.
  apply Z2Nat.inj in Hi; [| lia | lia].
  apply lxor_cancel_r in Hi.
  rewrite !Z.shiftl_mul_pow2 in E by lia.
  change 0xFF with (Z.ones 8) in E. rewrite !Z.land_ones in E by lia.
  rewrite !Z.shiftr_div_pow2 in Hi by lia.
  change (2 ^ 8) with 256 in *.
  rewrite (Z.div_mod c1 256), (Z.div_mod c2 256) by lia. lia.
Qed.

Lemma fold_crc_range (l : bytes) :
  forall crc, 0 <= crc < 65536 ->
  0 <= fold_left VProCRC.crc_step l crc < 65536.
Proof.
  induction l as [| b l IH]; intros crc Hc; cbn [fold_left]; [exact Hc |].
  apply IH. now apply crc_step_range.
Qed.

Lemma fold_crc_inj (l : bytes) :
  forall c1 c2, 0 <= c1 < 65536 -> 0 <= c2 < 65536 ->
  fold_left VProCRC.crc_step l c1 = fold_left VProCRC.crc_step l c2 ->
  c1 = c2.
Proof.
  induction l as [| b l IH]; intros c1 c2 H1 H2 E; cbn [fold_left] in E;
    [exact E |].
  apply IH in E; try now apply crc_step_range.
  now apply (crc_step_inj_state c1 c2 b).
Qed.

(** X3: changing one byte of a byte sequence, anywhere in it, changes its
    CRC; so when a frame passes [verify], the frame with one byte changed
    does not. *)
Theorem crc_detects_changed_byte (prefix suffix : bytes) (b1 b2 : byte) :
  b1 <> b2 ->
  VProCRC.get (prefix ++ b1 :: suffix) <> VProCRC.get (prefix ++ b2 :: suffix)
  /\ (VProCRC.verify (prefix ++ b1 :: suffix) = true ->
      VProCRC.verify (prefix ++ b2 :: suffix) = false).
Proof.
  intros Hb.
  assert (Hne : VProCRC.get (prefix ++ b1 :: suffix)
                <> VProCRC.get (prefix ++ b2 :: suffix)).
  { unfold VProCRC.get. rewrite !fold_left_app. cbn [fold_left]. intros E.
    pose proof (fold_crc_range prefix 0 ltac:(lia)) as Hp.
    apply fold_crc_inj in E; try now apply crc_step_range.
    now apply crc_step_inj_byte in E. }
  split; [exact Hne |].
  intros Hv.
  destruct (VProCRC.verify (prefix ++ b2 :: suffix)) eqn:Hv2; [| reflexivity].
  elim Hne.
  unfold VProCRC.verify, VProCRC.int_truth in Hv, Hv2.
  destruct (Z.of_nat (List.length (prefix ++ b1 :: suffix)) =? 0);
    [discriminate |].
  destruct (Z.of_nat (List.length (prefix ++ b2 :: suffix)) =? 0);
    [discriminate |].
  rewrite negb_involutive in Hv, Hv2.
  apply Z.eqb_eq in Hv, Hv2. now rewrite Hv, Hv2.
Qed.

(** ** The packed dates and times *)

(** X4: every 16-bit DateStamp and every TimeStamp that is not negative is
    the stamp of the date and time [_unpack_date_time] decodes it to:
    [calcDateStamp] and [calcTimeStamp] of the decoded year, month, day, hour
    and minute give the two words back. *)
Theorem stamps_of_unpacked_date_time (date time_ : Z) :
  0 <= date < 65536 ->
  0 <= time_ ->
  let '(y, m, d, h, mi) := _unpack_date_time date time_ in
  let decoded := {| year := y; month := m; day := d; hour := h; minute := mi |} in
  calcDateStamp decoded = date /\ calcTimeStamp decoded = time_.
Proof.
  intros Hd Ht. unfold _unpack_date_time, calcDateStamp, calcTimeStamp.
  cbn [year month day hour minute].
  change 0x1f with (Z.ones 5). change 0x0f with (Z.ones 4).
  change 0x7f with (Z.ones 7).
  rewrite !Z.land_ones, !Z.shiftr_div_pow2 by lia.
  change (2 ^ 5) with 32. change (2 ^ 4) with 16.
  change (2 ^ 7) with 128. change (2 ^ 9) with 512.
  split.
  - assert (H9 : date / 512 < 128) by (apply Z.div_lt_upper_bound; lia).
    assert (H9' : 0 <= date / 512) by (apply Z.div_pos; lia).
    rewrite (Z.mod_small (date / 512)) by lia.
    pose proof (Z.div_mod date 32 ltac:(lia)) as E1.
    pose proof (Z.div_mod (date / 32) 16 ltac:(lia)) as E2.
    assert (E3 : date / 32 / 16 = date / 512)
      by (rewrite Z.div_div by lia; reflexivity).
    lia.
  - pose proof (Z.div_mod time_ 100 ltac:(lia)) as E. lia.
Qed.

(** X5: on the datetimes the console can stamp, the order of the watermark
    pairs is the chronological order: the pair of stamps of [a] is below the
    pair of stamps of [b] exactly when [a] is earlier than [b]. *)
Theorem stamps_order_is_chronological (a b : datetime) :
  stampable a -> stampable b ->
  (tuple_lt (stamps a) (stamps b) = true <-> datetime_lt a b).
Proof.
  unfold stampable, stamps, datetime_lt, tuple_lt, calcDateStamp, calcTimeStamp.
  cbn [fst snd].
  intros (Hy & Hm & Hd & Hh & Hmi) (Hy' & Hm' & Hd' & Hh' & Hmi').
  rewrite orb_true_iff, andb_true_iff, !Z.ltb_lt, Z.eqb_eq.
  lia.
Qed.

(** X7: the storm start date is packed with the year offset in bits 0 to 6,
    the day in bits 7 to 11 and the month in bits 12 to 15; for every year
    offset up to 127, day up to 31 and month up to 15 the text
    [_unpack_storm_date] returns is the year, the month and the day in
    decimal, joined by "-", with no padding. *)
Theorem unpack_storm_date_of_packed (y m d : Z) :
  0 <= y <= 127 -> 0 <= d <= 31 -> 0 <= m <= 15 ->
  _unpack_storm_date (y + d * 128 + m * 4096)
  = (str_int (2000 + y) ++ "-" ++ str_int m ++ "-" ++ str_int d)%string.
Proof.
  intros Hy Hd Hm. unfold _unpack_storm_date.
  change 0x7f with (Z.ones 7). change 0x01f with (Z.ones 5).
  change 0x0f with (Z.ones 4).
  rewrite !Z.land_ones, !Z.shiftr_div_pow2 by lia.
  change (2 ^ 7) with 128. change (2 ^ 5) with 32.
  change (2 ^ 4) with 16. change (2 ^ 12) with 4096.
  assert (E1 : (y + d * 128 + m * 4096) mod 128 = y).
  { replace (y + d * 128 + m * 4096) with (y + (d + m * 32) * 128) by lia.
    rewrite Z.mod_add by lia. apply Z.mod_small. lia. }
  assert (E2 : (y + d * 128 + m * 4096) / 128 mod 32 = d).
  { replace (y + d * 128 + m * 4096) with (y + (d + m * 32) * 128) by lia.
    rewrite Z.div_add by lia. rewrite Z.div_small by lia.
    rewrite Z.add_0_l, Z.mod_add by lia. apply Z.mod_small. lia. }
  assert (E3 : (y + d * 128 + m * 4096) / 4096 mod 16 = m).
  { replace (y + d * 128 + m * 4096) with ((y + d * 128) + m * 4096) by lia.
    rewrite Z.div_add by lia. rewrite Z.div_small by lia.
    apply Z.mod_small. lia. }
  rewrite E1, E2, E3. now rewrite (Z.add_comm y 2000).
Qed.

Lemma fmt_02d_below_100 :
  forallb (fun n => String.eqb (fmt_02d (Z.of_nat n)) (two_digits (Z.of_nat n)))
          (seq 0 100)
  = true.
Proof. vm_compute. reflexivity. Qed.

Lemma fmt_02d_two_digits (z : Z) : 0 <= z < 100 -> fmt_02d z = two_digits z.
Proof.
  intros Hz. pose proof fmt_02d_below_100 as H.
  rewrite forallb_forall in H.
  specialize (H (Z.to_nat z) ltac:(apply in_seq; lia)).
  apply String.eqb_eq in H. now rewrite Z2Nat.id in H by lia.
Qed.

(** X8: a packed time [100 * h + m] with [h] and [m] below 100 becomes the
    five characters "HH:MM", each part written with two decimal digits. *)
Theorem unpack_time_is_HH_MM (h m : Z) :
  0 <= h < 100 -> 0 <= m < 100 ->
  _unpack_time (100 * h + m) = (two_digits h ++ ":" ++ two_digits m)%string
  /\ String.length (_unpack_time (100 * h + m)) = 5%nat.
Proof.
  intros Hh Hm.
  assert (E : _unpack_time (100 * h + m)
              = (two_digits h ++ ":" ++ two_digits m)%string).
  { unfold _unpack_time.
    replace (100 * h + m) with (m + h * 100) by lia.
    rewrite Z.div_add, Z.mod_add by lia.
    rewrite Z.div_small, Z.mod_small by lia. rewrite Z.add_0_l.
    now rewrite !fmt_02d_two_digits by lia. }
  split; [exact E |]. rewrite E. reflexivity.
Qed.

(** ** The record layouts *)

Ltac decode_fields :=
  cbn -[byte_at u16 byte_val float_of_int PrimFloat.div _unpack_storm_date
        _unpack_time Z.land Z.shiftr Z.div Z.modulo Z.sub Z.add Z.mul].

Ltac same_field :=
  repeat first [ same_byte | reflexivity | progress f_equal ].

(** X10: under the revision-B layout every 52-byte slot inside the buffer
    decodes.  DateStamp and TimeStamp stay the raw words; Year, Month, Day,
    Hour and Min are what [_unpack_date_time] makes of them; the
    temperatures and the UV fields are divided by 10.0, Barometer and ETHour
    by 1000.0; the soil, leaf and extra temperatures are the bytes minus 90;
    the other byte groups become tuples of their bytes. *)
Theorem ArchiveB_unpack_fields (buf : bytes) (offset : Z) :
  0 <= offset ->
  offset + 52 <= Z.of_nat (List.length buf) ->
  let n := Z.to_nat offset in
  let '(y, m, d, h, mi) := _unpack_date_time (raw_date buf n) (raw_time buf n) in
  exists a,
    unpack_from ArchiveBStruct buf offset = Val a
    /\ getitem a "DateStamp" = Val (VInt (raw_date buf n))
    /\ getitem a "TimeStamp" = Val (VInt (raw_time buf n))
    /\ getitem a "Year" = Val (VInt y)
    /\ getitem a "Month" = Val (VInt m)
    /\ getitem a "Day" = Val (VInt d)
    /\ getitem a "Hour" = Val (VInt h)
    /\ getitem a "Min" = Val (VInt mi)
    /\ getitem a "TempOut"
       = Val (VFloat (PrimFloat.div (float_of_int (raw_word buf (n + 4))) 10))
    /\ getitem a "TempOutHi"
       = Val (VFloat (PrimFloat.div (float_of_int (raw_word buf (n + 6))) 10))
    /\ getitem a "TempOutLow"
       = Val (VFloat (PrimFloat.div (float_of_int (raw_word buf (n + 8))) 10))
    /\ getitem a "Barometer"
       = Val (VFloat (PrimFloat.div (float_of_int (raw_word buf (n + 14))) 1000))
    /\ getitem a "TempIn"
       = Val (VFloat (PrimFloat.div (float_of_int (raw_word buf (n + 20))) 10))
    /\ getitem a "UV"
       = Val (VFloat (PrimFloat.div (float_of_int (raw_byte buf (n + 28))) 10))
    /\ getitem a "ETHour"
       = Val (VFloat (PrimFloat.div (float_of_int (raw_byte buf (n + 29))) 1000))
    /\ getitem a "UVHi"
       = Val (VFloat (PrimFloat.div (float_of_int (raw_byte buf (n + 32))) 10))
    /\ getitem a "LeafTemps"
       = Val (VTuple (map (fun t => t - 90) (raw_bytes buf (n + 34) 2)))
    /\ getitem a "LeafWetness" = Val (VTuple (raw_bytes buf (n + 36) 2))
    /\ getitem a "SoilTemps"
       = Val (VTuple (map (fun t => t - 90) (raw_bytes buf (n + 38) 4)))
    /\ getitem a "RecType" = Val (VInt (raw_rec_type buf n))
    /\ getitem a "ExtraHum" = Val (VTuple (raw_bytes buf (n + 43) 2))
    /\ getitem a "ExtraTemps"
       = Val (VTuple (map (fun t => t - 90) (raw_bytes buf (n + 45) 3)))
    /\ getitem a "SoilMoist" = Val (VTuple (raw_bytes buf (n + 48) 4)).
Proof.
  intros H0 H1 n.
  rewrite unpack_from_in_range by (rewrite ?size_ArchiveBStruct; lia).
  fold n. unfold _unpack_date_time.
  unfold ArchiveBStruct, raw_items, fields, codes, dict_of.
  decode_fields.
  eexists. split; [reflexivity |].
  unfold raw_date, raw_time, raw_rec_type, raw_word, raw_byte, raw_bytes, slice.
  decode_fields.
  repeat split; same_field.
Qed.

(** X11: under the revision-A layout no slot decodes: the transform shared
    by both revisions scales the key Barometer, and the revision-A layout
    names that field Pressure, so every slot inside the buffer raises
    KeyError('Barometer'); a slot that does not fit raises struct.error. *)
Theorem ArchiveA_never_decodes (buf : bytes) (offset : Z) :
  (forall a, unpack_from ArchiveAStruct buf offset <> Val a)
  /\ (0 <= offset <= Z.of_nat (List.length buf) - 52 ->
      unpack_from ArchiveAStruct buf offset = Exc (KeyError "Barometer"))
  /\ (Z.of_nat (List.length buf) - 52 < offset ->
      unpack_from ArchiveAStruct buf offset = Exc StructError).
Proof.
  split; [intros a; apply unpack_from_A_raises |]. split.
  - intros H. apply ArchiveA_unpack_from; lia.
  - intros H. unfold unpack_from. rewrite size_ArchiveAStruct.
    replace (52 <=? Z.of_nat (List.length buf) - offset) with false
      by (symmetry; apply Z.leb_gt; lia).
    now rewrite andb_false_r.
Qed.

(** X12: in a session whose layout is revision A (the flag says so, or there
    is no flag and the RecType byte of the first slot walked is not 0) the
    walk of a page blob stops at its first slot with KeyError('Barometer'):
    no record is collected, and the flag is left at revision A. *)
Theorem walk_records_rev_a_raises (blob : bytes) (k : nat)
  (records : list dict) (self : VantagePro) :
  List.length blob = 260%nat ->
  (k < 5)%nat ->
  rev_b_in_force self blob k = false ->
  walk_records
    (Z.to_nat (size ArchiveAStruct * 5 - Z.of_nat k * size ArchiveAStruct))
    blob (Z.of_nat k * size ArchiveAStruct) records self
  = (Raises (KeyError "Barometer"), set_ARCHIVE_REV_B (Some false) self).
Proof.
  intros Hlen Hk Hrev. rewrite size_ArchiveAStruct.
  destruct (Z.to_nat (52 * 5 - Z.of_nat k * 52)) as [| fuel] eqn:Hfuel; [lia |].
  rewrite walk_records_eq, size_ArchiveAStruct.
  replace (Z.of_nat k * 52 <? 52 * 5) with true by (symmetry; apply Z.ltb_lt; lia).
  unfold bind at 1. unfold unpack_slot, bind at 1.
  unfold rev_b_in_force in Hrev.
  destruct (_ARCHIVE_REV_B self) as [b |] eqn:Hflag.
  - subst b. rewrite (use_rev_b_cached false) by exact Hflag.
    cbn [truthy]. rewrite ArchiveA_unpack_from by lia.
    cbn [lift raise]. now rewrite set_ARCHIVE_REV_B_same.
  - rewrite use_rev_b_probe by (try exact Hflag; lia).
    replace (Z.to_nat (Z.of_nat k * 52)) with (k * 52)%nat by lia.
    rewrite Hrev. cbn [truthy]. rewrite ArchiveA_unpack_from by lia.
    reflexivity.
Qed.

(** X29: a page frame decodes exactly when it has 267 bytes; its Index is
    byte 0 and its Records are the 260 bytes from byte 1 on.  A download
    header decodes exactly when it has 6 bytes; Pages is the word at byte 0
    and Offset the word at byte 2. *)
Theorem dmp_frames_unpack (raw : bytes) :
  (List.length raw = 267%nat ->
   exists page,
     unpack DmpPageStruct raw = Val page
     /\ getitem page "Index" = Val (VInt (raw_byte raw 0))
     /\ getitem page "Records" = Val (VBytes (slice raw 1 260)))
  /\ (List.length raw <> 267%nat -> unpack DmpPageStruct raw = Exc StructError)
  /\ (List.length raw = 6%nat ->
      exists dmp,
        unpack DmpStruct raw = Val dmp
        /\ getitem dmp "Pages" = Val (VInt (raw_word raw 0))
        /\ getitem dmp "Offset" = Val (VInt (raw_word raw 2)))
  /\ (List.length raw <> 6%nat -> unpack DmpStruct raw = Exc StructError).
Proof.
  repeat split.
  - intros Hlen. unfold unpack.
    replace (Z.of_nat (List.length raw) =? size DmpPageStruct) with true
      by (rewrite Hlen; reflexivity).
    unfold DmpPageStruct, raw_items, fields, codes, dict_of.
    eexists. split; [reflexivity |]. split; reflexivity.
  - intros Hlen. unfold unpack.
    replace (Z.of_nat (List.length raw) =? size DmpPageStruct) with false;
      [reflexivity |].
    symmetry. apply Z.eqb_neq. change (size DmpPageStruct) with 267. lia.
  - intros Hlen. unfold unpack.
    replace (Z.of_nat (List.length raw) =? size DmpStruct) with true
      by (rewrite Hlen; reflexivity).
    unfold DmpStruct, raw_items, fields, codes, dict_of.
    eexists. split; [reflexivity |]. split; reflexivity.
  - intros Hlen. unfold unpack.
    replace (Z.of_nat (List.length raw) =? size DmpStruct) with false;
      [reflexivity |].
    symmetry. apply Z.eqb_neq. change (size DmpStruct) with 6. lia.
Qed.

(** X28: a time frame decodes exactly when it has 8 bytes; the Year of the
    record is byte 5 plus 1900, a year from 1900 to 2155, and the other
    fields are the bytes as they are. *)
Theorem timeStruct_unpack (raw : bytes) :
  (List.length raw = 8%nat ->
   exists items,
     unpack timeStruct raw = Val items
     /\ getitem items "Year" = Val (VInt (raw_byte raw 5 + 1900))
     /\ 1900 <= raw_byte raw 5 + 1900 <= 2155
     /\ getitem items "Month" = Val (VInt (raw_byte raw 4))
     /\ getitem items "Day" = Val (VInt (raw_byte raw 3))
     /\ getitem items "Hour" = Val (VInt (raw_byte raw 2))
     /\ getitem items "Min" = Val (VInt (raw_byte raw 1))
     /\ getitem items "Sec" = Val (VInt (raw_byte raw 0)))
  /\ (List.length raw <> 8%nat -> unpack timeStruct raw = Exc StructError).
Proof.
  split.
  - intros Hlen. unfold unpack.
    replace (Z.of_nat (List.length raw) =? size timeStruct) with true
      by (rewrite Hlen; reflexivity).
    unfold timeStruct, raw_items, fields, codes, dict_of.
    decode_fields.
    eexists. split; [reflexivity |].
    pose proof (byte_val_range (byte_at raw 5)) as R.
    unfold raw_byte. repeat split; try reflexivity; lia.
  - intros Hlen. unfold unpack.
    replace (Z.of_nat (List.length raw) =? size timeStruct) with false;
      [reflexivity |].
    symmetry. apply Z.eqb_neq. change (size timeStruct) with 8. lia.
Qed.

(** ** The records of a download *)

Lemma walk_records_no_sentinel (fuel : nat) (page_records : bytes) :
  forall (offset : Z) (records : list dict),
  Forall no_sentinel records ->
  yields (walk_records fuel page_records offset records) (Forall no_sentinel).
Proof.
  induction fuel as [| fuel IH]; intros offset records Hrecs;
    rewrite walk_records_eq;
    (destruct (offset <? size ArchiveAStruct * 5);
     [| now apply yields_ret]).
  - apply yields_exhausted.
  - apply (yields_bind _ _ has_stamp); [apply unpack_slot_has_stamp |].
    intros a [[d0 t0] Ha].
    apply stamp_Some in Ha. destruct Ha as [Hd Ht].
    apply (yields_bind _ _ (fun d => d = VInt d0)).
    { apply yields_lift. intros d E. apply getitem_Val in E.
      rewrite Hd in E. now injection E as <-. }
    intros d ->.
    apply (yields_bind _ _ (Forall no_sentinel)); [| intros recs; apply IH].
    unfold py_ne. cbn [py_eq].
    destruct (Z.eqb_spec d0 65535) as [E0 | N0]; cbn [negb];
      [now apply yields_ret |].
    apply (yields_bind _ _ (fun t => t = VInt t0)).
    { apply yields_lift. intros t E. apply getitem_Val in E.
      rewrite Ht in E. now injection E as <-. }
    intros t ->. cbn [py_eq].
    destruct (Z.eqb_spec t0 65535) as [E1 | N1]; cbn [negb];
      apply yields_ret; [exact Hrecs |].
    apply Forall_app. split; [exact Hrecs |].
    constructor; [| constructor].
    exists d0, t0. unfold stamp. rewrite Hd, Ht. repeat split; assumption.
Qed.

Lemma read_pages_no_sentinel (n : nat) :
  forall (i dmp_offset : Z) (records : list dict),
  Forall no_sentinel records ->
  yields (read_pages n i dmp_offset records)
         (fun r => match r with
                   | Some recs => Forall no_sentinel recs
                   | None => True
                   end).
Proof.
  induction n as [| n IH]; intros i dmp_offset records Hrecs; cbn [read_pages].
  - now apply yields_ret.
  - apply yields_bind_any. intros raw.
    destruct (negb (VProCRC.verify raw)).
    + apply yields_bind_any. intros _. now apply yields_ret.
    + apply yields_bind_any. intros _.
      apply yields_bind_any. intros page.
      apply yields_bind_any. intros page_records.
      apply (yields_bind _ _ (Forall no_sentinel)).
      * now apply walk_records_no_sentinel.
      * intros recs Hr. now apply IH.
Qed.

(** X13: no record a download returns has the DateStamp 0xFFFF or the
    TimeStamp 0xFFFF: every returned record carries two integer stamps, and
    both differ from the sentinel. *)
Theorem dmpaft_returns_no_sentinel (fuel : nat) (time_fields : Z * Z)
  (self self' : VantagePro) (records : list dict) :
  _dmpaft_cmd fuel time_fields self = (Returns (Some records), self') ->
  Forall no_sentinel records.
Proof.
  revert self self' records.
  assert (H : yields (_dmpaft_cmd fuel time_fields)
                (fun r => match r with
                          | Some recs => Forall no_sentinel recs
                          | None => True
                          end)).
  { unfold _dmpaft_cmd.
    apply yields_bind_any. intros tbuf.
    apply yields_bind_any. intros _.
    apply yields_bind_any. intros crc.
    apply yields_bind_any. intros _.
    apply yields_bind_any. intros ack.
    destruct (py_ne (VBytes ack) ACK); [now apply yields_ret |].
    apply yields_bind_any. intros raw.
    destruct (negb (VProCRC.verify raw)).
    - apply yields_bind_any. intros _. now apply yields_ret.
    - repeat (apply yields_bind_any; intros ?).
      apply read_pages_no_sentinel. constructor. }
  intros self self' records E. exact (H self (Some records) self' E).
Qed.

(** ** The time stamp a download sends *)

Lemma pack_H_packable (order : byteorder) (z : Z) :
  packable z ->
  exists b0 b1, pack_H order z = Val [b0; b1] /\ u16 order b0 b1 = z.
Proof.
  intros [H0 H1]. unfold pack_H.
  replace (0 <=? z) with true by (symmetry; apply Z.leb_le; lia).
  replace (z <=? 65535) with true by (symmetry; apply Z.leb_le; lia).
  cbn [andb].
  assert (Hq : (z / 256) mod 256 = z / 256).
  { apply Z.mod_small.
    split; [apply Z.div_pos; lia | apply Z.div_lt_upper_bound; lia]. }
  pose proof (Z.div_mod z 256 ltac:(lia)) as E.
  destruct order; do 2 eexists; (split; [reflexivity |]);
    unfold u16; rewrite !byte_val_of_Z; lia.
Qed.

Lemma pack_H_not_packable (order : byteorder) (z : Z) :
  ~ packable z -> pack_H order z = Exc StructError.
Proof.
  intros H. unfold pack_H, packable in *.
  destruct (Z.leb_spec 0 z), (Z.leb_spec z 65535); cbn [andb];
    try reflexivity; lia.
Qed.

(** X16: a watermark whose two words are in 0..65535 packs into four bytes
    that hold the DateStamp word and then the TimeStamp word in host order,
    and these four bytes followed by the big-endian CRC [_dmpaft_cmd]
    appends are a 6-byte frame that passes [verify]. *)
Theorem time_stamp_frame_verifies (time_fields : Z * Z) :
  packable (fst time_fields) ->
  packable (snd time_fields) ->
  exists tbuf crc,
    pack_2H time_fields = Val tbuf
    /\ pack_H BigEndian (VProCRC.get tbuf) = Val crc
    /\ raw_word tbuf 0 = fst time_fields
    /\ raw_word tbuf 2 = snd time_fields
    /\ List.length (tbuf ++ crc) = 6%nat
    /\ VProCRC.verify (tbuf ++ crc) = true.
Proof.
  intros Hd Ht.
  destruct (pack_H_packable native _ Hd) as [b0 [b1 [E1 U1]]].
  destruct (pack_H_packable native _ Ht) as [b2 [b3 [E2 U2]]].
  exists [b0; b1; b2; b3]. eexists.
  split; [unfold pack_2H; now rewrite E1, E2 |].
  split; [apply pack_H_crc |].
  split; [exact U1 |]. split; [exact U2 |]. split; [reflexivity |].
  apply (crc_trailer_verifies_tail [b0; b1; b2; b3]).
Qed.

(** X14: when a word of the watermark is outside 0..65535, as it is for a
    log start date before the year 2000 or after 2127, [struct.pack] fails:
    [_dmpaft_cmd] and with it [_get_new_archive_fields] raise struct.error
    before anything is written to or read from the port, and the session is
    left as it was. *)
Theorem unpackable_watermark_raises (fuel : nat) (self : VantagePro) :
  ~ (packable (fst (_archive_time self)) /\ packable (snd (_archive_time self))) ->
  _dmpaft_cmd fuel (_archive_time self) self = (Raises StructError, self)
  /\ _get_new_archive_fields fuel self = (Raises StructError, self).
Proof.
  intros H.
  assert (Hp : pack_2H (_archive_time self) = Exc StructError).
  { unfold pack_2H.
    destruct (Z_le_dec 0 (fst (_archive_time self))) as [A0 | A0];
      [destruct (Z_le_dec (fst (_archive_time self)) 65535) as [A1 | A1] |];
      try (rewrite pack_H_not_packable by (unfold packable; lia); reflexivity).
    destruct (pack_H_packable native (fst (_archive_time self))
                ltac:(unfold packable; lia)) as [b0 [b1 [E _]]].
    rewrite E. cbn [py_bind].
    rewrite pack_H_not_packable; [reflexivity |].
    intros Hs. apply H. split; [unfold packable; lia | exact Hs]. }
  assert (E : _dmpaft_cmd fuel (_archive_time self) self
              = (Raises StructError, self)).
  { unfold _dmpaft_cmd. unfold bind at 1. now rewrite Hp. }
  split; [exact E |].
  unfold _get_new_archive_fields. cbn [dmpaft_attempts].
  unfold bind, get_archive_time. now rewrite E.
Qed.

(** The stamps of a date before 2000 or after 2127 do not pack. *)
Lemma stamps_outside_epoch (d : datetime) :
  1 <= month d <= 12 -> 1 <= day d <= 31 ->
  year d < 2000 \/ 2127 < year d ->
  ~ packable (calcDateStamp d).
Proof.
  unfold packable, calcDateStamp. lia.
Qed.

(** ** The download: acknowledgement of the time stamp, empty downloads *)

(** X15: when the reply to the time stamp is not the acknowledgement byte,
    the download returns no result at once: it reads no header, it does not
    write the escape token, and the last thing on the port is the one-byte
    read. *)
Theorem dmpaft_bad_time_stamp_ack (fuel : nat) (time_fields : Z * Z)
  (self s1 : VantagePro) (tbuf ack : bytes) :
  pack_2H time_fields = Val tbuf ->
  _cmd fuel "DMPAFT" [] false self = (Returns tt, s1) ->
  next_reply s1 0 = Data ack ->
  ack <> [x06] ->
  _dmpaft_cmd fuel time_fields self = (Returns None, after_time_stamp tbuf s1)
  /\ trace (port (after_time_stamp tbuf s1))
     = trace (port s1) ++ [Write (VBytes (crc_trailer tbuf)); Read 1 None].
Proof.
  intros Hpack Hcmd Hack Hne. split.
  - unfold _dmpaft_cmd.
    unfold bind at 1. rewrite Hpack. cbn [lift ret].
    unfold bind at 1. rewrite Hcmd.
    unfold bind at 1. rewrite pack_H_crc. cbn [lift ret].
    unfold bind at 1. unfold port_write at 1.
    fold (crc_trailer tbuf).
    unfold bind at 1.
    rewrite (port_read_data _ _ ack) by (rewrite next_reply_wrote; exact Hack).
    replace (py_ne (VBytes ack) ACK) with true; [reflexivity |].
    unfold py_ne, ACK. cbn [py_eq]. unfold bytes_eqb.
    destruct (list_eq_dec byte_eq_dec ack (encode (String "006" "")))
      as [E | _]; [| reflexivity].
    now elim Hne.
  - unfold after_time_stamp. cbn. now rewrite <- app_assoc.
Qed.

(** X17: a download whose header verifies and announces zero pages returns
    the empty record list, and [_get_new_archive_fields] then returns no
    record, raises nothing and leaves the watermark what it was before the
    call. *)
Theorem empty_download_returns_none (fuel : nat) (self s1 : VantagePro)
  (tbuf raw : bytes) (dmp : dict) (dmp_offset : Z) :
  pack_2H (_archive_time self) = Val tbuf ->
  _cmd fuel "DMPAFT" [] false self = (Returns tt, s1) ->
  next_reply s1 0 = Data [x06] ->
  next_reply s1 1 = Data raw ->
  VProCRC.verify raw = true ->
  unpack DmpStruct raw = Val dmp ->
  getitem dmp "Pages" = Val (VInt 0) ->
  getitem dmp "Offset" = Val (VInt dmp_offset) ->
  let s2 := wrote ACK (after_header tbuf s1) in
  _dmpaft_cmd fuel (_archive_time self) self = (Returns (Some []), s2)
  /\ _get_new_archive_fields fuel self = (Returns None, s2)
  /\ _archive_time s2 = _archive_time self.
Proof.
  intros Hpack Hcmd Hack Hraw Hcrc Hdmp Hpages Hoff s2.
  assert (E : _dmpaft_cmd fuel (_archive_time self) self = (Returns (Some []), s2)).
  { rewrite (dmpaft_after_handshake fuel (_archive_time self) self s1 tbuf raw
               Hpack Hcmd Hack Hraw).
    rewrite Hcrc. cbn [negb].
    unfold bind at 1. rewrite Hdmp. cbn [lift ret].
    unfold bind at 1. rewrite Hpages. cbn [py_bind as_int lift ret].
    unfold bind at 1. rewrite Hoff. cbn [py_bind as_int lift ret].
    reflexivity. }
  split; [exact E |]. split.
  - unfold _get_new_archive_fields. cbn [dmpaft_attempts].
    unfold bind at 1. unfold bind at 1. unfold get_archive_time at 1.
    unfold bind at 1. rewrite E. reflexivity.
  - pose proof (dmpaft_keeps_watermark fuel (_archive_time self)
                  (_archive_time self) self eq_refl) as K.
    rewrite E in K. exact K.
Qed.

(** ** The watermark over several calls *)

Lemma newest_record_none (records : list dict) :
  forall (self : VantagePro),
  Forall (fun r => exists p, stamp r = Some p
                             /\ tuple_lt (_archive_time self) p = false)
         records ->
  newest_record records None self = (Returns None, self).
Proof.
  induction records as [| r records IH]; intros self Hall; [reflexivity |].
  inversion Hall as [| r' l' [[d t] [Hs Hlt]] Hrest]; subst.
  rewrite (newest_record_cons r records None self d t Hs), Hlt.
  now apply IH.
Qed.

(** X18: no record is reported twice.  After a call of
    [_get_new_archive_fields] that obtained a record list, a further call
    that obtains the same list returns no record and leaves the watermark
    where the first call put it. *)
Theorem same_records_are_not_reported_again
  (fuel : nat) (self s1 s2 s3 : VantagePro) (records : list dict)
  (first : option dict) :
  dmpaft_attempts fuel 3 (Some []) self = (Returns (Some records), s1) ->
  _get_new_archive_fields fuel self = (Returns first, s2) ->
  dmpaft_attempts fuel 3 (Some []) s2 = (Returns (Some records), s3) ->
  _get_new_archive_fields fuel s2 = (Returns None, s3)
  /\ _archive_time s3 = _archive_time s2.
Proof.
  intros H1 Hfirst H2.
  assert (Hstamps : Forall has_stamp records).
  { exact (dmpaft_attempts_has_stamp fuel 3 (Some []) (Forall_nil _) _ _ _ H1). }
  destruct (newest_record_spec records Hstamps None s1)
    as [c' [nr [Hrun [_ [Hall _]]]]].
  assert (Es2 : s2 = set_archive_time c' s1).
  { unfold _get_new_archive_fields, bind in Hfirst.
    rewrite H1, Hrun in Hfirst. now injection Hfirst as _ <-. }
  assert (Htime : _archive_time s3 = _archive_time s2).
  { pose proof (keeps_dmpaft_attempts
                  (fun s => _archive_time s = _archive_time s2)
                  (fun p s H => H)
                  (use_rev_b_keeps_watermark (_archive_time s2))
                  fuel 3 (Some []) s2 eq_refl) as H.
    now rewrite H2 in H. }
  split; [| exact Htime].
  unfold _get_new_archive_fields, bind. rewrite H2.
  apply newest_record_none.
  rewrite Forall_forall. intros r Hin.
  rewrite Forall_forall in Hstamps. destruct (Hstamps r Hin) as [p Hp].
  exists p. split; [exact Hp |].
  rewrite Htime, Es2. cbn [_archive_time set_archive_time].
  specialize (Hall r p Hin Hp). unfold tuple_le in Hall.
  now apply negb_true_iff in Hall.
Qed.

Lemma newest_record_keeps_floor (floor : Z * Z) (records : list dict) :
  forall new_rec,
  keeps (fun self => tuple_le floor (_archive_time self) = true)
        (newest_record records new_rec).
Proof.
  induction records as [| r records IH]; intros new_rec; cbn [newest_record];
    [apply keeps_ret |].
  apply keeps_bind; [apply keeps_lift | intros d].
  apply keeps_bind; [apply keeps_lift | intros t].
  apply keeps_bind; [apply keeps_lift | intros d'].
  apply keeps_bind; [apply keeps_lift | intros t'].
  intros self H. unfold bind, get_archive_time.
  destruct (tuple_lt (_archive_time self) (d', t')) eqn:Hlt.
  - unfold put_archive_time. apply IH. cbn [_archive_time set_archive_time].
    apply (tuple_le_trans _ (_archive_time self)); [exact H |].
    now apply tuple_lt_le.
  - now apply IH.
Qed.

(** X6: the watermark never moves back.  However a call of
    [_get_new_archive_fields] ends (with a record, with none, with an
    exception, blocked on a read), the watermark after the call is not below
    the watermark before it. *)
Theorem watermark_never_moves_back (fuel : nat) (self : VantagePro) :
  tuple_le (_archive_time self)
           (_archive_time (snd (_get_new_archive_fields fuel self)))
  = true.
Proof.
  assert (K : keeps (fun s => tuple_le (_archive_time self) (_archive_time s) = true)
                    (_get_new_archive_fields fuel)).
  { unfold _get_new_archive_fields. apply keeps_bind.
    - apply keeps_dmpaft_attempts.
      + intros p s H. exact H.
      + intros records offset s H.
        pose proof (use_rev_b_keeps_watermark (_archive_time s) records offset
                      s eq_refl) as E.
        cbv beta in E. now rewrite E.
    - intros [records |]; [apply newest_record_keeps_floor | apply keeps_raise]. }
  apply K. apply tuple_le_refl.
Qed.

Lemma keeps_loop_attempts (P : VantagePro -> Prop)
  (P_port : forall p self, P self -> P (set_port p self))
  (fuel n : nat) :
  forall raw crc_ok, keeps P (loop_attempts fuel n raw crc_ok).
Proof.
  induction n as [| n IH]; intros raw crc_ok; cbn [loop_attempts];
    [apply keeps_ret |].
  apply keeps_bind.
  - unfold _loop_cmd. apply keeps_bind; [now apply keeps_cmd | intros _].
    now apply keeps_port_read.
  - intros raw'. destruct (VProCRC.verify raw'); [apply keeps_ret |].
    apply keeps_bind; [now apply keeps_sleep | intros _; apply IH].
Qed.

(** X22: a real-time reading never touches the archive state: however
    [_get_loop_fields] ends, the watermark and the revision flag are what
    they were before the call. *)
Theorem loop_fields_keep_archive_state (fuel : nat) (self : VantagePro) :
  _archive_time (snd (_get_loop_fields fuel self)) = _archive_time self
  /\ _ARCHIVE_REV_B (snd (_get_loop_fields fuel self)) = _ARCHIVE_REV_B self.
Proof.
  assert (K : keeps (fun s => _archive_time s = _archive_time self
                              /\ _ARCHIVE_REV_B s = _ARCHIVE_REV_B self)
                    (_get_loop_fields fuel)).
  { unfold _get_loop_fields. apply keeps_bind.
    - apply keeps_loop_attempts. intros p s H. exact H.
    - intros r. destruct (negb (snd r)); [apply keeps_raise | apply keeps_lift]. }
  apply K. now split.
Qed.

(** ** The wake-up step, in general *)

Lemma next_reply_after_wakeup_turn (self : VantagePro) (k : nat) :
  next_reply (after_wakeup_turn self) k = next_reply self (S k).
Proof.
  unfold after_wakeup_turn. now rewrite next_reply_did_read, next_reply_wrote.
Qed.

Lemma timeouts_before_S (self : VantagePro) (n : nat) :
  timeouts_before self (S n)
  = ((if is_silence (next_reply self 0) then 1 else 0)
     + timeouts_before (after_wakeup_turn self) n)%nat.
Proof.
  unfold timeouts_before. cbn [seq map filter].
  rewrite <- seq_shift, map_map.
  rewrite (map_ext (fun k => next_reply self (S k))
                   (next_reply (after_wakeup_turn self)))
    by (intros k; now rewrite next_reply_after_wakeup_turn).
  now destruct (is_silence (next_reply self 0)).
Qed.

Lemma trace_after_wakeup_turns (k : nat) :
  forall self : VantagePro,
  trace (port (after_wakeup_turns k self))
  = trace (port self) ++ concat (repeat wakeup_turn k).
Proof.
  induction k as [| k IH]; intros self; cbn [after_wakeup_turns repeat concat].
  - now rewrite app_nil_r.
  - rewrite IH. cbn. now rewrite <- !app_assoc.
Qed.

(** The loop when the next [n] replies hold no acknowledgement and, with
    the [i] timeouts counted so far, fewer than three timeouts. *)
Lemma wakeup_loop_run (n : nat) :
  forall (fuel : nat) (i : Z) (self : VantagePro),
  (n < fuel)%nat ->
  0 <= i ->
  (forall k, (k < n)%nat -> is_wake_ack (next_reply self k) = false) ->
  i + Z.of_nat (timeouts_before self n) < 3 ->
  (is_wake_ack (next_reply self n) = true ->
   wakeup_loop fuel false i self
   = (Returns true, after_wakeup_turns (S n) self))
  /\ (next_reply self n = Silence ->
      i + Z.of_nat (timeouts_before self n) = 2 ->
      wakeup_loop fuel false i self
      = (Returns false, after_wakeup_turns (S n) self)).
Proof.
  induction n as [| n IH]; intros fuel i self Hfuel Hi Hno Hcount;
    (destruct fuel as [| fuel]; [lia |]).
  - cbn [timeouts_before seq map filter List.length] in *. split.
    + intros Hack. unfold is_wake_ack in Hack.
      destruct (next_reply self 0) as [bs |] eqn:Hr; [| discriminate].
      now rewrite (wakeup_loop_ack fuel i self bs) by (lia || easy).
    + intros Hr Hi2. rewrite wakeup_loop_timeout by (lia || easy).
      now rewrite wakeup_loop_gives_up by lia.
  - pose proof (Hno 0%nat ltac:(lia)) as Hno0.
    rewrite timeouts_before_S in Hcount |- *.
    assert (Hno' : forall k, (k < n)%nat ->
                     is_wake_ack (next_reply (after_wakeup_turn self) k) = false).
    { intros k Hk. rewrite next_reply_after_wakeup_turn. apply Hno. lia. }
    rewrite <- (next_reply_after_wakeup_turn self n).
    destruct (next_reply self 0) as [bs |] eqn:Hr; cbn [is_silence] in *.
    + rewrite (wakeup_loop_mismatch fuel i self bs) by (lia || easy).
      apply IH; (lia || easy).
    + rewrite wakeup_loop_timeout by (lia || easy).
      destruct (IH fuel (i + 1) (after_wakeup_turn self)
                  ltac:(lia) ltac:(lia) Hno' ltac:(lia)) as [IHa IHs].
      split; [exact IHa |]. intros Hs Hi2. apply IHs; [exact Hs | lia].
Qed.

(** X19: the wake-up step ends at the first wake acknowledgement or at the
    third read that times out, whichever comes first; replies that arrive
    but do not match are not counted.  If none of the next [n] replies is the
    acknowledgement and fewer than three of them are timeouts, then an
    acknowledgement at reply [n] makes [_wakeup] return after [n + 1]
    attempts, and a timeout at reply [n] that is the third one makes it raise
    the device-unreachable failure after [n + 1] attempts. *)
Theorem wakeup_ends_at_ack_or_third_timeout (n fuel : nat) (self : VantagePro) :
  (n < fuel)%nat ->
  (forall k, (k < n)%nat -> is_wake_ack (next_reply self k) = false) ->
  (timeouts_before self n < 3)%nat ->
  (is_wake_ack (next_reply self n) = true ->
   _wakeup fuel self = (Returns tt, after_wakeup_turns (S n) self))
  /\ (next_reply self n = Silence ->
      timeouts_before self n = 2%nat ->
      _wakeup fuel self
      = (Raises NoDeviceException, after_wakeup_turns (S n) self))
  /\ trace (port (after_wakeup_turns (S n) self))
     = trace (port self) ++ concat (repeat wakeup_turn (S n)).
Proof.
  intros Hfuel Hno Hcount.
  destruct (wakeup_loop_run n fuel 0 self Hfuel ltac:(lia) Hno ltac:(lia))
    as [Hack Hsil].
  split; [| split].
  - intros H. unfold _wakeup, bind. now rewrite (Hack H).
  - intros H H2. unfold _wakeup, bind. now rewrite (Hsil H ltac:(lia)).
  - apply trace_after_wakeup_turns.
Qed.

(** Three reads in a row that time out: the device is asleep. *)
Lemma wakeup_asleep (fuel : nat) (self : VantagePro) :
  (3 <= fuel)%nat ->
  (forall k, (k < 3)%nat -> next_reply self k = Silence) ->
  _wakeup fuel self = (Raises NoDeviceException, after_wakeup_turns 3 self).
Proof.
  intros Hfuel Hdev.
  assert (Hno : forall k, (k < 2)%nat -> is_wake_ack (next_reply self k) = false).
  { intros k Hk. now rewrite Hdev by lia. }
  assert (Hc : timeouts_before self 2 = 2%nat).
  { unfold timeouts_before. cbn [seq map].
    now rewrite !Hdev by lia. }
  destruct (wakeup_loop_run 2 fuel 0 self ltac:(lia) ltac:(lia) Hno ltac:(lia))
    as [_ Hsil].
  unfold _wakeup, bind. now rewrite (Hsil (Hdev 2%nat ltac:(lia)) ltac:(lia)).
Qed.

(** X25: when the device does not wake up (three wake reads in a row time
    out), [_get_loop_fields] raises the device-unreachable failure after the
    three wake attempts: the LOOP command is never written, and the retry
    loop around [_loop_cmd] neither pauses nor tries again. *)
Theorem loop_fields_device_asleep (fuel : nat) (self : VantagePro) :
  (3 <= fuel)%nat ->
  (forall k, (k < 3)%nat -> next_reply self k = Silence) ->
  _get_loop_fields fuel self
  = (Raises NoDeviceException, after_wakeup_turns 3 self)
  /\ trace (port (after_wakeup_turns 3 self))
     = trace (port self) ++ concat (repeat wakeup_turn 3).
Proof.
  intros Hfuel Hdev. split; [| apply trace_after_wakeup_turns].
  unfold _get_loop_fields. cbn [loop_attempts].
  unfold _loop_cmd, _cmd, bind. now rewrite wakeup_asleep.
Qed.

(** X26: when the device does not wake up, [_get_new_archive_fields] (with a
    watermark that packs) raises the device-unreachable failure, not the
    no-new-records failure, after the three wake attempts of its first
    download attempt: the outer retry loop does not try again, nothing but
    the wake-up line feeds is written, and the watermark is unchanged. *)
Theorem archive_fields_device_asleep (fuel : nat) (self : VantagePro) :
  (3 <= fuel)%nat ->
  packable (fst (_archive_time self)) ->
  packable (snd (_archive_time self)) ->
  (forall k, (k < 3)%nat -> next_reply self k = Silence) ->
  _get_new_archive_fields fuel self
  = (Raises NoDeviceException, after_wakeup_turns 3 self)
  /\ trace (port (after_wakeup_turns 3 self))
     = trace (port self) ++ concat (repeat wakeup_turn 3)
  /\ _archive_time (after_wakeup_turns 3 self) = _archive_time self.
Proof.
  intros Hfuel Hd Ht Hdev.
  split; [| split; [apply trace_after_wakeup_turns | reflexivity]].
  destruct (pack_H_packable native _ Hd) as [b0 [b1 [E1 _]]].
  destruct (pack_H_packable native _ Ht) as [b2 [b3 [E2 _]]].
  unfold _get_new_archive_fields. cbn [dmpaft_attempts].
  unfold bind at 1. unfold bind at 1. unfold get_archive_time at 1.
  unfold bind at 1. unfold _dmpaft_cmd.
  unfold bind at 1. unfold pack_2H. rewrite E1, E2. cbn [py_bind lift ret].
  unfold bind at 1. unfold _cmd. unfold bind at 1.
  now rewrite wakeup_asleep.
Qed.

(** ** The command handshake: confirmation *)

(** X20: on the short-acknowledgement path a command is confirmed by the
    first reply that is the byte 0x06, if it comes within the three
    attempts: after [k] replies that do not match (k < 3), an acknowledgement
    makes [_cmd] return after [k + 1] sends, with no further send. *)
Theorem cmd_confirmed_by_ack (fuel : nat) (cmd : string) (args : list Z)
  (self s1 : VantagePro) (k : nat) :
  _wakeup fuel self = (Returns tt, s1) ->
  (k < 3)%nat ->
  (forall j, (j < k)%nat -> exists bs,
      next_reply s1 j = Data bs /\ bs <> [x06]) ->
  next_reply s1 k = Data [x06] ->
  _cmd fuel cmd args false self
  = (Returns tt, after_cmd_turns (S k) (cmd_text cmd args) false s1)
  /\ trace (port (after_cmd_turns (S k) (cmd_text cmd args) false s1))
     = trace (port s1)
       ++ concat (repeat (cmd_turn (cmd_text cmd args) false) (S k)).
Proof.
  intros Hwake Hk Hmis Hack. split; [| apply trace_after_cmd_turns].
  unfold _cmd, bind. rewrite Hwake.
  replace 3%nat with (k + S (2 - k))%nat by lia.
  rewrite cmd_attempts_mismatches.
  - rewrite (cmd_attempts_ack _ _ _ _ [x06])
      by (rewrite ?next_reply_after_cmd_turns, ?Nat.add_0_r; easy).
    clear. revert s1. induction k as [| k IH]; intros s1; [reflexivity |].
    cbn [after_cmd_turns]. apply IH.
  - intros j Hj. destruct (Hmis j Hj) as [bs [Hr Hne]].
    exists bs. split; [exact Hr |].
    unfold ack_token, ACK. cbn [py_eq]. unfold bytes_eqb.
    destruct (list_eq_dec byte_eq_dec bs (encode (String "006" "")))
      as [E | _]; [now elim Hne | reflexivity].
Qed.

(** X21: on the literal-OK path no reply confirms the command.  The reply is
    a [bytes] object and is compared with the [str] [OK], so whatever three
    replies the device gives, also the bytes of "\n\rOK\n\r" themselves,
    [_cmd] sends the command three times and then returns. *)
Theorem cmd_ok_path_sends_three_times (fuel : nat) (cmd : string)
  (args : list Z) (self s1 : VantagePro) :
  _wakeup fuel self = (Returns tt, s1) ->
  (forall j, (j < 3)%nat -> exists bs, next_reply s1 j = Data bs) ->
  _cmd fuel cmd args true self
  = (Returns tt, after_cmd_turns 3 (cmd_text cmd args) true s1)
  /\ trace (port (after_cmd_turns 3 (cmd_text cmd args) true s1))
     = trace (port s1)
       ++ concat (repeat (cmd_turn (cmd_text cmd args) true) 3).
Proof.
  intros Hwake Hdev. split; [| apply trace_after_cmd_turns].
  unfold _cmd, bind. rewrite Hwake.
  change 3%nat with (3 + 0)%nat at 1.
  rewrite cmd_attempts_mismatches; [reflexivity |].
  intros j Hj. destruct (Hdev j Hj) as [bs Hr].
  exists bs. split; [exact Hr | reflexivity].
Qed.

(** ** The real-time reading *)

(** X27: on a device that acknowledges the wake-up and the command,
    [_loop_cmd] writes the line feed, reads the two-byte wake acknowledgement,
    writes the text "LOOP 1 " and a newline, reads the one-byte
    acknowledgement (both reads with a timeout of 1.2 seconds), reads 99
    bytes without a timeout and returns what that read delivers, of whatever
    length. *)
Theorem loop_cmd_on_the_wire (fuel : nat) (self : VantagePro) (raw : bytes) :
  (1 <= fuel)%nat ->
  next_reply self 0 = Data [x0a; x0d] ->
  next_reply self 1 = Data [x06] ->
  next_reply self 2 = Data raw ->
  fst (_loop_cmd fuel self) = Returns raw
  /\ trace (port (snd (_loop_cmd fuel self)))
     = trace (port self) ++ wakeup_turn ++ loop_turn.
Proof.
  intros Hfuel H0 H1 H2.
  assert (E : _loop_cmd fuel self
              = (Returns raw,
                 did_read 99 None
                   (after_cmd_turn "LOOP 1" false (after_wakeup_turn self)))).
  { unfold _loop_cmd, _cmd.
    unfold bind at 1. unfold bind at 1. rewrite wakeup_first_ack by assumption.
    fold (after_wakeup_turn self).
    rewrite (cmd_attempts_ack _ _ _ _ [x06])
      by (rewrite ?next_reply_after_wakeup_turn; easy).
    apply port_read_data. unfold after_cmd_turn.
    now rewrite next_reply_did_read, next_reply_wrote,
      next_reply_after_wakeup_turn. }
  rewrite E. split; [reflexivity |].
  cbn. rewrite <- ?app_assoc. reflexivity.
Qed.

(** After [k] attempts whose frames failed the CRC check, the retry loop
    goes on as a loop of the attempts that are left, started in the session
    those [k] attempts leave. *)
Lemma loop_attempts_after_bad_frames (fuel n : nat) :
  forall (k : nat) (self s0 : VantagePro) (raw0 raw0' : bytes) (ok0 ok0' : bool),
  after_bad_frames fuel k self = Some s0 ->
  loop_attempts fuel (k + S n) raw0 ok0 self
  = loop_attempts fuel (S n) raw0' ok0' s0.
Proof.
  induction k as [| k IH]; intros self s0 raw0 raw0' ok0 ok0' Hk.
  - cbn in Hk. injection Hk as <-. reflexivity.
  - cbn [after_bad_frames] in Hk.
    change (S k + S n)%nat with (S (k + S n)).
    cbn [loop_attempts]. unfold bind at 1.
    destruct (_loop_cmd fuel self) as [[raw | e | |] s1]; try discriminate.
    destruct (VProCRC.verify raw); [discriminate |].
    exact (IH (slept 1 s1) s0 raw raw0' false ok0' Hk).
Qed.

(** X24: the first frame that passes the CRC check, be it the frame of the
    first, the second or the third attempt, is the one decoded, with no
    further command: after [k < 3] attempts whose frames failed the check
    (and the one-second pause after each), a frame that passes is decoded.
    If it has 99 bytes [_get_loop_fields] returns its record; if it has
    another length (a short read whose CRC happens to be 0) the decoding
    raises struct.error, which is not turned into the device-unreachable
    failure. *)
Theorem loop_fields_first_verified_frame (fuel k : nat)
  (self s0 s1 : VantagePro) (raw : bytes) :
  (k < 3)%nat ->
  after_bad_frames fuel k self = Some s0 ->
  _loop_cmd fuel s0 = (Returns raw, s1) ->
  VProCRC.verify raw = true ->
  _get_loop_fields fuel self = lift (unpack LoopStruct raw) s1
  /\ (List.length raw = 99%nat ->
      exists items, _get_loop_fields fuel self = (Returns items, s1))
  /\ (List.length raw <> 99%nat ->
      _get_loop_fields fuel self = (Raises StructError, s1)).
Proof.
  intros Hk Hbad Hcmd Hcrc.
  assert (E : _get_loop_fields fuel self = lift (unpack LoopStruct raw) s1).
  { unfold _get_loop_fields.
    replace 3%nat with (k + S (2 - k))%nat by lia.
    unfold bind at 1.
    rewrite (loop_attempts_after_bad_frames fuel (2 - k) k self s0
               [] [] false false Hbad).
    cbn [loop_attempts].
    unfold bind at 1. rewrite Hcmd, Hcrc. reflexivity. }
  split; [exact E |]. split.
  - intros Hlen. destruct (LoopStruct_unpack_total raw Hlen) as [items Hi].
    exists items. now rewrite E, Hi.
  - intros Hlen. rewrite E. unfold unpack.
    replace (Z.of_nat (List.length raw) =? size LoopStruct) with false;
      [reflexivity |].
    symmetry. apply Z.eqb_neq. change (size LoopStruct) with 99. lia.
Qed.

(** X23: when the frames of all three attempts fail the CRC check,
    [_get_loop_fields] raises the device-unreachable failure; it has sent the
    LOOP command three times and paused one second after each failed
    attempt, the last one included. *)
Theorem loop_fields_three_bad_frames (fuel : nat)
  (self s1 s2 s3 : VantagePro) (raw1 raw2 raw3 : bytes) :
  _loop_cmd fuel self = (Returns raw1, s1) ->
  VProCRC.verify raw1 = false ->
  _loop_cmd fuel (slept 1 s1) = (Returns raw2, s2) ->
  VProCRC.verify raw2 = false ->
  _loop_cmd fuel (slept 1 s2) = (Returns raw3, s3) ->
  VProCRC.verify raw3 = false ->
  _get_loop_fields fuel self = (Raises NoDeviceException, slept 1 s3)
  /\ trace (port (slept 1 s3)) = trace (port s3) ++ [Sleep 1].
Proof.
  intros H1 C1 H2 C2 H3 C3. split; [| reflexivity].
  unfold _get_loop_fields. cbn [loop_attempts].
  unfold bind, sleep.
  rewrite H1, C1. cbn beta iota. rewrite H2, C2. cbn beta iota.
  rewrite H3, C3. reflexivity.
Qed.

End Driver.

Lemma unpack_date_time_of_stamps_witness :
  _unpack_date_time
    (calcDateStamp {| year := 2023; month := 6; day := 15; hour := 12; minute := 30 |})
    (calcTimeStamp {| year := 2023; month := 6; day := 15; hour := 12; minute := 30 |})
  = (2023, 6, 15, 12, 30).
Proof.
  apply (unpack_date_time_of_stamps
           {| year := 2023; month := 6; day := 15; hour := 12; minute := 30 |});
    simpl; lia.
Defined.

Lemma wakeup_never_ends_on_mismatch_witness :
  fst (_wakeup 7 (session noisy_device (0, 0))) = Exhausted
  /\ trace (port (snd (_wakeup 7 (session noisy_device (0, 0)))))
     = trace (port (session noisy_device (0, 0))) ++ concat (repeat wakeup_turn 7).
Proof.
  apply (wakeup_never_ends_on_mismatch 7 (session noisy_device (0, 0))).
  intros k. exists [x00; x00]. split; reflexivity.
Defined.

(** The device wakes up and then answers the command three times with a
    byte that is not the acknowledgement. *)
Lemma cmd_timeout_raises_mismatch_returns_witness :
  let self := session (script [Data [x0a; x0d]; Data [x00]; Data [x15]; Data [x00]]) (0, 0) in
  fst (_cmd 3 "DMPAFT" [] false self) = Returns tt
  /\ trace (port (snd (_cmd 3 "DMPAFT" [] false self)))
     = trace (port (snd (_wakeup 3 self)))
       ++ concat (repeat (cmd_turn "DMPAFT" false) 3).
Proof.
  intros self.
  refine (proj2 (cmd_timeout_raises_mismatch_returns
                   3 "DMPAFT" [] false self (snd (_wakeup 3 self)) eq_refl) _).
  intros j Hj.
  destruct j as [| [| [| j]]];
    [ exists [x00]; split; reflexivity
    | exists [x15]; split; reflexivity
    | exists [x00]; split; reflexivity
    | lia ].
Defined.

(** The example of the specification: two records and three slots that were
    never written give two records. *)
Example dmpaft_two_records :
  match fst (_dmpaft_cmd LittleEndian 3 (0, 0)
               (session device_two_records (0, 0))) with
  | Returns (Some records) =>
      map (fun r => (dict_get "DateStamp" r, dict_get "TimeStamp" r)) records
  | _ => []
  end
  = [ (Some (VInt 11983), Some (VInt 1230));
      (Some (VInt 11983), Some (VInt 1235)) ].
Proof. vm_compute. reflexivity. Qed.

Lemma walk_records_collects_witness :
  exists recs,
    Forall2 (fun offset a =>
               unpack_from (ArchiveBStruct LittleEndian) blob_two_records offset
               = Val a)
            (filter (slot_collected LittleEndian blob_two_records)
                    (slot_offsets 0))
            recs
    /\ walk_records LittleEndian
         (Z.to_nat (size (ArchiveAStruct LittleEndian) * 5
                    - Z.of_nat 0 * size (ArchiveAStruct LittleEndian)))
         blob_two_records (Z.of_nat 0 * size (ArchiveAStruct LittleEndian)) []
         (session noisy_device (0, 0))
       = (Returns ([] ++ recs), after_walk 0 (session noisy_device (0, 0))).
Proof.
  apply (walk_records_collects LittleEndian blob_two_records 0 []
           (session noisy_device (0, 0))); reflexivity.
Defined.

(** C1 as stated fails: the first slot of the page has the DateStamp 0xFFFF
    and the TimeStamp 1230, so its stamps are not both the sentinel, and the
    download still discards its record. *)
Lemma date_sentinel_alone_is_discarded :
  raw_date LittleEndian blob_date_sentinel 0 = 0xffff
  /\ raw_time LittleEndian blob_date_sentinel 0 = 1230
  /\ slot_offsets 0 = [0; 52; 104; 156; 208]
  /\ fst (_dmpaft_cmd LittleEndian 3 (0, 0)
            (session device_date_sentinel (0, 0)))
     = Returns (Some []).
Proof.
  repeat split; vm_compute; reflexivity.
Qed.

Lemma pair_of_fst {A B} (x : A * B) (a : A) : fst x = a -> x = (a, snd x).
Proof. intros <-. now destruct x. Qed.

(** Two records above the watermark (0, 0): the second one, of 12:35, is
    returned and the watermark moves to its stamp. *)
Lemma get_new_archive_fields_advances_watermark_witness :
  let self := session device_two_records (0, 0) in
  exists c' new_rec,
    _get_new_archive_fields LittleEndian 3 self
    = (Returns new_rec,
       set_archive_time c' (snd (dmpaft_attempts LittleEndian 3 3 (Some []) self)))
    /\ tuple_le (_archive_time self) c' = true
    /\ match new_rec with
       | Some r => stamp r = Some c' /\ tuple_lt (_archive_time self) c' = true
       | None => c' = _archive_time self
       end.
Proof.
  intros self.
  destruct (get_new_archive_fields_advances_watermark LittleEndian 3 self
              (snd (dmpaft_attempts LittleEndian 3 3 (Some []) self))
              (match fst (dmpaft_attempts LittleEndian 3 3 (Some []) self) with
               | Returns (Some records) => records
               | _ => []
               end))
    as [c' [new_rec [Hrun [_ [Hle [_ Hsel]]]]]].
  - apply pair_of_fst. vm_compute. reflexivity.
  - exists c', new_rec. split; [exact Hrun |]. split; [exact Hle |].
    destruct new_rec as [r |]; [| exact Hsel].
    destruct Hsel as [_ H]. exact H.
Defined.

(** The header fails its CRC check in each of the three attempts. *)
Lemma no_new_records_keeps_watermark_witness :
  let self := session device_bad_header (11983, 1230) in
  fst (_get_new_archive_fields LittleEndian 3 self)
  = Raises NoNewRecordsException
  /\ _archive_time (snd (_get_new_archive_fields LittleEndian 3 self))
     = (11983, 1230).
Proof.
  intros self.
  set (s1 := snd (_dmpaft_cmd LittleEndian 3 (_archive_time self) self)).
  set (s2 := snd (_dmpaft_cmd LittleEndian 3 (_archive_time (slept 1 s1))
                    (slept 1 s1))).
  set (s3 := snd (_dmpaft_cmd LittleEndian 3 (_archive_time (slept 1 s2))
                    (slept 1 s2))).
  destruct (no_new_records_keeps_watermark LittleEndian 3 self s1 s2 s3)
    as [Hrun [Htime _]].
  - apply pair_of_fst. vm_compute. reflexivity.
  - apply pair_of_fst. vm_compute. reflexivity.
  - apply pair_of_fst. vm_compute. reflexivity.
  - rewrite Hrun. split; [reflexivity | exact Htime].
Defined.

(** C5 as stated fails: in each of the three attempts the first page
    verifies and the second page fails its CRC check.  The call raises the
    no-new-records failure and the watermark is what it was, but the first
    page set the revision flag: the session is not what it was before the
    call. *)
Lemma failed_downloads_set_the_revision_flag :
  fst (_get_new_archive_fields LittleEndian 3
         (session device_bad_second_page_thrice (11983, 1200)))
  = Raises NoNewRecordsException
  /\ _archive_time
       (snd (_get_new_archive_fields LittleEndian 3
               (session device_bad_second_page_thrice (11983, 1200))))
     = (11983, 1200)
  /\ _ARCHIVE_REV_B (session device_bad_second_page_thrice (11983, 1200))
     = None
  /\ _ARCHIVE_REV_B
       (snd (_get_new_archive_fields LittleEndian 3
               (session device_bad_second_page_thrice (11983, 1200))))
     = Some true.
Proof.
  repeat split; vm_compute; reflexivity.
Qed.

(** A session whose flag says revision B decodes a slot whose RecType byte
    is 0xFF under revision B, and the flag stays. *)
Lemma revision_flag_is_sticky_witness :
  let self := set_ARCHIVE_REV_B (Some true) (session noisy_device (0, 0)) in
  raw_rec_type blob_rec_type_ff 0 = 255
  /\ _use_rev_b_archive LittleEndian blob_rec_type_ff 0 self
     = (Returns (Some true), self)
  /\ unpack_slot LittleEndian blob_rec_type_ff 0 self
     = lift (unpack_from (ArchiveBStruct LittleEndian) blob_rec_type_ff 0) self.
Proof.
  intros self. split; [reflexivity |].
  exact (proj1 (proj2 (revision_flag_is_sticky LittleEndian))
           true blob_rec_type_ff 0 self eq_refl).
Defined.

(** A session whose flag says revision A, and the first slot of a page of
    revision-B records (its RecType byte is 0): the slot is not decoded
    under either layout, the statement raises KeyError('Barometer'). *)
Lemma revision_a_flag_decodes_no_record_witness :
  raw_rec_type blob_two_records 0 = 0
  /\ unpack_slot LittleEndian blob_two_records 0
       (set_ARCHIVE_REV_B (Some false) (session noisy_device (0, 0)))
     = (Raises (KeyError "Barometer"),
        set_ARCHIVE_REV_B (Some false) (session noisy_device (0, 0))).
Proof.
  assert (H0 : 0 <= 0) by lia.
  assert (H1 : 0 + 52 <= Z.of_nat (List.length blob_two_records))
    by (vm_compute; intros H; discriminate H).
  split; [vm_compute; reflexivity |].
  destruct (revision_a_flag_decodes_no_record LittleEndian blob_two_records 0
              (set_ARCHIVE_REV_B (Some false) (session noisy_device (0, 0)))
              H0 H1) as [Hcached _].
  exact (proj2 (Hcached eq_refl)).
Defined.

(** The header verifies, the first page gives two records, the second page
    fails its CRC check: the download returns no result and the last
    thing on the port is the write of a [str].  And a header that fails its
    CRC check does the same. *)
Lemma crc_failure_writes_str_not_escape_byte_witness :
  (let self := session device_bad_second_page (0, 0) in
   fst (_dmpaft_cmd LittleEndian 3 (0, 0) self) = Returns None
   /\ last (trace (port (snd (_dmpaft_cmd LittleEndian 3 (0, 0) self))))
           (Sleep 0)
      = Write (VStr (String "027" "")))
  /\ (let self := session device_bad_header (0, 0) in
      fst (_dmpaft_cmd LittleEndian 3 (0, 0) self) = Returns None
      /\ last (trace (port (snd (_dmpaft_cmd LittleEndian 3 (0, 0) self))))
              (Sleep 0)
         = Write (VStr (String "027" ""))).
Proof.
  assert (Hp : pack_2H LittleEndian (0, 0) = Val [x00; x00; x00; x00])
    by (vm_compute; reflexivity).
  split; intros self.
  - set (s1 := snd (_cmd 3 "DMPAFT" [] false self)).
    assert (Hcmd : _cmd 3 "DMPAFT" [] false self = (Returns tt, s1))
      by (apply pair_of_fst; vm_compute; reflexivity).
    assert (H0 : next_reply s1 0 = Data [x06]) by (vm_compute; reflexivity).
    assert (H1 : next_reply s1 1 = Data (header_frame_le 2 0))
      by (vm_compute; reflexivity).
    destruct (crc_failure_writes_str_not_escape_byte LittleEndian 3 (0, 0)
                self s1 [x00; x00; x00; x00] (header_frame_le 2 0)
                Hp Hcmd H0 H1) as [_ [Hpage _]].
    set (s2 := did_read 6 None
                 (did_read 1 None
                    (wrote (VBytes (crc_trailer [x00; x00; x00; x00])) s1)))
      in Hpage.
    set (run := read_pages LittleEndian 1 0 0 [] (wrote ACK s2)).
    set (dmp := match unpack (DmpStruct LittleEndian) (header_frame_le 2 0) with
                | Val dmp => dmp
                | Exc _ => []
                end).
    set (recs := match fst run with Returns (Some recs) => recs | _ => [] end).
    assert (H2 : run = (Returns (Some recs), snd run))
      by (apply pair_of_fst; vm_compute; reflexivity).
    assert (H3 : next_reply (snd run) 0 = Data bad_page)
      by (vm_compute; reflexivity).
    assert (H4 : VProCRC.verify (header_frame_le 2 0) = true)
      by (vm_compute; reflexivity).
    assert (H5 : unpack (DmpStruct LittleEndian) (header_frame_le 2 0) = Val dmp)
      by (vm_compute; reflexivity).
    assert (H6 : getitem dmp "Pages" = Val (VInt 2)) by (vm_compute; reflexivity).
    assert (H7 : getitem dmp "Offset" = Val (VInt 0)) by (vm_compute; reflexivity).
    assert (H8 : (1 < Z.to_nat 2)%nat) by (vm_compute; lia).
    assert (H9 : VProCRC.verify bad_page = false) by (vm_compute; reflexivity).
    destruct (Hpage dmp 2 0 1%nat recs (snd run) bad_page
                H4 H5 H6 H7 H8 H2 H3 H9) as [E _].
    rewrite E. split; [reflexivity | vm_compute; reflexivity].
  - set (s1 := snd (_cmd 3 "DMPAFT" [] false self)).
    assert (Hcmd : _cmd 3 "DMPAFT" [] false self = (Returns tt, s1))
      by (apply pair_of_fst; vm_compute; reflexivity).
    assert (H0 : next_reply s1 0 = Data [x06]) by (vm_compute; reflexivity).
    assert (H1 : next_reply s1 1 = Data bad_header) by (vm_compute; reflexivity).
    assert (H2 : VProCRC.verify bad_header = false) by (vm_compute; reflexivity).
    destruct (crc_failure_writes_str_not_escape_byte LittleEndian 3 (0, 0)
                self s1 [x00; x00; x00; x00] bad_header Hp Hcmd H0 H1)
      as [Hheader _].
    rewrite (proj1 (Hheader H2)). split; [reflexivity | vm_compute; reflexivity].
Defined.

(** The examples of the specification on a frame: pressure word 30000 gives
    30.0, temperature word 725 gives 72.5, rain-rate word 150 gives 1.5,
    sunrise 601 gives "06:01"; the battery word 512 gives 3.0 volts and the
    storm start date 25239 gives "2023-6-5". *)
Example loop_frame_decodes :
  (let* items := unpack (LoopStruct LittleEndian) loop_frame_le in
   Val (map (fun k => dict_get k items)
            ["Pressure"; "TempIn"; "TempOut"; "RainRate"; "BatteryVolts";
             "SunRise"; "SunSet"; "StormStartDate"]))
  = Val [ Some (VFloat 30); Some (VFloat 72.5); Some (VFloat 72.5);
          Some (VFloat 1.5); Some (VFloat 3);
          Some (VStr "06:01"); Some (VStr "18:30"); Some (VStr "2023-6-5") ].
Proof. vm_compute. reflexivity. Qed.

(** * Witnesses of the further properties *)

Ltac by_vm := vm_compute; reflexivity.

Lemma crc_detects_changed_byte_witness :
  VProCRC.get ([x01] ++ x00 :: [x02]) <> VProCRC.get ([x01] ++ x01 :: [x02])
  /\ (VProCRC.verify ([x01] ++ x00 :: [x02]) = true ->
      VProCRC.verify ([x01] ++ x01 :: [x02]) = false).
Proof.
  apply (crc_detects_changed_byte [x01] [x02] x00 x01). discriminate.
Defined.

Lemma stamps_of_unpacked_date_time_witness :
  let '(y, m, d, h, mi) := _unpack_date_time 11983 1230 in
  let decoded := {| year := y; month := m; day := d; hour := h; minute := mi |} in
  calcDateStamp decoded = 11983 /\ calcTimeStamp decoded = 1230.
Proof.
  apply (stamps_of_unpacked_date_time 11983 1230); lia.
Defined.

Lemma stamps_order_is_chronological_witness :
  let a := {| year := 2023; month := 6; day := 15; hour := 12; minute := 30 |} in
  let b := {| year := 2023; month := 6; day := 15; hour := 12; minute := 35 |} in
  tuple_lt (stamps a) (stamps b) = true <-> datetime_lt a b.
Proof.
  intros a b.
  apply (stamps_order_is_chronological a b); unfold stampable; cbn; lia.
Defined.

Lemma unpack_storm_date_of_packed_witness :
  _unpack_storm_date (23 + 5 * 128 + 6 * 4096)
  = (str_int (2000 + 23) ++ "-" ++ str_int 6 ++ "-" ++ str_int 5)%string.
Proof.
  apply (unpack_storm_date_of_packed 23 6 5); lia.
Defined.

Lemma unpack_time_is_HH_MM_witness :
  _unpack_time (100 * 6 + 1) = (two_digits 6 ++ ":" ++ two_digits 1)%string
  /\ String.length (_unpack_time (100 * 6 + 1)) = 5%nat.
Proof.
  apply (unpack_time_is_HH_MM 6 1); lia.
Defined.

Lemma LoopStruct_unpack_fields_witness :
  exists items,
    unpack (LoopStruct LittleEndian) loop_frame_le = Val items
    /\ getitem items "Pressure"
       = Val (VFloat (PrimFloat.div
                        (float_of_int (raw_word LittleEndian loop_frame_le 7))
                        1000)).
Proof.
  assert (Hlen : List.length loop_frame_le = 99%nat) by by_vm.
  destruct (LoopStruct_unpack_fields LittleEndian loop_frame_le Hlen)
    as [items [H1 [H2 _]]].
  exists items. split; assumption.
Defined.

Lemma ArchiveB_unpack_fields_witness :
  exists a,
    unpack_from (ArchiveBStruct LittleEndian) blob_two_records 52 = Val a
    /\ getitem a "TimeStamp"
       = Val (VInt (raw_time LittleEndian blob_two_records (Z.to_nat 52))).
Proof.
  assert (H0 : 0 <= 52) by lia.
  assert (H1 : 52 + 52 <= Z.of_nat (List.length blob_two_records))
    by (vm_compute; intros H; discriminate H).
  pose proof (ArchiveB_unpack_fields LittleEndian blob_two_records 52 H0 H1) as H.
  cbv zeta in H.
  destruct (_unpack_date_time
              (raw_date LittleEndian blob_two_records (Z.to_nat 52))
              (raw_time LittleEndian blob_two_records (Z.to_nat 52)))
    as [[[[y m] d] h] mi].
  destruct H as [a [Ha [_ [Ht _]]]].
  exists a. split; assumption.
Defined.

(** The only record of the page has the RecType byte 0xFF: the probe
    selects revision A and the walk raises at the first slot. *)
Lemma walk_records_rev_a_raises_witness :
  walk_records LittleEndian
    (Z.to_nat (size (ArchiveAStruct LittleEndian) * 5
               - Z.of_nat 0 * size (ArchiveAStruct LittleEndian)))
    blob_rec_type_ff (Z.of_nat 0 * size (ArchiveAStruct LittleEndian)) []
    (session device_asleep (0, 0))
  = (Raises (KeyError "Barometer"),
     set_ARCHIVE_REV_B (Some false) (session device_asleep (0, 0))).
Proof.
  apply (walk_records_rev_a_raises LittleEndian blob_rec_type_ff 0 []
           (session device_asleep (0, 0))); [by_vm | lia | by_vm].
Defined.

(** The same record in a download: the archive poll raises
    KeyError('Barometer'). *)
Example archive_poll_of_revision_a_raises :
  fst (_get_new_archive_fields LittleEndian 3 (session device_rec_type_ff (0, 0)))
  = Raises (KeyError "Barometer").
Proof. by_vm. Qed.

Lemma dmpaft_returns_no_sentinel_witness :
  let run := _dmpaft_cmd LittleEndian 3 (0, 0) (session device_two_records (0, 0)) in
  Forall no_sentinel
         (match fst run with Returns (Some records) => records | _ => [] end).
Proof.
  intros run.
  apply (dmpaft_returns_no_sentinel LittleEndian 3 (0, 0)
           (session device_two_records (0, 0)) (snd run)).
  apply pair_of_fst. by_vm.
Defined.

(** A session whose log start date is 1999-12-31 23:55. *)
Lemma unpackable_watermark_raises_witness :
  let start := {| year := 1999; month := 12; day := 31; hour := 23; minute := 55 |} in
  let self := session device_two_records (stamps start) in
  _dmpaft_cmd LittleEndian 3 (_archive_time self) self = (Raises StructError, self)
  /\ _get_new_archive_fields LittleEndian 3 self = (Raises StructError, self).
Proof.
  intros start self.
  apply (unpackable_watermark_raises LittleEndian 3 self).
  intros [H _]. revert H. apply stamps_outside_epoch; cbn; lia.
Defined.

Lemma dmpaft_bad_time_stamp_ack_witness :
  let self := session device_bad_time_stamp_ack (0, 0) in
  let s1 := snd (_cmd 3 "DMPAFT" [] false self) in
  _dmpaft_cmd LittleEndian 3 (0, 0) self
  = (Returns None, after_time_stamp [x00; x00; x00; x00] s1)
  /\ trace (port (after_time_stamp [x00; x00; x00; x00] s1))
     = trace (port s1)
       ++ [Write (VBytes (crc_trailer [x00; x00; x00; x00])); Read 1 None].
Proof.
  intros self s1.
  assert (Hp : pack_2H LittleEndian (0, 0) = Val [x00; x00; x00; x00]) by by_vm.
  assert (Hcmd : _cmd 3 "DMPAFT" [] false self = (Returns tt, s1))
    by (apply pair_of_fst; by_vm).
  assert (H0 : next_reply s1 0 = Data [x21]) by by_vm.
  apply (dmpaft_bad_time_stamp_ack LittleEndian 3 (0, 0) self s1
           [x00; x00; x00; x00] [x21] Hp Hcmd H0).
  discriminate.
Defined.

Lemma time_stamp_frame_verifies_witness :
  exists tbuf crc,
    pack_2H LittleEndian (11983, 1230) = Val tbuf
    /\ pack_H BigEndian (VProCRC.get tbuf) = Val crc
    /\ raw_word LittleEndian tbuf 0 = fst (11983, 1230)
    /\ raw_word LittleEndian tbuf 2 = snd (11983, 1230)
    /\ List.length (tbuf ++ crc) = 6%nat
    /\ VProCRC.verify (tbuf ++ crc) = true.
Proof.
  apply (time_stamp_frame_verifies LittleEndian (11983, 1230));
    unfold packable; cbn; lia.
Defined.

Lemma empty_download_returns_none_witness :
  let self := session device_empty_download (11983, 1230) in
  fst (_get_new_archive_fields LittleEndian 3 self) = Returns None
  /\ _archive_time (snd (_get_new_archive_fields LittleEndian 3 self))
     = _archive_time self.
Proof.
  intros self.
  set (s1 := snd (_cmd 3 "DMPAFT" [] false self)).
  set (tbuf := match pack_2H LittleEndian (_archive_time self) with
               | Val b => b
               | Exc _ => []
               end).
  set (raw := header_frame_le 0 0).
  set (dmp := match unpack (DmpStruct LittleEndian) raw with
              | Val d => d
              | Exc _ => []
              end).
  assert (Hp : pack_2H LittleEndian (_archive_time self) = Val tbuf) by by_vm.
  assert (Hcmd : _cmd 3 "DMPAFT" [] false self = (Returns tt, s1))
    by (apply pair_of_fst; by_vm).
  assert (H0 : next_reply s1 0 = Data [x06]) by by_vm.
  assert (H1 : next_reply s1 1 = Data raw) by by_vm.
  assert (H2 : VProCRC.verify raw = true) by by_vm.
  assert (H3 : unpack (DmpStruct LittleEndian) raw = Val dmp) by by_vm.
  assert (H4 : getitem dmp "Pages" = Val (VInt 0)) by by_vm.
  assert (H5 : getitem dmp "Offset" = Val (VInt 0)) by by_vm.
  destruct (empty_download_returns_none LittleEndian 3 self s1 tbuf raw dmp 0
              Hp Hcmd H0 H1 H2 H3 H4 H5) as [_ [E Ht]].
  rewrite E. split; [reflexivity | exact Ht].
Defined.

Lemma same_records_are_not_reported_again_witness :
  let self := session device_same_download_twice (0, 0) in
  let s2 := snd (_get_new_archive_fields LittleEndian 3 self) in
  fst (_get_new_archive_fields LittleEndian 3 s2) = Returns None
  /\ _archive_time (snd (_get_new_archive_fields LittleEndian 3 s2))
     = _archive_time s2.
Proof.
  intros self s2.
  set (d1 := dmpaft_attempts LittleEndian 3 3 (Some []) self).
  set (records := match fst d1 with Returns (Some r) => r | _ => [] end).
  set (first := match fst (_get_new_archive_fields LittleEndian 3 self) with
                | Returns r => r
                | _ => None
                end).
  set (s3 := snd (dmpaft_attempts LittleEndian 3 3 (Some []) s2)).
  assert (H1 : d1 = (Returns (Some records), snd d1))
    by (apply pair_of_fst; by_vm).
  assert (H2 : _get_new_archive_fields LittleEndian 3 self = (Returns first, s2))
    by (apply pair_of_fst; by_vm).
  assert (H3 : dmpaft_attempts LittleEndian 3 3 (Some []) s2
               = (Returns (Some records), s3))
    by (apply pair_of_fst; by_vm).
  destruct (same_records_are_not_reported_again LittleEndian 3 self (snd d1)
              s2 s3 records first H1 H2 H3) as [E Ht].
  rewrite E. split; [reflexivity | exact Ht].
Defined.

Lemma wakeup_ends_at_ack_or_third_timeout_witness :
  let self := session device_wakes_late (0, 0) in
  _wakeup 5 self = (Returns tt, after_wakeup_turns 5 self)
  /\ trace (port (after_wakeup_turns 5 self))
     = trace (port self) ++ concat (repeat wakeup_turn 5).
Proof.
  intros self.
  assert (Hno : forall k, (k < 4)%nat -> is_wake_ack (next_reply self k) = false).
  { intros k Hk. destruct k as [| [| [| [| k]]]]; [by_vm | by_vm | by_vm | by_vm | lia]. }
  assert (Hc : (timeouts_before self 4 < 3)%nat) by (vm_compute; lia).
  destruct (wakeup_ends_at_ack_or_third_timeout 4 5 self ltac:(lia) Hno Hc)
    as [Hack [_ Htr]].
  split; [apply Hack; by_vm | exact Htr].
Defined.

Lemma cmd_confirmed_by_ack_witness :
  let self := session device_ack_second (0, 0) in
  let s1 := snd (_wakeup 3 self) in
  _cmd 3 "DMPAFT" [] false self
  = (Returns tt, after_cmd_turns 2 (cmd_text "DMPAFT" []) false s1)
  /\ trace (port (after_cmd_turns 2 (cmd_text "DMPAFT" []) false s1))
     = trace (port s1)
       ++ concat (repeat (cmd_turn (cmd_text "DMPAFT" []) false) 2).
Proof.
  intros self s1.
  assert (Hw : _wakeup 3 self = (Returns tt, s1)) by (apply pair_of_fst; by_vm).
  apply (cmd_confirmed_by_ack 3 "DMPAFT" [] self s1 1 Hw); [lia | | by_vm].
  intros j Hj. destruct j as [| j]; [| lia].
  exists [x15]. split; [by_vm | discriminate].
Defined.

(** SETPER 5, as [__init__] asks for it: the device answers the literal OK
    reply each time and the command is still sent three times. *)
Lemma cmd_ok_path_sends_three_times_witness :
  let self := session device_literal_ok (0, 0) in
  let s1 := snd (_wakeup 3 self) in
  _cmd 3 "SETPER" [5] true self
  = (Returns tt, after_cmd_turns 3 (cmd_text "SETPER" [5]) true s1)
  /\ trace (port (after_cmd_turns 3 (cmd_text "SETPER" [5]) true s1))
     = trace (port s1)
       ++ concat (repeat (cmd_turn (cmd_text "SETPER" [5]) true) 3).
Proof.
  intros self s1.
  assert (Hw : _wakeup 3 self = (Returns tt, s1)) by (apply pair_of_fst; by_vm).
  apply (cmd_ok_path_sends_three_times 3 "SETPER" [5] self s1 Hw).
  intros j Hj. exists ok_bytes.
  destruct j as [| [| [| j]]]; [by_vm | by_vm | by_vm | lia].
Defined.

Lemma loop_cmd_on_the_wire_witness :
  let self := session device_loop_frame (0, 0) in
  fst (_loop_cmd LittleEndian 3 self) = Returns loop_frame_le
  /\ trace (port (snd (_loop_cmd LittleEndian 3 self)))
     = trace (port self) ++ wakeup_turn ++ loop_turn.
Proof.
  intros self.
  apply (loop_cmd_on_the_wire LittleEndian 3 self loop_frame_le);
    [lia | by_vm | by_vm | by_vm].
Defined.

(** A 99-byte frame that follows a frame failing the CRC check is decoded;
    a two-byte answer whose CRC is 0 raises struct.error. *)
Lemma loop_fields_first_verified_frame_witness :
  (exists items,
      fst (_get_loop_fields LittleEndian 3
             (session device_loop_second_frame (0, 0)))
      = Returns items)
  /\ fst (_get_loop_fields LittleEndian 3 (session device_loop_short (0, 0)))
     = Raises StructError.
Proof.
  split.
  - set (self := session device_loop_second_frame (0, 0)).
    set (s0 := slept 1 (snd (_loop_cmd LittleEndian 3 self))).
    set (s1 := snd (_loop_cmd LittleEndian 3 s0)).
    assert (Hk : (1 < 3)%nat) by lia.
    assert (Hb : after_bad_frames LittleEndian 3 1 self = Some s0) by by_vm.
    assert (Hc : _loop_cmd LittleEndian 3 s0 = (Returns loop_frame_le, s1))
      by (apply pair_of_fst; by_vm).
    assert (Hv : VProCRC.verify loop_frame_le = true) by by_vm.
    assert (Hl : List.length loop_frame_le = 99%nat) by by_vm.
    destruct (loop_fields_first_verified_frame LittleEndian 3 1 self s0 s1
                loop_frame_le Hk Hb Hc Hv) as [_ [H _]].
    destruct (H Hl) as [items E]. exists items. now rewrite E.
  - set (self := session device_loop_short (0, 0)).
    set (s1 := snd (_loop_cmd LittleEndian 3 self)).
    assert (Hk : (0 < 3)%nat) by lia.
    assert (Hb : after_bad_frames LittleEndian 3 0 self = Some self)
      by reflexivity.
    assert (Hc : _loop_cmd LittleEndian 3 self = (Returns [x00; x00], s1))
      by (apply pair_of_fst; by_vm).
    assert (Hv : VProCRC.verify [x00; x00] = true) by by_vm.
    destruct (loop_fields_first_verified_frame LittleEndian 3 0 self self s1
                [x00; x00] Hk Hb Hc Hv) as [_ [_ H]].
    rewrite H by discriminate. reflexivity.
Defined.

Lemma loop_fields_three_bad_frames_witness :
  let self := session device_loop_bad_frames (0, 0) in
  fst (_get_loop_fields LittleEndian 3 self) = Raises NoDeviceException
  /\ List.length (filter (fun e => match e with Sleep _ => true | _ => false end)
                         (trace (port (snd (_get_loop_fields LittleEndian 3 self)))))
     = 3%nat.
Proof.
  intros self.
  set (s1 := snd (_loop_cmd LittleEndian 3 self)).
  set (s2 := snd (_loop_cmd LittleEndian 3 (slept 1 s1))).
  set (s3 := snd (_loop_cmd LittleEndian 3 (slept 1 s2))).
  assert (H1 : _loop_cmd LittleEndian 3 self = (Returns bad_loop_frame, s1))
    by (apply pair_of_fst; by_vm).
  assert (H2 : _loop_cmd LittleEndian 3 (slept 1 s1) = (Returns bad_loop_frame, s2))
    by (apply pair_of_fst; by_vm).
  assert (H3 : _loop_cmd LittleEndian 3 (slept 1 s2) = (Returns bad_loop_frame, s3))
    by (apply pair_of_fst; by_vm).
  assert (Hv : VProCRC.verify bad_loop_frame = false) by by_vm.
  destruct (loop_fields_three_bad_frames LittleEndian 3 self s1 s2 s3
              bad_loop_frame bad_loop_frame bad_loop_frame H1 Hv H2 Hv H3 Hv)
    as [E _].
  rewrite E. split; [reflexivity | by_vm].
Defined.

Lemma loop_fields_device_asleep_witness :
  let self := session device_asleep (0, 0) in
  _get_loop_fields LittleEndian 3 self
  = (Raises NoDeviceException, after_wakeup_turns 3 self)
  /\ trace (port (after_wakeup_turns 3 self))
     = trace (port self) ++ concat (repeat wakeup_turn 3).
Proof.
  intros self.
  apply (loop_fields_device_asleep LittleEndian 3 self); [lia | reflexivity].
Defined.

Lemma archive_fields_device_asleep_witness :
  let self := session device_asleep (11983, 1230) in
  _get_new_archive_fields LittleEndian 3 self
  = (Raises NoDeviceException, after_wakeup_turns 3 self)
  /\ trace (port (after_wakeup_turns 3 self))
     = trace (port self) ++ concat (repeat wakeup_turn 3)
  /\ _archive_time (after_wakeup_turns 3 self) = _archive_time self.
Proof.
  intros self.
  apply (archive_fields_device_asleep LittleEndian 3 self);
    [lia | unfold packable; cbn; lia | unfold packable; cbn; lia | reflexivity].
Defined.
